(** * tiktok_scraper.py: deduplication ledger, rate-limit state and the
      per-streamer monitoring loop of [EnhancedTikTokScraper]

    A shallow embedding of the parts of [src/tiktok_scraper.py] that decide
    which comment events are written to the session file, how rate limits
    are recorded and checked, and how long the monitoring loop sleeps.

    Conventions of the embedding:
    - a Python [str] is the list of its code points ([list N]);
    - [time.time()] readings and every duration are exact rationals ([Q]):
      every float is one, and the rounding of float arithmetic is left out;
      a float power whose result is out of range raises [OverflowError],
      and that is kept;
    - a Python [dict] is its list of items in insertion order;
    - [hashlib.md5(..).hexdigest()] is RFC 1321, written out below;
    - [str.lower] and [unicodedata.normalize('NFC', _)] need the Unicode
      character database and are parameters of the development. *)

From Stdlib Require Import NArith ZArith QArith Qminmax Qpower Qabs.
From Stdlib Require Import List Bool Ascii String Arith Lia Lqa.
From Stdlib Require Import Permutation Sorted.
Import ListNotations.

Set Implicit Arguments.

(* ------------------------------------------------------------------ *)
(** ** Python strings *)

Module PyStr.
Local Open Scope N_scope.

(** A string is the sequence of its code points. *)
Definition str := list N.

(** [a == b] *)
Fixpoint eqb (a b : str) : bool :=
  match a, b with
  | [], [] => true
  | x :: a', y :: b' => (x =? y) && eqb a' b'
  | _, _ => false
  end.

(** ASCII literals. *)
Definition lit (s : string) : str :=
  List.map N_of_ascii (list_ascii_of_string s).

(** [str.isspace] for one character: the characters [str.strip()] removes. *)
Definition isspace (c : N) : bool :=
  ((0x09 <=? c) && (c <=? 0x0D)) || ((0x1C <=? c) && (c <=? 0x20))
  || (c =? 0x85) || (c =? 0xA0) || (c =? 0x1680)
  || ((0x2000 <=? c) && (c <=? 0x200A))
  || (c =? 0x2028) || (c =? 0x2029) || (c =? 0x202F) || (c =? 0x205F)
  || (c =? 0x3000).

Fixpoint lstrip (s : str) : str :=
  match s with
  | [] => []
  | c :: s' => if isspace c then lstrip s' else s
  end.

Definition rstrip (s : str) : str := rev (lstrip (rev s)).

(** [s.strip()] *)
Definition strip (s : str) : str := rstrip (lstrip s).

(** [s.replace(c, '')] and [s.replace(c, d)] for one-character [c], [d]. *)
Definition remove_char (c : N) (s : str) : str :=
  filter (fun x => negb (x =? c)) s.

Definition replace_char (c d : N) (s : str) : str :=
  List.map (fun x => if x =? c then d else x) s.

(** [s.startswith(p)] *)
Fixpoint startswith (s p : str) : bool :=
  match p, s with
  | [], _ => true
  | _ :: _, [] => false
  | a :: p', b :: s' => (a =? b) && startswith s' p'
  end.

(** [p in s] (substring test). *)
Fixpoint contains (s p : str) : bool :=
  startswith s p ||
  match s with
  | [] => false
  | _ :: s' => contains s' p
  end.

(** [s.encode('utf-8')].  The code points are taken to be Unicode scalar
    values, as text decoded from the wire is; Python raises on a lone
    surrogate, which is outside this model. *)
Definition utf8_char (c : N) : list N :=
  if c <? 0x80 then [c]
  else if c <? 0x800 then
    [N.lor 0xC0 (N.shiftr c 6); N.lor 0x80 (N.land c 0x3F)]
  else if c <? 0x10000 then
    [N.lor 0xE0 (N.shiftr c 12);
     N.lor 0x80 (N.land (N.shiftr c 6) 0x3F);
     N.lor 0x80 (N.land c 0x3F)]
  else
    [N.lor 0xF0 (N.shiftr c 18);
     N.lor 0x80 (N.land (N.shiftr c 12) 0x3F);
     N.lor 0x80 (N.land (N.shiftr c 6) 0x3F);
     N.lor 0x80 (N.land c 0x3F)].

Definition encode_utf8 (s : str) : list N := flat_map utf8_char s.

(** [str.lower] on ASCII text, where it only maps A-Z to a-z. *)
Definition ascii_lower (s : str) : str :=
  List.map (fun c => if (0x41 <=? c) && (c <=? 0x5A) then c + 32 else c) s.

End PyStr.

(* ------------------------------------------------------------------ *)
(** ** MD5 (RFC 1321), as [hashlib.md5(data).hexdigest()] *)

Module MD5.
Local Open Scope N_scope.

Definition w32 (x : N) : N := x mod 0x100000000.

Definition rotl (x c : N) : N :=
  w32 (N.lor (N.shiftl x c) (N.shiftr x (32 - c))).

Definition lnot32 (x : N) : N := N.lxor x 0xFFFFFFFF.

Definition K : list N :=
  [0xd76aa478; 0xe8c7b756; 0x242070db; 0xc1bdceee;
   0xf57c0faf; 0x4787c62a; 0xa8304613; 0xfd469501;
   0x698098d8; 0x8b44f7af; 0xffff5bb1; 0x895cd7be;
   0x6b901122; 0xfd987193; 0xa679438e; 0x49b40821;
   0xf61e2562; 0xc040b340; 0x265e5a51; 0xe9b6c7aa;
   0xd62f105d; 0x02441453; 0xd8a1e681; 0xe7d3fbc8;
   0x21e1cde6; 0xc33707d6; 0xf4d50d87; 0x455a14ed;
   0xa9e3e905; 0xfcefa3f8; 0x676f02d9; 0x8d2a4c8a;
   0xfffa3942; 0x8771f681; 0x6d9d6122; 0xfde5380c;
   0xa4beea44; 0x4bdecfa9; 0xf6bb4b60; 0xbebfbc70;
   0x289b7ec6; 0xeaa127fa; 0xd4ef3085; 0x04881d05;
   0xd9d4d039; 0xe6db99e5; 0x1fa27cf8; 0xc4ac5665;
   0xf4292244; 0x432aff97; 0xab9423a7; 0xfc93a039;
   0x655b59c3; 0x8f0ccc92; 0xffeff47d; 0x85845dd1;
   0x6fa87e4f; 0xfe2ce6e0; 0xa3014314; 0x4e0811a1;
   0xf7537e82; 0xbd3af235; 0x2ad7d2bb; 0xeb86d391]%N.

Definition S : list N :=
  [7; 12; 17; 22; 7; 12; 17; 22; 7; 12; 17; 22; 7; 12; 17; 22;
   5; 9; 14; 20; 5; 9; 14; 20; 5; 9; 14; 20; 5; 9; 14; 20;
   4; 11; 16; 23; 4; 11; 16; 23; 4; 11; 16; 23; 4; 11; 16; 23;
   6; 10; 15; 21; 6; 10; 15; 21; 6; 10; 15; 21; 6; 10; 15; 21]%N.

(** Little-endian bytes of a word, and back. *)
Fixpoint le_bytes (n : nat) (x : N) : list N :=
  match n with
  | O => []
  | Datatypes.S n' => (x mod 256) :: le_bytes n' (x / 256)
  end.

Fixpoint le_word (bs : list N) : N :=
  match bs with
  | [] => 0
  | b :: bs' => b + 256 * le_word bs'
  end.

(** Padding: one 0x80 byte, zeros up to 56 mod 64, the bit length on 64 bits. *)
Definition pad (msg : list N) : list N :=
  let len := List.length msg in
  let zeros := ((55 + 64 - len mod 64) mod 64)%nat in
  msg ++ [0x80] ++ repeat 0 zeros ++ le_bytes 8 (N.of_nat len * 8).

Fixpoint chunks (fuel : nat) (bs : list N) : list (list N) :=
  match fuel, bs with
  | O, _ => []
  | _, [] => []
  | Datatypes.S f, _ => firstn 64 bs :: chunks f (skipn 64 bs)
  end.

Fixpoint words (n : nat) (bs : list N) : list N :=
  match n with
  | O => []
  | Datatypes.S n' => le_word (firstn 4 bs) :: words n' (skipn 4 bs)
  end.

Record regs := Regs { rA : N; rB : N; rC : N; rD : N }.

Definition round (M : list N) (r : regs) (i : nat) : regs :=
  let '(Regs a b c d) := r in
  let '(f, g) :=
    if (i <? 16)%nat then
      (N.lor (N.land b c) (N.land (lnot32 b) d), i)
    else if (i <? 32)%nat then
      (N.lor (N.land d b) (N.land (lnot32 d) c), ((5 * i + 1) mod 16)%nat)
    else if (i <? 48)%nat then
      (N.lxor (N.lxor b c) d, ((3 * i + 5) mod 16)%nat)
    else
      (N.lxor c (N.lor b (lnot32 d)), ((7 * i) mod 16)%nat) in
  let f' := w32 (f + a + nth i K 0 + nth g M 0) in
  Regs d (w32 (b + rotl f' (nth i S 0))) b c.

Definition process (r : regs) (chunk : list N) : regs :=
  let M := words 16 chunk in
  let r' := fold_left (round M) (seq 0 64) r in
  Regs (w32 (rA r + rA r')) (w32 (rB r + rB r'))
       (w32 (rC r + rC r')) (w32 (rD r + rD r')).

Definition init : regs :=
  Regs 0x67452301 0xefcdab89 0x98badcfe 0x10325476.

Definition digest (msg : list N) : list N :=
  let p := pad msg in
  let r := fold_left process (chunks (List.length p) p) init in
  le_bytes 4 (rA r) ++ le_bytes 4 (rB r) ++ le_bytes 4 (rC r)
  ++ le_bytes 4 (rD r).

Definition hex_digit (x : N) : N :=
  if x <? 10 then 48 + x else 87 + x.

(** The digest in lowercase hexadecimal, as a string of 32 characters. *)
Definition hexdigest (msg : list N) : PyStr.str :=
  flat_map (fun b => [hex_digit (b / 16); hex_digit (b mod 16)]) (digest msg).

End MD5.

Import PyStr.
Local Open Scope N_scope.

(** [hashlib.md5(s.encode('utf-8')).hexdigest()] *)
Definition md5_hex (s : str) : str := MD5.hexdigest (encode_utf8 s).

(* ------------------------------------------------------------------ *)
(** ** Timestamps *)

Local Open Scope Q_scope.

(** [a < b] on timestamps, as a boolean. *)
Definition Qltb (a b : Q) : bool := negb (Qle_bool b a).

(* ------------------------------------------------------------------ *)
(** ** Python dictionaries with string keys *)

Module Dict.
Section Dict.
Variable V : Type.

(** The items in insertion order. *)
Definition dict := list (str * V).

(** [d.get(k)] *)
Fixpoint get (k : str) (d : dict) : option V :=
  match d with
  | [] => None
  | (k', v) :: d' => if eqb k k' then Some v else get k d'
  end.

(** [k in d] *)
Definition mem (k : str) (d : dict) : bool :=
  match get k d with Some _ => true | None => false end.

(** [d[k] = v]: an existing key keeps its place, a new one goes last. *)
Fixpoint set (k : str) (v : V) (d : dict) : dict :=
  match d with
  | [] => [(k, v)]
  | (k', v') :: d' =>
      if eqb k k' then (k', v) :: d' else (k', v') :: set k v d'
  end.

(** [del d[k]] *)
Definition del (k : str) (d : dict) : dict :=
  filter (fun kv => negb (eqb k (fst kv))) d.

(** [dict(items)] *)
Definition of_items (l : list (str * V)) : dict :=
  fold_left (fun d kv => set (fst kv) (snd kv) d) l [].

(** Keys of a dictionary are pairwise distinct. *)
Definition wf (d : dict) : Prop := NoDup (List.map fst d).
End Dict.
End Dict.

Import Dict.

(** A ledger maps comment hashes to the time they were last recorded. *)
Definition ledger := dict Q.

(* ------------------------------------------------------------------ *)
(** ** Configuration, statistics and the scraper's state *)

(** [RateLimitConfig]; [default_config] holds the dataclass defaults. *)
Record RateLimitConfig := {
  base_delay : Q;
  max_delay : Q;
  rate_limit_cooldown : Q;
  global_rate_limit_duration : Q;
  per_streamer_rate_limit : Q;
  max_concurrent_connections : nat;
  min_connection_interval : Q;
  pre_connection_delay : Q * Q;
  connection_timeout : Q;
  retry_attempts : nat;
  backoff_multiplier : Q;
  jitter_range : Q * Q
}.

Definition default_config : RateLimitConfig := {|
  base_delay := 15;
  max_delay := 1800;
  rate_limit_cooldown := 3600;
  global_rate_limit_duration := 1800;
  per_streamer_rate_limit := 3600;
  max_concurrent_connections := 2;
  min_connection_interval := 5;
  pre_connection_delay := (2, 5);
  connection_timeout := 45;
  retry_attempts := 3;
  backoff_multiplier := 2;
  jitter_range := (0.8, 1.2)
|}.

(** [ScrapingStats], without its two [datetime] fields. *)
Record ScrapingStats := {
  total_streamers : nat;
  active_connections : nat;
  comments_captured : nat;
  likes_captured : nat;
  shares_captured : nat;
  follows_captured : nat;
  duplicates_filtered : nat;
  rate_limit_hits : nat;
  connection_attempts : nat;
  failed_connections : nat
}.

Definition empty_stats : ScrapingStats :=
  Build_ScrapingStats 0 0 0 0 0 0 0 0 0 0.

(** The fields of [EnhancedTikTokScraper] the monitored code reads or
    writes.  [session_files] holds, for each streamer with a session file,
    the lines written to it; [connection_semaphore] is the number of free
    permits; [active_clients] keeps the streamers that have a client. *)
Record Scraper := {
  config : RateLimitConfig;
  stats : ScrapingStats;
  active_clients : list str;
  active_sessions : list str;
  session_files : dict (list str);
  recent_comments : dict ledger;
  global_rate_limit_until : Q;
  streamer_rate_limits : dict Q;
  connection_semaphore : nat;
  last_connection_time : Q;
  running : bool
}.

(** The state [__init__] builds, with an empty comment history. *)
Definition init_scraper (cfg : RateLimitConfig) : Scraper := {|
  config := cfg;
  stats := empty_stats;
  active_clients := [];
  active_sessions := [];
  session_files := [];
  recent_comments := [];
  global_rate_limit_until := 0;
  streamer_rate_limits := [];
  connection_semaphore := max_concurrent_connections cfg;
  last_connection_time := 0;
  running := true
|}.

Definition with_stats (f : ScrapingStats -> ScrapingStats) (s : Scraper)
  : Scraper :=
  {| config := config s; stats := f (stats s);
     active_clients := active_clients s;
     active_sessions := active_sessions s;
     session_files := session_files s;
     recent_comments := recent_comments s;
     global_rate_limit_until := global_rate_limit_until s;
     streamer_rate_limits := streamer_rate_limits s;
     connection_semaphore := connection_semaphore s;
     last_connection_time := last_connection_time s;
     running := running s |}.

Definition with_recent_comments (rc : dict ledger) (s : Scraper) : Scraper :=
  {| config := config s; stats := stats s;
     active_clients := active_clients s;
     active_sessions := active_sessions s;
     session_files := session_files s;
     recent_comments := rc;
     global_rate_limit_until := global_rate_limit_until s;
     streamer_rate_limits := streamer_rate_limits s;
     connection_semaphore := connection_semaphore s;
     last_connection_time := last_connection_time s;
     running := running s |}.

Definition with_session_files (fs : dict (list str)) (s : Scraper) : Scraper :=
  {| config := config s; stats := stats s;
     active_clients := active_clients s;
     active_sessions := active_sessions s;
     session_files := fs;
     recent_comments := recent_comments s;
     global_rate_limit_until := global_rate_limit_until s;
     streamer_rate_limits := streamer_rate_limits s;
     connection_semaphore := connection_semaphore s;
     last_connection_time := last_connection_time s;
     running := running s |}.

(** [self.stats.duplicates_filtered += 1] *)
Definition incr_duplicates_filtered (st : ScrapingStats) : ScrapingStats :=
  {| total_streamers := total_streamers st;
     active_connections := active_connections st;
     comments_captured := comments_captured st;
     likes_captured := likes_captured st;
     shares_captured := shares_captured st;
     follows_captured := follows_captured st;
     duplicates_filtered := S (duplicates_filtered st);
     rate_limit_hits := rate_limit_hits st;
     connection_attempts := connection_attempts st;
     failed_connections := failed_connections st |}.

(** [self.stats.comments_captured += 1] *)
Definition incr_comments_captured (st : ScrapingStats) : ScrapingStats :=
  {| total_streamers := total_streamers st;
     active_connections := active_connections st;
     comments_captured := S (comments_captured st);
     likes_captured := likes_captured st;
     shares_captured := shares_captured st;
     follows_captured := follows_captured st;
     duplicates_filtered := duplicates_filtered st;
     rate_limit_hits := rate_limit_hits st;
     connection_attempts := connection_attempts st;
     failed_connections := failed_connections st |}.

(* ------------------------------------------------------------------ *)
(** ** The emoji-only filter *)

(** One match of [emoji_pattern]: the union of its eight character ranges. *)
Definition emoji_pattern (c : N) : bool :=
  (((0x1F600 <=? c) && (c <=? 0x1F64F))      (* emoticons *)
  || ((0x1F300 <=? c) && (c <=? 0x1F5FF))    (* symbols & pictographs *)
  || ((0x1F680 <=? c) && (c <=? 0x1F6FF))    (* transport & map symbols *)
  || ((0x1F1E0 <=? c) && (c <=? 0x1F1FF))    (* flags (iOS) *)
  || ((0x2702 <=? c) && (c <=? 0x27B0))      (* dingbats *)
  || ((0x24C2 <=? c) && (c <=? 0x1F251))     (* enclosed characters *)
  || ((0x1F900 <=? c) && (c <=? 0x1F9FF))    (* supplemental symbols *)
  || ((0x1FA70 <=? c) && (c <=? 0x1FAFF)))%N. (* pictographs extended-a *)

Definition is_empty (s : str) : bool :=
  match s with [] => true | _ => false end.

Definition _is_emoji_only_message (text : str) : bool :=
  if is_empty text || is_empty (strip text) then true
  else
    let text_no_space :=
      remove_char 9 (remove_char 13 (remove_char 10 (remove_char 32 text))) in
    if is_empty text_no_space then true
    else
      let text_no_emoji := filter (fun c => negb (emoji_pattern c)) text_no_space in
      (List.length (strip text_no_emoji) =? 0)%nat.

(* ------------------------------------------------------------------ *)
(** ** The deduplicator *)

(** [sorted(items, key=lambda x: x[1], reverse=True)]: a stable sort, so
    items with equal timestamps keep their order. *)
Fixpoint insert_desc (x : str * Q) (l : list (str * Q)) : list (str * Q) :=
  match l with
  | [] => [x]
  | y :: l' =>
      if Qltb (snd x) (snd y) then y :: insert_desc x l' else x :: y :: l'
  end.

Fixpoint sorted_desc (l : list (str * Q)) : list (str * Q) :=
  match l with
  | [] => []
  | x :: l' => insert_desc x (sorted_desc l')
  end.

(** The ledger of a streamer, empty when the streamer has none. *)
Definition ledger_of (rc : dict ledger) (username : str) : ledger :=
  match get username rc with Some l => l | None => [] end.

(** The two steps of [_cleanup_old_comments] on one ledger: the entries
    older than an hour are deleted, then a ledger of more than 1000 entries
    is rebuilt from the first 500 of its items sorted by timestamp. *)
Definition drop_old (l : ledger) (current_time : Q) : ledger :=
  let cutoff_time := current_time - 3600 in
  let old_hashes :=
    List.map fst (filter (fun kv => Qltb (snd kv) cutoff_time) l) in
  fold_left (fun d h => del h d) old_hashes l.

Definition limit_size (l : ledger) : ledger :=
  if (1000 <? List.length l)%nat
  then of_items (firstn 500 (sorted_desc l))
  else l.

Definition cleanup_ledger (l : ledger) (current_time : Q) : ledger :=
  limit_size (drop_old l current_time).

Definition _cleanup_old_comments (s : Scraper) (username : str)
  (current_time : Q) : Scraper :=
  match get username (recent_comments s) with
  | None => s
  | Some l =>
      with_recent_comments
        (set username (cleanup_ledger l current_time) (recent_comments s)) s
  end.

(** [last_seen] exists for [h] and [current_time - last_seen < window]. *)
Definition seen_within (l : ledger) (h : str) (current_time window : Q)
  : bool :=
  match get h l with
  | Some last_seen => Qltb (current_time - last_seen) window
  | None => false
  end.

(** [a] may stand before [b] in a list sorted by descending timestamp. *)
Definition ts_ge (a b : str * Q) : Prop := snd b <= snd a.

(** The items of a ledger recorded at [t] or later. *)
Definition not_before (t : Q) (l : ledger) : list (str * Q) :=
  filter (fun kv => Qle_bool t (snd kv)) l.

(** Two new hashes stamped [now] are sure to survive the cleanup of [l]:
    the ledger stays within 1000 entries, or so few of its entries are as
    late as [now] that the new ones are among the 500 most recent. *)
Definition room_for_new_keys (l : ledger) (now : Q) : Prop :=
  (List.length l <= 998)%nat \/ (List.length (not_before now l) <= 498)%nat.

Section Deduplicator.

(** [str.lower] and [unicodedata.normalize('NFC', _)]. *)
Variable lower : str -> str.
Variable nfc : str -> str.

Definition exact_hash (commenter comment : str) : str :=
  md5_hex (commenter ++ lit "|" ++ strip comment).

Definition similarity_hash (commenter comment : str) : str :=
  md5_hex (commenter ++ lit "|" ++ nfc (strip (lower comment))).

(** [hashlib.md5(user_prefix.encode('utf-8')).hexdigest()[:8]] *)
Definition user_prefix_hash (commenter : str) : str :=
  firstn 8 (md5_hex (commenter ++ lit "|")).

Definition recent_from_user (l : ledger) (commenter : str) (current_time : Q)
  : list Q :=
  let prefix := user_prefix_hash commenter in
  List.map snd
    (filter (fun kv => startswith (fst kv) prefix
                       && Qltb (current_time - snd kv) 5) l).

(** The three strategies, each on the streamer's ledger. *)
Definition exact_match (l : ledger) (commenter comment : str) (now : Q) :=
  seen_within l (exact_hash commenter comment) now 30.

Definition similar_match (l : ledger) (commenter comment : str) (now : Q) :=
  seen_within l (similarity_hash commenter comment) now 10.

Definition rapid_fire (l : ledger) (commenter : str) (now : Q) :=
  (3 <=? List.length (recent_from_user l commenter now))%nat.

(** Some strategy reports a duplicate. *)
Definition any_match (l : ledger) (commenter comment : str) (now : Q) : bool :=
  exact_match l commenter comment now
  || similar_match l commenter comment now
  || rapid_fire l commenter now.

(** The ledger once both hashes of an event are stored. *)
Definition recorded (l : ledger) (commenter comment : str) (now : Q) : ledger :=
  set (similarity_hash commenter comment) now
    (set (exact_hash commenter comment) now l).

Definition _is_duplicate_comment (s : Scraper)
  (username commenter comment : str) (current_time : Q) : Scraper * bool :=
  let s0 :=
    if mem username (recent_comments s) then s
    else with_recent_comments (set username [] (recent_comments s)) s in
  let l := ledger_of (recent_comments s0) username in
  if exact_match l commenter comment current_time then (s0, true)
  else if similar_match l commenter comment current_time then (s0, true)
  else if rapid_fire l commenter current_time then (s0, true)
  else
    let l' := recorded l commenter comment current_time in
    let s1 := with_recent_comments (set username l' (recent_comments s0)) s0 in
    (_cleanup_old_comments s1 username current_time, false).

(** The first line of a new session file. *)
Definition session_header (username : str) : str :=
  lit "SYSTEM: Connected to @" ++ username ++ lit "'s live stream".

(** The lines of a streamer's session file. *)
Definition file_lines (fs : dict (list str)) (username : str) : list str :=
  match get username fs with Some ls => ls | None => [] end.

(** [with open(filepath, 'a') as f: f.write(line + '\n')] *)
Definition append_line (username line : str) (s : Scraper) : Scraper :=
  with_session_files
    (set username (file_lines (session_files s) username ++ [line])
       (session_files s)) s.

(** [save_event], without its logging and with every file write succeeding. *)
Definition save_event (s : Scraper) (username event_type commenter content : str)
  (current_time : Q) : Scraper :=
  let is_comment := eqb event_type (lit "comment") in
  let '(s1, dup) :=
    if is_comment
    then _is_duplicate_comment s username commenter content current_time
    else (s, false) in
  if is_comment && dup then with_stats incr_duplicates_filtered s1
  else if is_comment && _is_emoji_only_message content
  then with_stats incr_duplicates_filtered s1
  else
    let s2 :=
      if mem username (session_files s1) then s1
      else with_session_files
             (set username [session_header username] (session_files s1)) s1 in
    let clean_content := strip (replace_char 13 32 (replace_char 10 32 content)) in
    if is_comment then
      with_stats incr_comments_captured (append_line username clean_content s2)
    else if eqb event_type (lit "system") then
      append_line username (lit "SYSTEM: " ++ clean_content) s2
    else s2.

End Deduplicator.

(* ------------------------------------------------------------------ *)
(** ** Rate-limit state *)

(** [current_time < self.global_rate_limit_until] *)
Definition is_globally_limited (s : Scraper) (current_time : Q) : bool :=
  Qltb current_time (global_rate_limit_until s).

(** [username in self.streamer_rate_limits and
     current_time < self.streamer_rate_limits[username]] *)
Definition is_streamer_limited (s : Scraper) (username : str)
  (current_time : Q) : bool :=
  match get username (streamer_rate_limits s) with
  | Some t => Qltb current_time t
  | None => false
  end.

Definition incr_rate_limit_hits (st : ScrapingStats) : ScrapingStats :=
  {| total_streamers := total_streamers st;
     active_connections := active_connections st;
     comments_captured := comments_captured st;
     likes_captured := likes_captured st;
     shares_captured := shares_captured st;
     follows_captured := follows_captured st;
     duplicates_filtered := duplicates_filtered st;
     rate_limit_hits := S (rate_limit_hits st);
     connection_attempts := connection_attempts st;
     failed_connections := failed_connections st |}.

Definition incr_connection_attempts (st : ScrapingStats) : ScrapingStats :=
  {| total_streamers := total_streamers st;
     active_connections := active_connections st;
     comments_captured := comments_captured st;
     likes_captured := likes_captured st;
     shares_captured := shares_captured st;
     follows_captured := follows_captured st;
     duplicates_filtered := duplicates_filtered st;
     rate_limit_hits := rate_limit_hits st;
     connection_attempts := S (connection_attempts st);
     failed_connections := failed_connections st |}.

Definition incr_failed_connections (st : ScrapingStats) : ScrapingStats :=
  {| total_streamers := total_streamers st;
     active_connections := active_connections st;
     comments_captured := comments_captured st;
     likes_captured := likes_captured st;
     shares_captured := shares_captured st;
     follows_captured := follows_captured st;
     duplicates_filtered := duplicates_filtered st;
     rate_limit_hits := rate_limit_hits st;
     connection_attempts := connection_attempts st;
     failed_connections := S (failed_connections st) |}.

(** The rate-limit branch of the exception handler of
    [create_streamer_client]: both deadlines are assigned. *)
Definition record_rate_limit (s : Scraper) (username : str) (current_time : Q)
  : Scraper :=
  let s1 := with_stats incr_rate_limit_hits s in
  {| config := config s1; stats := stats s1;
     active_clients := active_clients s1;
     active_sessions := active_sessions s1;
     session_files := session_files s1;
     recent_comments := recent_comments s1;
     global_rate_limit_until :=
       current_time + global_rate_limit_duration (config s1);
     streamer_rate_limits :=
       set username (current_time + per_streamer_rate_limit (config s1))
         (streamer_rate_limits s1);
     connection_semaphore := connection_semaphore s1;
     last_connection_time := last_connection_time s1;
     running := running s1 |}.

(* ------------------------------------------------------------------ *)
(** ** Connection attempts and the monitoring loop *)

(** What a coroutine does besides updating the scraper's state. *)
Inductive effect :=
| Sleep (seconds : Q)
| StartClient (username : str)
| DisconnectClient (username : str).

(** How [client.start()] under [asyncio.wait_for] ends. *)
Inductive start_outcome :=
| Started
| Raised (error_msg : str).

(** What one call of [create_streamer_client] reads from its environment:
    the clock at the rate-limit checks, the value of [random.random()]
    behind the pre-connection delay, the clock when connecting, the outcome
    of [client.start()] and the clock in the handler. *)
Record attempt_env := {
  at_check_time : Q;
  at_random : Q;
  at_connect_time : Q;
  at_outcome : start_outcome;
  at_error_time : Q
}.

(** [random.uniform(a, b)] is [a + (b - a) * random.random()], with
    [random.random()] in [0, 1). *)
Definition uniform (range : Q * Q) (r : Q) : Q :=
  fst range + (snd range - fst range) * r.

Definition with_semaphore (n : nat) (s : Scraper) : Scraper :=
  {| config := config s; stats := stats s;
     active_clients := active_clients s;
     active_sessions := active_sessions s;
     session_files := session_files s;
     recent_comments := recent_comments s;
     global_rate_limit_until := global_rate_limit_until s;
     streamer_rate_limits := streamer_rate_limits s;
     connection_semaphore := n;
     last_connection_time := last_connection_time s;
     running := running s |}.

(** [self.last_connection_time = t; self.active_clients[username] = client] *)
Definition with_client (username : str) (t : Q) (s : Scraper) : Scraper :=
  {| config := config s; stats := stats s;
     active_clients :=
       if existsb (eqb username) (active_clients s) then active_clients s
       else active_clients s ++ [username];
     active_sessions := active_sessions s;
     session_files := session_files s;
     recent_comments := recent_comments s;
     global_rate_limit_until := global_rate_limit_until s;
     streamer_rate_limits := streamer_rate_limits s;
     connection_semaphore := connection_semaphore s;
     last_connection_time := t;
     running := running s |}.

(** [del self.active_clients[username]] *)
Definition without_client (username : str) (s : Scraper) : Scraper :=
  {| config := config s; stats := stats s;
     active_clients :=
       filter (fun u => negb (eqb username u)) (active_clients s);
     active_sessions := active_sessions s;
     session_files := session_files s;
     recent_comments := recent_comments s;
     global_rate_limit_until := global_rate_limit_until s;
     streamer_rate_limits := streamer_rate_limits s;
     connection_semaphore := connection_semaphore s;
     last_connection_time := last_connection_time s;
     running := running s |}.

Definition rate_limit_indicators : list str :=
  [lit "rate_limit"; lit "rate limit"; lit "too many requests"; lit "429";
   lit "sign server"; lit "rate_limit_ip_day"; lit "euler"; lit "blocked"].

(** The largest float is [2^1024 - 2^971]; a result whose magnitude is
    [2^1024 - 2^970] or more rounds to infinity. *)
Definition float_overflow_bound : Q := inject_Z (2 ^ 1024 - 2 ^ 970).

(** [x ** n] for a float [x] and an int [n >= 0], as the dataclass
    declares [backoff_multiplier] and as the loop counts failures: [None]
    is [OverflowError], raised when the result is out of range.  A result
    too small for a float is zero and raises nothing. *)
Definition float_pow (x : Q) (n : nat) : option Q :=
  let power := x ^ Z.of_nat n in
  if Qle_bool float_overflow_bound (Qabs power) then None else Some power.

(** [min(base_delay * (backoff_multiplier ** consecutive_failures),
         max_delay)]: the delay of the retry after [consecutive_failures]
    failures, [None] when the power raises. *)
Definition backoff_delay (cfg : RateLimitConfig) (consecutive_failures : nat)
  : option Q :=
  match float_pow (backoff_multiplier cfg) consecutive_failures with
  | Some power => Some (Qmin (base_delay cfg * power) (max_delay cfg))
  | None => None
  end.

(** [actual_delay = delay * jitter] *)
Definition actual_delay (cfg : RateLimitConfig) (consecutive_failures : nat)
  (jitter : Q) : option Q :=
  match backoff_delay cfg consecutive_failures with
  | Some delay => Some (delay * jitter)
  | None => None
  end.

(** The sleep at the head of an iteration of [monitor_streamer], [r] being
    the value of [random.random()] behind the jitter: [None] when the
    computation of the delay raises, before any sleep. *)
Definition backoff_sleep (cfg : RateLimitConfig) (consecutive_failures : nat)
  (r : Q) : option (list effect) :=
  if (0 <? consecutive_failures)%nat
  then match actual_delay cfg consecutive_failures
               (uniform (jitter_range cfg) r) with
       | Some d => Some [Sleep d]
       | None => None
       end
  else Some [].

Section Orchestrator.

Variable lower : str -> str.

(** The module-level flag set by the import of TikTokLive. *)
Variable TIKTOK_LIVE_AVAILABLE : bool.

Definition is_rate_limit_error (error_msg : str) : bool :=
  existsb (fun indicator => contains (lower error_msg) indicator)
    rate_limit_indicators.

(** The [try] block of [create_streamer_client] and its handler, run while
    a permit is held.  Of the statements of the block only [client.start()]
    under [asyncio.wait_for] raises in this model.  The block is run in
    one piece: what other coroutines do to the scraper while this one
    sleeps or waits for the client is not part of the model. *)
Definition attempt_connection (s : Scraper) (username : str) (env : attempt_env)
  : Scraper * (bool * bool) * list effect :=
  let current_time := at_check_time env in
  if is_globally_limited s current_time then (s, (false, true), [])
  else if is_streamer_limited s username current_time
  then (s, (false, true), [])
  else
    let time_since_last := current_time - last_connection_time s in
    let interval_wait :=
      if Qltb time_since_last (min_connection_interval (config s))
      then [Sleep (min_connection_interval (config s) - time_since_last)]
      else [] in
    let sleeps :=
      interval_wait
      ++ [Sleep (uniform (pre_connection_delay (config s)) (at_random env))] in
    let s1 := with_client username (at_connect_time env) s in
    match at_outcome env with
    | Started => (s1, (true, false), sleeps ++ [StartClient username])
    | Raised error_msg =>
        let s2 := with_stats incr_failed_connections s1 in
        if is_rate_limit_error error_msg
        then (record_rate_limit s2 username (at_error_time env),
              (false, true), sleeps ++ [StartClient username])
        else (s2, (false, false), sleeps ++ [StartClient username])
    end.

(** [create_streamer_client]: [None] when no permit is free, in which case
    the coroutine waits at [async with self.connection_semaphore]. *)
Definition create_streamer_client (s : Scraper) (username : str)
  (env : attempt_env) : option (Scraper * (bool * bool) * list effect) :=
  if negb TIKTOK_LIVE_AVAILABLE then Some (s, (false, false), [])
  else
    match connection_semaphore s with
    | O => None
    | S free =>
        let s1 := with_stats incr_connection_attempts (with_semaphore free s) in
        let '(s2, result, effects) := attempt_connection s1 username env in
        Some (with_semaphore (S (connection_semaphore s2)) s2, result, effects)
    end.

(** The local variables of [monitor_streamer]. *)
Record loop_vars := {
  consecutive_failures : nat;
  consecutive_rate_limits : nat;
  last_success_time : Q
}.

(** What one iteration of the loop reads from its environment: whether
    a termination signal was handled before the loop test, the clock at the
    head of the body, the value of [random.random()] behind the jitter, the
    environment of the attempt, the clock after a success and how often the
    connected loop polls before the session ends. *)
Record iter_env := {
  it_signal : bool;
  it_time : Q;
  it_random : Q;
  it_attempt : attempt_env;
  it_success_time : Q;
  it_polls : nat
}.

(** [signal_handler]: [self.running = False] *)
Definition signal_handler (s : Scraper) : Scraper :=
  {| config := config s; stats := stats s;
     active_clients := active_clients s;
     active_sessions := active_sessions s;
     session_files := session_files s;
     recent_comments := recent_comments s;
     global_rate_limit_until := global_rate_limit_until s;
     streamer_rate_limits := streamer_rate_limits s;
     connection_semaphore := connection_semaphore s;
     last_connection_time := last_connection_time s;
     running := false |}.

(** The client cleanup at the end of the loop body. *)
Definition cleanup_client (s : Scraper) (username : str)
  : Scraper * list effect :=
  if existsb (eqb username) (active_clients s)
  then (without_client username s, [DisconnectClient username])
  else (s, []).

(** One run of the body of [while self.running] in [monitor_streamer].  Of
    the statements of the [try] block the float power of the back-off is
    the one that raises in this model ([create_streamer_client] handles
    what its own block raises); the handler of the loop then counts a
    failure and sleeps 60 seconds, and the iteration makes no attempt. *)
Definition monitor_iteration (s : Scraper) (username : str) (v : loop_vars)
  (env : iter_env) : option (Scraper * loop_vars * list effect) :=
  let current_time := it_time env in
  match backoff_sleep (config s) (consecutive_failures v) (it_random env) with
  | None =>
      Some (s,
            {| consecutive_failures := S (consecutive_failures v);
               consecutive_rate_limits := consecutive_rate_limits v;
               last_success_time := last_success_time v |},
            [Sleep 60])
  | Some waited =>
      let cooldown_remaining :=
        rate_limit_cooldown (config s) - (current_time - last_success_time v) in
      if (3 <=? consecutive_rate_limits v)%nat && Qltb 0 cooldown_remaining
      then Some (s, v, waited ++ [Sleep (Qmin cooldown_remaining 300)])
      else
        match create_streamer_client s username (it_attempt env) with
        | None => None
        | Some (s1, (success, is_rate_limited), effects) =>
            if is_rate_limited then
              Some (s1,
                    {| consecutive_failures := S (consecutive_failures v);
                       consecutive_rate_limits :=
                         S (consecutive_rate_limits v);
                       last_success_time := last_success_time v |},
                    waited ++ effects)
            else
              let '(v1, polls) :=
                if success then
                  ({| consecutive_failures := 0;
                      consecutive_rate_limits := 0;
                      last_success_time := it_success_time env |},
                   repeat (Sleep 10) (it_polls env))
                else
                  ({| consecutive_failures := S (consecutive_failures v);
                      consecutive_rate_limits := consecutive_rate_limits v;
                      last_success_time := last_success_time v |}, []) in
              let '(s2, disconnects) := cleanup_client s1 username in
              Some (s2, v1, waited ++ effects ++ polls ++ disconnects)
        end
  end.

(** How a run of the loop over the given iterations ends. *)
Inductive loop_end :=
| Stopped
| StillRunning
| WaitingForPermit.

(** [monitor_streamer]: the loop, one environment per loop test. *)
Fixpoint monitor_loop (envs : list iter_env) (s : Scraper) (username : str)
  (v : loop_vars) : Scraper * loop_vars * list effect * loop_end :=
  match envs with
  | [] => (s, v, [], StillRunning)
  | env :: envs' =>
      let s0 := if it_signal env then signal_handler s else s in
      if negb (running s0) then (s0, v, [], Stopped)
      else
        match monitor_iteration s0 username v env with
        | None => (s0, v, [], WaitingForPermit)
        | Some (s1, v1, effects) =>
            let '(s2, v2, effects', e) := monitor_loop envs' s1 username v1 in
            (s2, v2, effects ++ effects', e)
        end
  end.

(** [monitor_streamer], from its initial local variables. *)
Definition monitor_streamer (envs : list iter_env) (s : Scraper)
  (username : str) (start_time : Q) :=
  monitor_loop envs s username
    {| consecutive_failures := 0; consecutive_rate_limits := 0;
       last_success_time := start_time |}.

End Orchestrator.

(* ------------------------------------------------------------------ *)
(** ** The list of streamers *)

(** One character of the class [[a-zA-Z0-9_.]]. *)
Definition username_char (c : N) : bool :=
  (((0x61 <=? c) && (c <=? 0x7A)) || ((0x41 <=? c) && (c <=? 0x5A))
   || ((0x30 <=? c) && (c <=? 0x39)) || (c =? 0x5F) || (c =? 0x2E))%N.

(** Between 1 and 24 characters of the class. *)
Definition username_run (s : str) : bool :=
  (1 <=? List.length s)%nat && (List.length s <=? 24)%nat
  && forallb username_char s.

(** [re.match(r'^[a-zA-Z0-9_.]{1,24}$', s)]: the run has to reach the end
    of the string, or the newline that ends it. *)
Definition username_pattern (s : str) : bool :=
  username_run s
  || match rev s with
     | 10%N :: r => username_run (rev r)
     | _ => false
     end.

Definition _validate_username (username : str) : bool :=
  if is_empty username then false else username_pattern username.

(** What one line of the streamers file adds to the list. *)
Definition load_line (line : str) : list str :=
  let line := strip line in
  if negb (is_empty line) && negb (startswith line (lit "#")) then
    let username := strip (remove_char 64 line) in
    if _validate_username username then [username] else []
  else [].

(** [load_streamers] on the lines of the streamers file, [None] when the
    file does not exist; reading the file does not fail in this model. *)
Definition load_streamers (file : option (list str)) : list str :=
  match file with
  | None => []
  | Some lines => flat_map load_line lines
  end.

(* ------------------------------------------------------------------ *)
(** ** The comment history on disk *)

(** The truth value of a list or dictionary: it is not empty. *)
Definition is_nil (A : Type) (l : list A) : bool :=
  match l with [] => true | _ => false end.

(** The dictionary comprehension of [_save_comment_history]. *)
Definition cleaned_comments (comments : ledger) (cutoff_time : Q) : ledger :=
  of_items (filter (fun kv => Qltb cutoff_time (snd kv)) comments).

(** What [_save_comment_history] writes at [current_time]. *)
Definition cleaned_history (rc : dict ledger) (current_time : Q)
  : dict ledger :=
  let cutoff_time := current_time - 24 * 3600 in
  fold_left
    (fun acc kv =>
       let cleaned := cleaned_comments (snd kv) cutoff_time in
       if is_nil cleaned then acc else set (fst kv) cleaned acc)
    rc [].

(** What [_load_comment_history] finds: no file, a file that does not
    parse, or the dictionary of a file that does. *)
Inductive history_file :=
| NoHistory
| Unreadable
| Parsed (history : dict ledger).

Definition _load_comment_history (f : history_file) (s : Scraper) : Scraper :=
  with_recent_comments
    (match f with Parsed history => history | _ => [] end) s.

(* ------------------------------------------------------------------ *)
(** ** The figures of the status reporter *)

(** [max(0, self.global_rate_limit_until - current_time)] *)
Definition global_rl_remaining (s : Scraper) (current_time : Q) : Q :=
  Qmax 0 (global_rate_limit_until s - current_time).

(** [sum(1 for t in self.streamer_rate_limits.values() if current_time < t)] *)
Definition active_rl_count (s : Scraper) (current_time : Q) : nat :=
  List.length
    (filter (fun kv => Qltb current_time (snd kv)) (streamer_rate_limits s)).

(* ------------------------------------------------------------------ *)
(** ** The connect and disconnect handlers *)

(** [self.active_sessions.add(u)] and [.remove(u)] on a set of names. *)
Definition set_add (u : str) (l : list str) : list str :=
  if existsb (eqb u) l then l else l ++ [u].

Definition set_remove (u : str) (l : list str) : list str :=
  filter (fun x => negb (eqb u x)) l.

Definition with_active_connections (n : nat) (st : ScrapingStats)
  : ScrapingStats :=
  {| total_streamers := total_streamers st;
     active_connections := n;
     comments_captured := comments_captured st;
     likes_captured := likes_captured st;
     shares_captured := shares_captured st;
     follows_captured := follows_captured st;
     duplicates_filtered := duplicates_filtered st;
     rate_limit_hits := rate_limit_hits st;
     connection_attempts := connection_attempts st;
     failed_connections := failed_connections st |}.

Definition with_active_sessions (l : list str) (s : Scraper) : Scraper :=
  {| config := config s; stats := stats s;
     active_clients := active_clients s;
     active_sessions := l;
     session_files := session_files s;
     recent_comments := recent_comments s;
     global_rate_limit_until := global_rate_limit_until s;
     streamer_rate_limits := streamer_rate_limits s;
     connection_semaphore := connection_semaphore s;
     last_connection_time := last_connection_time s;
     running := running s |}.

Section Handlers.

Variable lower : str -> str.
Variable nfc : str -> str.

(** [on_connect] of [_setup_client_handlers], the clock read by
    [save_event] being [current_time]. *)
Definition on_connect (s : Scraper) (username : str) (current_time : Q)
  : Scraper :=
  let s1 := with_active_sessions (set_add username (active_sessions s)) s in
  let s2 := with_stats
              (with_active_connections (S (active_connections (stats s1))))
              s1 in
  save_event lower nfc s2 username (lit "system") (lit "SCRAPER")
    (lit "Connected to live stream") current_time.

(** [on_disconnect] *)
Definition on_disconnect (s : Scraper) (username : str) (current_time : Q)
  : Scraper :=
  let s1 :=
    if existsb (eqb username) (active_sessions s) then
      with_stats
        (with_active_connections
           (Nat.max 0 (active_connections (stats s) - 1)))
        (with_active_sessions (set_remove username (active_sessions s)) s)
    else s in
  save_event lower nfc s1 username (lit "system") (lit "SCRAPER")
    (lit "Disconnected from live stream") current_time.

End Handlers.

(** The sessions are distinct names and no more than the connections
    counted. *)
Definition sessions_counted (s : Scraper) : Prop :=
  NoDup (active_sessions s)
  /\ (List.length (active_sessions s) <= active_connections (stats s))%nat.

(* ------------------------------------------------------------------ *)
(** ** Reading a run of the loop *)

(** The seconds slept in a list of effects. *)
Fixpoint slept (effects : list effect) : Q :=
  match effects with
  | [] => 0
  | Sleep d :: rest => d + slept rest
  | _ :: rest => slept rest
  end.

(** An effect other than a sleep. *)
Definition is_sleep (e : effect) : bool :=
  match e with Sleep _ => true | _ => false end.

(** The time left of the cooldown of [monitor_streamer] at [t]. *)
Definition cooldown_remaining (cfg : RateLimitConfig) (v : loop_vars) (t : Q)
  : Q :=
  rate_limit_cooldown cfg - (t - last_success_time v).

(** The parts of what [monitor_loop] returns. *)
Definition run_state (r : Scraper * loop_vars * list effect * loop_end)
  : Scraper := fst (fst (fst r)).



Definition run_end (r : Scraper * loop_vars * list effect * loop_end)
  : loop_end := snd r.

(* ------------------------------------------------------------------ *)
(** ** Concrete runs *)

(** A check that the keys of a dictionary are pairwise distinct. *)
Fixpoint distinct (ks : list str) : bool :=
  match ks with
  | [] => true
  | k :: ks' => negb (existsb (eqb k) ks') && distinct ks'
  end.

(** Unicode normalisation on ASCII text, which it leaves as it is. *)
Definition nfc_ascii (s : str) : str := s.

(** The scraper as [__init__] leaves it with the default configuration. *)
Definition fresh : Scraper := init_scraper default_config.

(** A comment of viewer [u1] on the stream of [streamer] at time [t]. *)
Definition comment_by_u1 (text : str) (t : Q) (s : Scraper) : Scraper :=
  save_event ascii_lower nfc_ascii s (lit "streamer") (lit "comment")
    (lit "u1") text t.

(** The ledger of [streamer] in a state. *)
Definition streamer_ledger (s : Scraper) : ledger :=
  ledger_of (recent_comments s) (lit "streamer").

(** A comment history of [n] hashes, all stamped [t]. *)
Definition history (n : nat) (t : Q) : ledger :=
  List.map (fun i => ([107; N.of_nat i]%N, t)) (seq 0 n).

(** A comment history whose hash number [i] is stamped [i]. *)
Definition rising_history (n : nat) : ledger :=
  List.map (fun i => ([107; N.of_nat i]%N, inject_Z (Z.of_nat i))) (seq 0 n).

(** The scraper after [_load_comment_history] read the given ledger of
    [streamer] from [comment_history.json]. *)
Definition restored (l : ledger) : Scraper :=
  with_recent_comments [(lit "streamer", l)] fresh.

(** Three fire emojis. *)
Definition fire3 : str := [0x1F525; 0x1F525; 0x1F525]%N.

(** A failed attempt and the iteration around it; the random values give
    a pre-connection delay of 3.5 seconds and a jitter of 1. *)
Definition failing_attempt : attempt_env :=
  {| at_check_time := 100; at_random := 0.5; at_connect_time := 103.5;
     at_outcome := Raised (lit "timed out"); at_error_time := 148.5 |}.

Definition failing_iteration (signal : bool) : iter_env :=
  {| it_signal := signal; it_time := 70; it_random := 0.5;
     it_attempt := failing_attempt; it_success_time := 0; it_polls := 0 |}.

(** The local variables of a loop after one failure. *)
Definition after_one_failure : loop_vars :=
  {| consecutive_failures := 1; consecutive_rate_limits := 0;
     last_success_time := 0 |}.


(* ------------------------------------------------------------------ *)
(** * Properties *)

(** ** MD5 *)

(** RFC 1321 test vectors and one non-ASCII text. *)
Example md5_empty :
  md5_hex (lit "") = lit "d41d8cd98f00b204e9800998ecf8427e".
Proof. vm_compute. reflexivity. Qed.

Example md5_abc :
  md5_hex (lit "abc") = lit "900150983cd24fb0d6963f7d28e17f72".
Proof. vm_compute. reflexivity. Qed.

Example md5_fire :
  md5_hex (lit "u1|" ++ fire3)
  = lit "90ea19cea2e74990df75c734f8be4995".
Proof. vm_compute. reflexivity. Qed.

Example md5_two_blocks :
  md5_hex (repeat 97%N 100) = lit "36a92cc94a9e0fa21f625f8bfb007adf".
Proof. vm_compute. reflexivity. Qed.

(** ** Comparisons of timestamps *)

Lemma Qltb_lt (a b : Q) : Qltb a b = true <-> a < b.
Proof.
  unfold Qltb. rewrite negb_true_iff. split; intro H.
  - apply Qnot_le_lt. intro Hle. apply Qle_bool_iff in Hle. congruence.
  - destruct (Qle_bool b a) eqn:E; [|reflexivity].
    apply Qle_bool_iff in E. exfalso. apply (Qlt_not_le _ _ H E).
Qed.

Lemma Qltb_ge (a b : Q) : Qltb a b = false <-> b <= a.
Proof.
  unfold Qltb. rewrite negb_false_iff. apply Qle_bool_iff.
Qed.

(** ** Strings *)

Lemma eqb_eq (a b : str) : eqb a b = true <-> a = b.
Proof.
  revert b. induction a as [|x a IH]; intros [|y b]; simpl;
    try (split; [discriminate | discriminate]); try tauto.
  rewrite andb_true_iff, N.eqb_eq, IH. split.
  - intros [-> ->]. reflexivity.
  - intros [= -> ->]. split; reflexivity.
Qed.

Lemma eqb_refl (a : str) : eqb a a = true.
Proof. apply eqb_eq. reflexivity. Qed.

Lemma eqb_neq (a b : str) : eqb a b = false <-> a <> b.
Proof.
  rewrite <- eqb_eq. destruct (eqb a b); split; congruence.
Qed.

(** ** Dictionaries *)

Section DictFacts.
Variable V : Type.
Implicit Types (d : dict V) (k : str) (v : V).

Lemma get_set_same k v d : get k (set k v d) = Some v.
Proof.
  induction d as [|[k' v'] d IH]; simpl.
  - rewrite eqb_refl. reflexivity.
  - destruct (eqb k k') eqn:E; simpl; rewrite E; auto.
Qed.

Lemma get_set_other k k' v d : k <> k' -> get k' (set k v d) = get k' d.
Proof.
  intro Hne. induction d as [|[k0 v0] d IH]; simpl.
  - apply not_eq_sym in Hne. apply eqb_neq in Hne. rewrite Hne. reflexivity.
  - destruct (eqb k k0) eqn:E; simpl.
    + apply eqb_eq in E. subst k0.
      apply not_eq_sym in Hne. apply eqb_neq in Hne. rewrite Hne. reflexivity.
    + rewrite IH. reflexivity.
Qed.

Lemma get_In k v d : get k d = Some v -> In (k, v) d.
Proof.
  induction d as [|[k' v'] d IH]; simpl; [discriminate|].
  destruct (eqb k k') eqn:E.
  - apply eqb_eq in E. intros [= ->]. left. congruence.
  - auto.
Qed.

Lemma get_None_notin k d : get k d = None -> ~ In k (List.map fst d).
Proof.
  induction d as [|[k' v'] d IH]; simpl; [tauto|].
  destruct (eqb k k') eqn:E; [discriminate|].
  apply eqb_neq in E. intros H [Hk|Hk]; [congruence | exact (IH H Hk)].
Qed.

Lemma In_get k v d : wf d -> In (k, v) d -> get k d = Some v.
Proof.
  unfold wf. induction d as [|[k' v'] d IH]; simpl; [tauto|].
  intros Hnd [Heq|Hin]; inversion Hnd as [|? ? Hnotin Hnd']; subst.
  - injection Heq as -> ->. rewrite eqb_refl. reflexivity.
  - destruct (eqb k k') eqn:E.
    + apply eqb_eq in E. subst k'. exfalso. apply Hnotin.
      apply (in_map fst) in Hin. exact Hin.
    + auto.
Qed.

Lemma set_fresh k v d : get k d = None -> set k v d = d ++ [(k, v)].
Proof.
  induction d as [|[k' v'] d IH]; simpl; [reflexivity|].
  destruct (eqb k k'); [discriminate|]. intro H. rewrite IH; auto.
Qed.

Lemma keys_set k v d :
  List.map fst (set k v d)
  = if mem k d then List.map fst d else List.map fst d ++ [k].
Proof.
  unfold mem. induction d as [|[k' v'] d IH]; simpl; [reflexivity|].
  destruct (eqb k k') eqn:E; simpl; [reflexivity|].
  rewrite IH. destruct (get k d); reflexivity.
Qed.

Lemma wf_set k v d : wf d -> wf (set k v d).
Proof.
  unfold wf. rewrite keys_set. unfold mem.
  destruct (get k d) eqn:E; [tauto|]. intro Hnd.
  apply get_None_notin in E.
  apply NoDup_rev in Hnd. rewrite <- (rev_involutive (_ ++ _)).
  apply NoDup_rev. rewrite rev_app_distr. simpl. constructor; [|exact Hnd].
  rewrite <- in_rev. exact E.
Qed.

Lemma wf_filter (f : str * V -> bool) d : wf d -> wf (filter f d).
Proof.
  unfold wf. induction d as [|[k v] d IH]; simpl; [tauto|].
  intro Hnd. inversion Hnd as [|? ? Hnotin Hnd']; subst.
  destruct (f (k, v)); simpl; [|auto].
  constructor; [|auto]. intro Hin. apply Hnotin.
  apply in_map_iff in Hin. destruct Hin as [x [Hx Hin]].
  apply filter_In in Hin. apply in_map_iff. exists x. tauto.
Qed.

Lemma length_set k v d : (List.length (set k v d) <= S (List.length d))%nat.
Proof.
  induction d as [|[k' v'] d IH]; simpl; [lia|].
  destruct (eqb k k'); simpl; lia.
Qed.

Lemma length_filter_set (f : str * V -> bool) k v d :
  (List.length (filter f (set k v d)) <= S (List.length (filter f d)))%nat.
Proof.
  induction d as [|[k' v'] d IH]; simpl.
  - destruct (f (k, v)); simpl; lia.
  - destruct (eqb k k'); simpl.
    + destruct (f (k', v)), (f (k', v')); simpl; lia.
    + destruct (f (k', v')); simpl; lia.
Qed.

(** Building a dictionary from items with distinct keys keeps the items. *)
Lemma of_items_app (l : list (str * V)) : forall acc,
  NoDup (List.map fst (acc ++ l)) ->
  fold_left (fun d kv => set (fst kv) (snd kv) d) l acc = acc ++ l.
Proof.
  induction l as [|[k v] l IH]; intros acc Hnd; simpl.
  - rewrite app_nil_r. reflexivity.
  - assert (Hfresh : get k acc = None).
    { destruct (get k acc) eqn:E; [|reflexivity]. exfalso.
      apply get_In in E. rewrite map_app in Hnd. simpl in Hnd.
      apply NoDup_remove_2 in Hnd. apply Hnd. apply in_or_app. left.
      apply (in_map fst) in E. exact E. }
    rewrite set_fresh by exact Hfresh.
    rewrite IH; rewrite <- app_assoc; simpl; auto.
Qed.

Lemma of_items_wf (l : list (str * V)) : wf l -> of_items l = l.
Proof. intro H. unfold of_items. apply (of_items_app l []). exact H. Qed.

Lemma length_of_items (l : list (str * V)) :
  (List.length (of_items l) <= List.length l)%nat.
Proof.
  unfold of_items.
  assert (H : forall acc,
    (List.length (fold_left (fun d kv => set (fst kv) (snd kv) d) l acc)
     <= List.length acc + List.length l)%nat).
  { induction l as [|[k v] l IH]; intro acc; simpl; [lia|].
    specialize (IH (set k v acc)). pose proof (length_set k v acc). lia. }
  apply (H []).
Qed.

(** Deleting a list of keys keeps the items under the other keys. *)
Lemma fold_del (hs : list str) : forall d,
  fold_left (fun d h => del h d) hs d
  = filter (fun kv => negb (existsb (fun h => eqb h (fst kv)) hs)) d.
Proof.
  induction hs as [|h hs IH]; intro d; simpl.
  - induction d as [|x d IHd]; simpl; [reflexivity | congruence].
  - rewrite IH. unfold del. clear IH.
    induction d as [|x d IHd]; simpl; [reflexivity|].
    destruct (eqb h (fst x)); simpl; [exact IHd|].
    destruct (existsb _ hs); simpl; congruence.
Qed.

End DictFacts.

(** ** Sorting by timestamp *)


Lemma insert_desc_perm x l : Permutation (insert_desc x l) (x :: l).
Proof.
  induction l as [|y l IH]; simpl; [apply Permutation_refl|].
  destruct (Qltb (snd x) (snd y)); [|apply Permutation_refl].
  eapply perm_trans; [apply perm_skip, IH | apply perm_swap].
Qed.

Lemma sorted_desc_perm l : Permutation (sorted_desc l) l.
Proof.
  induction l as [|x l IH]; simpl; [constructor|].
  eapply perm_trans; [apply insert_desc_perm | apply perm_skip, IH].
Qed.

Lemma insert_desc_sorted x l :
  StronglySorted ts_ge l -> StronglySorted ts_ge (insert_desc x l).
Proof.
  induction 1 as [|y l Hs IH Hall]; simpl.
  - constructor; constructor.
  - destruct (Qltb (snd x) (snd y)) eqn:E.
    + constructor; [exact IH|].
      apply Forall_forall. intros z Hz.
      apply (Permutation_in _ (insert_desc_perm x l)) in Hz.
      destruct Hz as [<-|Hz].
      * apply Qltb_lt in E. unfold ts_ge. lra.
      * rewrite Forall_forall in Hall. auto.
    + apply Qltb_ge in E. constructor; [constructor; assumption|].
      constructor; [exact E|].
      apply Forall_forall. intros z Hz. rewrite Forall_forall in Hall.
      specialize (Hall z Hz). unfold ts_ge in *. lra.
Qed.

Lemma sorted_desc_sorted l : StronglySorted ts_ge (sorted_desc l).
Proof.
  induction l as [|x l IH]; simpl; [constructor|].
  apply insert_desc_sorted, IH.
Qed.

(** In a sorted list every item of a prefix stands before the rest. *)
Lemma sorted_firstn_skipn n l a b :
  StronglySorted ts_ge l -> In a (firstn n l) -> In b (skipn n l) -> ts_ge a b.
Proof.
  intro Hs. revert n. induction Hs as [|x l Hs IH Hall]; intros n Ha Hb.
  - rewrite firstn_nil in Ha. destruct Ha.
  - destruct n as [|n]; simpl in *; [destruct Ha|].
    destruct Ha as [<-|Ha].
    + rewrite Forall_forall in Hall. apply Hall.
      rewrite <- (firstn_skipn n l). apply in_or_app. right. exact Hb.
    + eapply IH; eassumption.
Qed.

Lemma filter_length_perm (A : Type) (f : A -> bool) (l l' : list A) :
  Permutation l l' ->
  List.length (filter f l) = List.length (filter f l').
Proof.
  induction 1 as [|x l l' _ IH|x y l|l l' l'' _ IH1 _ IH2]; simpl.
  - reflexivity.
  - destruct (f x); simpl; congruence.
  - destruct (f x), (f y); reflexivity.
  - congruence.
Qed.

Lemma filter_length_pos (A : Type) (f : A -> bool) (l : list A) (x : A) :
  In x l -> f x = true -> (0 < List.length (filter f l))%nat.
Proof.
  intros Hin Hf. assert (H : In x (filter f l)) by (apply filter_In; auto).
  destruct (filter f l); [destruct H | simpl; lia].
Qed.

Lemma filter_filter_length (A : Type) (f g : A -> bool) (l : list A) :
  (List.length (filter f (filter g l)) <= List.length (filter f l))%nat.
Proof.
  induction l as [|x l IH]; simpl; [lia|].
  destruct (g x), (f x) eqn:E; simpl; rewrite ?E; simpl; lia.
Qed.


(** When at most [n] items are as late as [t], the first [n] items of the
    sorted list hold all of them. *)
Lemma firstn_sorted_keeps t l : StronglySorted ts_ge l -> forall n e,
  (List.length (not_before t l) <= n)%nat ->
  In e l -> t <= snd e -> In e (firstn n l).
Proof.
  unfold not_before.
  induction 1 as [|x l Hs IH Hall]; intros n e Hn He Hte; [destruct He|].
  destruct n as [|n].
  - exfalso.
    pose proof (@filter_length_pos _ (fun kv => Qle_bool t (snd kv)) _ e He
                  (proj2 (Qle_bool_iff _ _) Hte)) as Hp.
    lia.
  - simpl. destruct He as [->|He]; [left; reflexivity|]. right.
    simpl in Hn. destruct (Qle_bool t (snd x)) eqn:E.
    + apply IH; auto. simpl in Hn. lia.
    + exfalso. rewrite Forall_forall in Hall. specialize (Hall e He).
      unfold ts_ge in Hall.
      assert (Hle : t <= snd x) by lra.
      apply Qle_bool_iff in Hle. congruence.
Qed.

(** ** Cleaning a ledger *)

Lemma drop_old_filter l now :
  drop_old l now
  = filter (fun kv => negb (existsb (fun h => eqb h (fst kv))
      (List.map fst (filter (fun kv => Qltb (snd kv) (now - 3600)) l)))) l.
Proof. unfold drop_old. apply fold_del. Qed.

Lemma drop_old_recent l now :
  Forall (fun kv => now - 3600 <= snd kv) (drop_old l now).
Proof.
  rewrite drop_old_filter. apply Forall_forall. intros [k v] Hin.
  apply filter_In in Hin. destruct Hin as [Hin Hkeep]. simpl in *.
  apply Qltb_ge. destruct (Qltb v (now - 3600)) eqn:E; [|reflexivity].
  exfalso. apply negb_true_iff in Hkeep.
  assert (Hex : existsb (fun h => eqb h k)
    (List.map fst (filter (fun kv => Qltb (snd kv) (now - 3600)) l)) = true).
  { apply existsb_exists. exists k. split; [|apply eqb_refl].
    apply in_map_iff. exists (k, v). split; [reflexivity|].
    apply filter_In. auto. }
  congruence.
Qed.

Lemma drop_old_wf_filter l now : wf l ->
  drop_old l now = filter (fun kv => negb (Qltb (snd kv) (now - 3600))) l.
Proof.
  intro Hwf. rewrite drop_old_filter. apply filter_ext_in.
  intros [k v] Hin. simpl. f_equal.
  destruct (Qltb v (now - 3600)) eqn:E.
  - apply existsb_exists. exists k. split; [|apply eqb_refl].
    apply in_map_iff. exists (k, v). split; [reflexivity|].
    apply filter_In. auto.
  - destruct (existsb _ _) eqn:Ex; [|reflexivity]. exfalso.
    apply existsb_exists in Ex. destruct Ex as [h [Hh Heq]].
    apply eqb_eq in Heq. subst h.
    apply in_map_iff in Hh. destruct Hh as [[k' v'] [Hk Hold]].
    simpl in Hk. subst k'. apply filter_In in Hold. destruct Hold as [Hin' Hold].
    simpl in Hold.
    pose proof (In_get _ _ Hwf Hin) as G1. pose proof (In_get _ _ Hwf Hin') as G2.
    assert (v = v') by congruence. subst v'. congruence.
Qed.

Lemma wf_drop_old l now : wf l -> wf (drop_old l now).
Proof. intro H. rewrite drop_old_filter. apply wf_filter, H. Qed.

Lemma length_drop_old l now :
  (List.length (drop_old l now) <= List.length l)%nat.
Proof. rewrite drop_old_filter. apply filter_length_le. Qed.

Lemma wf_sorted_prefix n l : wf l -> wf (firstn n (sorted_desc l)).
Proof.
  unfold wf. intro H.
  assert (Hs : NoDup (List.map fst (sorted_desc l))).
  { eapply Permutation_NoDup; [|exact H].
    apply Permutation_map, Permutation_sym, sorted_desc_perm. }
  rewrite <- (firstn_skipn n (sorted_desc l)), map_app in Hs.
  apply NoDup_app_remove_r in Hs. exact Hs.
Qed.

Lemma limit_size_wf_eq l : wf l ->
  limit_size l
  = if (1000 <? List.length l)%nat then firstn 500 (sorted_desc l) else l.
Proof.
  intro H. unfold limit_size. destruct (1000 <? List.length l)%nat; auto.
  apply of_items_wf, wf_sorted_prefix, H.
Qed.

Lemma wf_limit_size l : wf l -> wf (limit_size l).
Proof.
  intro H. rewrite limit_size_wf_eq by exact H.
  destruct (1000 <? List.length l)%nat; [apply wf_sorted_prefix|]; exact H.
Qed.

Lemma length_limit_size l : (List.length (limit_size l) <= 1000)%nat.
Proof.
  unfold limit_size. destruct (1000 <? List.length l)%nat eqn:E.
  - pose proof (length_of_items (firstn 500 (sorted_desc l))) as H1.
    pose proof (firstn_le_length 500 (sorted_desc l)). lia.
  - apply Nat.ltb_ge in E. exact E.
Qed.

Lemma wf_cleanup_ledger l now : wf l -> wf (cleanup_ledger l now).
Proof. intro H. apply wf_limit_size, wf_drop_old, H. Qed.

(** ** The emoji-only filter *)

Lemma lstrip_nil (s : str) : lstrip s = [] <-> forallb isspace s = true.
Proof.
  induction s as [|c s IH]; simpl; [tauto|].
  destruct (isspace c); simpl; [exact IH|]. split; discriminate.
Qed.

Lemma lstrip_head (s : str) c r : lstrip s = c :: r -> isspace c = false.
Proof.
  induction s as [|x s IH]; simpl; [discriminate|].
  destruct (isspace x) eqn:E; [exact IH|]. intros [= -> _]. exact E.
Qed.

Lemma strip_nil (s : str) : strip s = [] <-> forallb isspace s = true.
Proof.
  unfold strip, rstrip. split.
  - intro H. apply lstrip_nil.
    destruct (lstrip s) as [|c r] eqn:E; [reflexivity|]. exfalso.
    apply lstrip_head in E.
    apply (f_equal (@rev N)) in H. rewrite rev_involutive in H.
    change (rev (@nil N)) with (@nil N) in H.
    apply lstrip_nil in H. rewrite forallb_forall in H.
    specialize (H c). rewrite <- in_rev in H.
    rewrite H in E by (left; reflexivity). discriminate.
  - intro H. apply lstrip_nil in H. rewrite H. reflexivity.
Qed.

(** The filter holds exactly for the texts made of whitespace and of
    characters in the ranges of [emoji_pattern]. *)
Lemma emoji_only_forallb (text : str) :
  _is_emoji_only_message text
  = forallb (fun c => isspace c || emoji_pattern c) text.
Proof.
  destruct (forallb (fun c => isspace c || emoji_pattern c) text) eqn:A.
  - unfold _is_emoji_only_message.
    destruct (is_empty text || is_empty (strip text)); [reflexivity|].
    destruct (is_empty _); [reflexivity|].
    match goal with |- (List.length ?x =? 0)%nat = true =>
      assert (E : x = []); [|rewrite E; reflexivity] end.
    apply strip_nil. apply forallb_forall. intros c Hc.
    rewrite forallb_forall in A.
    apply filter_In in Hc. destruct Hc as [Hc Hne].
    unfold remove_char in Hc.
    repeat (apply filter_In in Hc; destruct Hc as [Hc _]).
    specialize (A c Hc). destruct (emoji_pattern c); [discriminate|].
    rewrite orb_false_r in A. exact A.
  - assert (Hex : exists c, In c text /\ isspace c = false
                            /\ emoji_pattern c = false).
    { clear -A. induction text as [|c text IH]; simpl in A; [discriminate|].
      destruct (isspace c || emoji_pattern c) eqn:E.
      - destruct (IH A) as [x [Hx Hp]]. exists x. split; [right|]; assumption.
      - apply orb_false_iff in E. exists c. split; [left; reflexivity|exact E]. }
    destruct Hex as [c [Hc [Hs He]]].
    assert (Hstrip : forall t, In c t -> strip t <> []).
    { intros t Ht H. apply strip_nil in H. rewrite forallb_forall in H.
      rewrite (H c Ht) in Hs. discriminate. }
    assert (Hrem : forall x t, isspace x = true -> In c t ->
                               In c (remove_char x t)).
    { intros x t Hx Ht. apply filter_In. split; [exact Ht|].
      apply negb_true_iff, N.eqb_neq. intros ->. congruence. }
    unfold _is_emoji_only_message.
    destruct text as [|x text]; [destruct Hc|].
    pose proof (Hstrip _ Hc) as H1.
    destruct (strip (x :: text)) eqn:E1; [congruence|]. cbn [is_empty orb].
    set (t1 := remove_char 9 _).
    assert (H2 : In c t1).
    { unfold t1. repeat (apply Hrem; [reflexivity|]). exact Hc. }
    clearbody t1. destruct t1 as [|y t2]; [destruct H2|]. cbn [is_empty].
    assert (H3 : In c (filter (fun c => negb (emoji_pattern c)) (y :: t2))).
    { apply filter_In. split; [exact H2|]. rewrite He. reflexivity. }
    apply Hstrip in H3.
    destruct (strip (filter (fun c0 => negb (emoji_pattern c0)) (y :: t2)));
      [congruence|reflexivity].
Qed.

Lemma emoji_only_false (text : str) :
  (exists c, In c text /\ isspace c = false /\ emoji_pattern c = false) ->
  _is_emoji_only_message text = false.
Proof.
  intros [c [Hc [Hs He]]]. rewrite emoji_only_forallb.
  destruct (forallb _ text) eqn:A; [|reflexivity].
  rewrite forallb_forall in A. specialize (A c Hc).
  rewrite Hs, He in A. discriminate.
Qed.

Lemma emoji_only_true (text : str) :
  (forall c, In c text -> isspace c = true \/ emoji_pattern c = true) ->
  _is_emoji_only_message text = true.
Proof.
  intro H. rewrite emoji_only_forallb. apply forallb_forall.
  intros c Hc. apply orb_true_iff. auto.
Qed.

Arguments md5_hex : simpl never.

(** ** The deduplicator *)

Section DedupFacts.

Variables lower nfc : str -> str.

Local Notation is_dup := (_is_duplicate_comment lower nfc).
Local Notation save := (save_event lower nfc).
Local Notation sim_hash := (similarity_hash lower nfc).
Local Notation matches := (any_match lower nfc).
Local Notation record := (recorded lower nfc).

Lemma seen_within_mem (rc : dict ledger) u h now w :
  seen_within (ledger_of rc u) h now w = true -> mem u rc = true.
Proof.
  unfold ledger_of, mem. destruct (get u rc); [reflexivity|].
  unfold seen_within. simpl. discriminate.
Qed.

Lemma any_match_mem (rc : dict ledger) u a c now :
  matches (ledger_of rc u) a c now = true -> mem u rc = true.
Proof.
  unfold any_match, exact_match, similar_match, rapid_fire.
  intro H. apply orb_true_iff in H. destruct H as [H|H].
  - apply orb_true_iff in H.
    destruct H as [H|H]; apply seen_within_mem in H; exact H.
  - unfold ledger_of, mem in *. destruct (get u rc); [reflexivity|].
    simpl in H. discriminate.
Qed.

Lemma ledger_of_unset (rc : dict ledger) u :
  mem u rc = false -> ledger_of rc u = [].
Proof. unfold mem, ledger_of. destruct (get u rc); [discriminate|reflexivity]. Qed.

(** A matching strategy ends the call with the state as it was. *)
Lemma is_dup_match s u a c now :
  matches (ledger_of (recent_comments s) u) a c now = true ->
  is_dup s u a c now = (s, true).
Proof.
  intro H. unfold _is_duplicate_comment.
  rewrite (any_match_mem _ _ _ _ _ H).
  unfold any_match in H.
  destruct (exact_match _ _ _ _); [reflexivity|].
  destruct (similar_match _ _ _ _ _ _); [reflexivity|].
  destruct (rapid_fire _ _ _); [reflexivity|]. discriminate.
Qed.

(** With no match the hashes are stored and the ledger is cleaned. *)
Lemma is_dup_no_match s u a c now :
  let l := ledger_of (recent_comments s) u in
  matches l a c now = false ->
  exists rc',
    is_dup s u a c now = (with_recent_comments rc' s, false)
    /\ get u rc' = Some (cleanup_ledger (record l a c now) now)
    /\ forall u', u' <> u -> get u' rc' = get u' (recent_comments s).
Proof.
  intros l H. unfold any_match in H.
  apply orb_false_iff in H. destruct H as [H H3].
  apply orb_false_iff in H. destruct H as [H1 H2].
  unfold _is_duplicate_comment.
  destruct (mem u (recent_comments s)) eqn:M.
  - fold l. rewrite H1, H2, H3. unfold _cleanup_old_comments.
    cbn [recent_comments with_recent_comments].
    rewrite get_set_same.
    eexists. split; [reflexivity|]. split.
    + apply get_set_same.
    + intros u' Hne. rewrite !get_set_other by congruence. reflexivity.
  - cbn [recent_comments with_recent_comments].
    assert (E : ledger_of (set u [] (recent_comments s)) u = l).
    { unfold l. rewrite (ledger_of_unset _ _ M).
      unfold ledger_of. rewrite get_set_same. reflexivity. }
    rewrite E, H1, H2, H3. unfold _cleanup_old_comments.
    cbn [recent_comments with_recent_comments].
    rewrite get_set_same.
    eexists. split; [reflexivity|]. split.
    + apply get_set_same.
    + intros u' Hne. rewrite !get_set_other by congruence. reflexivity.
Qed.

Lemma is_dup_snd s u a c now :
  snd (is_dup s u a c now) = matches (ledger_of (recent_comments s) u) a c now.
Proof.
  destruct (matches _ a c now) eqn:M.
  - rewrite is_dup_match by exact M. reflexivity.
  - destruct (is_dup_no_match s u a c now M) as [rc' [E _]].
    rewrite E. reflexivity.
Qed.

(** *** What [save_event] does with a comment *)

Lemma save_event_match s u a c now :
  matches (ledger_of (recent_comments s) u) a c now = true ->
  save s u (lit "comment") a c now = with_stats incr_duplicates_filtered s.
Proof.
  intro H. unfold save_event. rewrite eqb_refl.
  rewrite is_dup_match by exact H. reflexivity.
Qed.

Lemma save_event_emoji s u a c now :
  let l := ledger_of (recent_comments s) u in
  matches l a c now = false ->
  _is_emoji_only_message c = true ->
  exists rc',
    save s u (lit "comment") a c now
    = with_stats incr_duplicates_filtered (with_recent_comments rc' s)
    /\ get u rc' = Some (cleanup_ledger (record l a c now) now).
Proof.
  intros l H He. destruct (is_dup_no_match s u a c now H) as [rc' [E [G _]]].
  exists rc'. split; [|exact G].
  unfold save_event. rewrite eqb_refl, E, He. reflexivity.
Qed.

Lemma save_event_forward s u a c now :
  let l := ledger_of (recent_comments s) u in
  matches l a c now = false ->
  _is_emoji_only_message c = false ->
  let s' := save s u (lit "comment") a c now in
  comments_captured (stats s') = S (comments_captured (stats s))
  /\ duplicates_filtered (stats s') = duplicates_filtered (stats s)
  /\ get u (recent_comments s')
     = Some (cleanup_ledger (record l a c now) now)
  /\ file_lines (session_files s') u
     = (if mem u (session_files s) then file_lines (session_files s) u
        else [session_header u])
       ++ [strip (replace_char 13 32 (replace_char 10 32 c))].
Proof.
  intros l H He. destruct (is_dup_no_match s u a c now H) as [rc' [E [G _]]].
  unfold save_event. rewrite eqb_refl, E, He. cbn [andb].
  cbn [session_files with_recent_comments].
  destruct (mem u (session_files s)); cbn; unfold file_lines;
    rewrite ?get_set_same; auto.
Qed.

(** A recording call keeps the keys of the ledger pairwise distinct. *)
Lemma is_dup_wf s u a c now :
  wf (ledger_of (recent_comments s) u) ->
  wf (ledger_of (recent_comments (fst (is_dup s u a c now))) u).
Proof.
  intro Hwf. destruct (matches (ledger_of (recent_comments s) u) a c now) eqn:M.
  - rewrite is_dup_match by exact M. exact Hwf.
  - destruct (is_dup_no_match s u a c now M) as [rc' [E [G _]]].
    rewrite E. cbn [fst recent_comments with_recent_comments].
    unfold ledger_of at 1. rewrite G.
    apply wf_limit_size, wf_drop_old. unfold recorded.
    apply wf_set, wf_set, Hwf.
Qed.

(** *** The hashes stored by a recording call survive its cleanup *)

Lemma recorded_get_exact l a c now :
  get (exact_hash a c) (record l a c now) = Some now.
Proof.
  unfold recorded.
  destruct (list_eq_dec N.eq_dec (sim_hash a c) (exact_hash a c)) as [E|E].
  - rewrite <- E. apply get_set_same.
  - rewrite get_set_other by exact E. apply get_set_same.
Qed.

Lemma recorded_get_similar l a c now :
  get (sim_hash a c) (record l a c now) = Some now.
Proof. apply get_set_same. Qed.

Lemma wf_recorded l a c now : wf l -> wf (record l a c now).
Proof. intro H. unfold recorded. apply wf_set, wf_set, H. Qed.

Lemma cleanup_keeps l k now :
  wf l -> get k l = Some now ->
  (List.length l <= 1000)%nat \/ (List.length (not_before now l) <= 500)%nat ->
  get k (cleanup_ledger l now) = Some now.
Proof.
  intros Hwf Hk Hroom. apply In_get; [apply wf_cleanup_ledger, Hwf|].
  apply get_In in Hk.
  assert (H1 : In (k, now) (drop_old l now)).
  { rewrite drop_old_wf_filter by exact Hwf. apply filter_In. split; [exact Hk|].
    simpl. apply negb_true_iff, Qltb_ge. lra. }
  unfold cleanup_ledger. rewrite limit_size_wf_eq by (apply wf_drop_old, Hwf).
  destruct (1000 <? List.length (drop_old l now))%nat eqn:E; [|exact H1].
  apply Nat.ltb_lt in E. pose proof (length_drop_old l now) as Hlen.
  destruct Hroom as [Hroom|Hroom]; [lia|].
  apply (@firstn_sorted_keeps now).
  - apply sorted_desc_sorted.
  - unfold not_before in *.
    rewrite (filter_length_perm _ (sorted_desc_perm (drop_old l now))).
    rewrite drop_old_filter.
    etransitivity; [apply filter_filter_length | exact Hroom].
  - apply (Permutation_in _ (Permutation_sym (sorted_desc_perm _))). exact H1.
  - simpl. lra.
Qed.

Lemma room_recorded l a c now :
  room_for_new_keys l now ->
  (List.length (record l a c now) <= 1000)%nat
  \/ (List.length (not_before now (record l a c now)) <= 500)%nat.
Proof.
  unfold room_for_new_keys, recorded, not_before. intros [H|H]; [left|right].
  - pose proof (length_set (sim_hash a c) now (set (exact_hash a c) now l)).
    pose proof (length_set (exact_hash a c) now l). lia.
  - pose proof (length_filter_set (fun kv => Qle_bool now (snd kv))
                  (sim_hash a c) now (set (exact_hash a c) now l)).
    pose proof (length_filter_set (fun kv => Qle_bool now (snd kv))
                  (exact_hash a c) now l). lia.
Qed.

Lemma record_keeps_keys l a c now :
  wf l -> room_for_new_keys l now ->
  get (exact_hash a c) (cleanup_ledger (record l a c now) now) = Some now
  /\ get (sim_hash a c) (cleanup_ledger (record l a c now) now) = Some now.
Proof.
  intros Hwf Hroom. split; apply cleanup_keeps;
    auto using wf_recorded, recorded_get_exact, recorded_get_similar,
               room_recorded.
Qed.


(** An event whose exact hash is in the ledger, stamped less than 30
    seconds ago, is dropped and counted as a duplicate. *)
Lemma save_event_exact_repeat s u a c now t0 :
  get (exact_hash a c) (ledger_of (recent_comments s) u) = Some t0 ->
  now - t0 < 30 ->
  save s u (lit "comment") a c now = with_stats incr_duplicates_filtered s.
Proof.
  intros G Ht. apply save_event_match.
  unfold any_match, exact_match, seen_within. rewrite G.
  rewrite (proj2 (Qltb_lt _ _) Ht). reflexivity.
Qed.

Lemma exact_hash_strip a c c' : strip c = strip c' -> exact_hash a c = exact_hash a c'.
Proof. unfold exact_hash. intros ->. reflexivity. Qed.

(** A forwarded comment had no match and is not emoji-only. *)
Lemma forwarded_inv s u a c now :
  comments_captured (stats (save s u (lit "comment") a c now))
  = S (comments_captured (stats s)) ->
  matches (ledger_of (recent_comments s) u) a c now = false
  /\ _is_emoji_only_message c = false.
Proof.
  intro H.
  destruct (matches (ledger_of (recent_comments s) u) a c now) eqn:M.
  - rewrite save_event_match in H by exact M. cbn in H. lia.
  - split; [reflexivity|].
    destruct (_is_emoji_only_message c) eqn:E; [|reflexivity].
    destruct (save_event_emoji s u a c now M E) as [rc' [Hs _]].
    rewrite Hs in H. cbn in H. lia.
Qed.

Lemma repeats_suppressed u a k t0 (later : list (str * Q)) : forall s,
  get k (ledger_of (recent_comments s) u) = Some t0 ->
  Forall (fun ev => exact_hash a (fst ev) = k /\ snd ev - t0 < 30) later ->
  let sN := fold_left (fun st ev => save st u (lit "comment") a (fst ev) (snd ev))
              later s in
  comments_captured (stats sN) = comments_captured (stats s)
  /\ duplicates_filtered (stats sN)
     = (duplicates_filtered (stats s) + List.length later)%nat
  /\ recent_comments sN = recent_comments s
  /\ session_files sN = session_files s.
Proof.
  induction later as [|[c t] later IH]; intros s G Hall; simpl.
  - repeat split; lia.
  - inversion Hall as [|? ? Hhd Hall']; subst. destruct Hhd as [Hk Ht].
    simpl in Hk, Ht.
    rewrite (@save_event_exact_repeat s u a c t t0) by (rewrite ?Hk; assumption).
    specialize (IH (with_stats incr_duplicates_filtered s) G Hall').
    cbn zeta in IH. destruct IH as [I1 [I2 [I3 I4]]].
    rewrite I1, I2, I3, I4. cbn. repeat split; lia.
Qed.

(** C1, as amended: after a forwarded comment whose hashes the cleanup
    keeps, every comment of the same author with the same trimmed text that
    arrives less than 30 seconds after it is dropped: each one adds one to
    [duplicates_filtered], none adds to [comments_captured], and neither
    the ledger nor the session file changes. *)
Theorem exact_repeat_suppressed s u a c0 t0 (later : list (str * Q)) :
  let l := ledger_of (recent_comments s) u in
  let s1 := save s u (lit "comment") a c0 t0 in
  let sN := fold_left (fun st ev => save st u (lit "comment") a (fst ev) (snd ev))
              later s1 in
  wf l -> room_for_new_keys l t0 ->
  comments_captured (stats s1) = S (comments_captured (stats s)) ->
  Forall (fun ev => strip (fst ev) = strip c0 /\ snd ev - t0 < 30) later ->
  comments_captured (stats sN) = comments_captured (stats s1)
  /\ duplicates_filtered (stats sN)
     = (duplicates_filtered (stats s1) + List.length later)%nat
  /\ recent_comments sN = recent_comments s1
  /\ session_files sN = session_files s1.
Proof.
  intros l s1 sN Hwf Hroom Hfwd Hall.
  destruct (forwarded_inv _ _ _ _ _ Hfwd) as [M E].
  destruct (save_event_forward s u a c0 t0 M E) as [_ [_ [G _]]].
  destruct (record_keeps_keys a c0 Hwf Hroom) as [Ke _].
  apply (@repeats_suppressed u a (exact_hash a c0) t0).
  - fold s1 in G. unfold ledger_of. rewrite G. exact Ke.
  - eapply Forall_impl; [|exact Hall]. intros [c t] [Hs Ht]. simpl in *.
    split; [apply exact_hash_strip, Hs | exact Ht].
Qed.

(** C2, as amended: once a comment is recorded at [t0], a comment of the
    same author with the same normalized text less than 10 seconds later is
    dropped; a third one 11 seconds after the first is dropped as well when
    its trimmed text is the first one's trimmed or normalized text, the
    30-second window of the exact rule being open, and is forwarded when
    its exact hash is not in the ledger, the rapid-fire rule does not fire
    and it is not emoji-only. *)
Theorem near_duplicate_window s1 u a c1 t0 c2 t1 c3 t3 :
  let l := ledger_of (recent_comments s1) u in
  let s2 := save s1 u (lit "comment") a c2 t1 in
  let s3 := save s2 u (lit "comment") a c3 t3 in
  get (exact_hash a c1) l = Some t0 ->
  get (sim_hash a c1) l = Some t0 ->
  nfc (strip (lower c2)) = nfc (strip (lower c1)) ->
  t1 - t0 < 10 ->
  nfc (strip (lower c3)) = nfc (strip (lower c1)) ->
  t3 - t0 == 11 ->
  s2 = with_stats incr_duplicates_filtered s1
  /\ (strip c3 = strip c1 \/ strip c3 = nfc (strip (lower c1)) ->
      s3 = with_stats incr_duplicates_filtered s2)
  /\ (get (exact_hash a c3) l = None -> rapid_fire l a t3 = false ->
      _is_emoji_only_message c3 = false ->
      comments_captured (stats s3) = S (comments_captured (stats s2))).
Proof.
  intros l s2 s3 Ge Gs N2 T1 N3 T3.
  assert (E2 : s2 = with_stats incr_duplicates_filtered s1).
  { apply save_event_match. unfold any_match, similar_match, seen_within.
    fold l. unfold similarity_hash. rewrite N2.
    unfold similarity_hash in Gs. rewrite Gs.
    rewrite (proj2 (Qltb_lt _ _) T1), orb_true_r. reflexivity. }
  split; [exact E2|]. split.
  - intros Hsame. apply (@save_event_exact_repeat s2 u a c3 t3 t0).
    + rewrite E2. cbn [recent_comments with_stats]. fold l.
      destruct Hsame as [H|H].
      * rewrite (exact_hash_strip a _ _ H). exact Ge.
      * unfold exact_hash. rewrite H. exact Gs.
    + lra.
  - intros Gn R E.
    apply save_event_forward; [|exact E].
    rewrite E2. cbn [recent_comments with_stats]. fold l.
    unfold any_match, exact_match, similar_match, seen_within.
    rewrite Gn, R. unfold similarity_hash. rewrite N3.
    unfold similarity_hash in Gs. rewrite Gs.
    assert (H : Qltb (t3 - t0) 10 = false) by (apply Qltb_ge; lra).
    rewrite H. reflexivity.
Qed.

(** C6: after a call of the deduplicator that records the event, no entry
    of the streamer's ledger is older than one hour, the ledger has at most
    1000 entries, and when more than 1000 were left after the old ones were
    deleted, exactly the 500 with the latest timestamps are kept. *)
Theorem ledger_bounded_after_record s u a c now :
  let l := ledger_of (recent_comments s) u in
  let l1 := drop_old (record l a c now) now in
  let l' := ledger_of (recent_comments (fst (is_dup s u a c now))) u in
  wf l ->
  snd (is_dup s u a c now) = false ->
  Forall (fun kv => now - 3600 <= snd kv) l'
  /\ (List.length l' <= 1000)%nat
  /\ ((List.length l1 <= 1000)%nat -> l' = l1)
  /\ ((1000 < List.length l1)%nat ->
      l' = firstn 500 (sorted_desc l1)
      /\ List.length l' = 500%nat
      /\ forall kept dropped, In kept l' -> In dropped l1 -> ~ In dropped l' ->
           snd dropped <= snd kept).
Proof.
  intros l l1 l' Hwf Hrec. rewrite is_dup_snd in Hrec.
  destruct (is_dup_no_match s u a c now Hrec) as [rc' [E [G _]]].
  assert (El : l' = limit_size l1).
  { unfold l'. rewrite E. cbn [fst recent_comments with_recent_comments].
    unfold ledger_of. rewrite G. reflexivity. }
  assert (Hwf1 : wf l1) by (apply wf_drop_old, wf_recorded, Hwf).
  rewrite El. rewrite (limit_size_wf_eq Hwf1).
  pose proof (drop_old_recent (record l a c now) now) as Hrecent. fold l1 in Hrecent.
  destruct (1000 <? List.length l1)%nat eqn:C.
  - apply Nat.ltb_lt in C.
    assert (Hlen : List.length (firstn 500 (sorted_desc l1)) = 500%nat).
    { apply firstn_length_le.
      rewrite (Permutation_length (sorted_desc_perm l1)). lia. }
    split; [|split; [lia|split; [lia|]]].
    + apply Forall_forall. intros kv Hin.
      rewrite Forall_forall in Hrecent. apply Hrecent.
      apply (Permutation_in _ (sorted_desc_perm l1)).
      rewrite <- (firstn_skipn 500 (sorted_desc l1)). apply in_or_app. auto.
    + intros _. split; [reflexivity|]. split; [exact Hlen|].
      intros kept dropped Hk Hd Hnd.
      apply (@sorted_firstn_skipn 500 (sorted_desc l1));
        [apply sorted_desc_sorted | exact Hk |].
      apply (Permutation_in _ (Permutation_sym (sorted_desc_perm l1))) in Hd.
      rewrite <- (firstn_skipn 500 (sorted_desc l1)) in Hd.
      apply in_app_or in Hd. tauto.
  - apply Nat.ltb_ge in C. split; [exact Hrecent|].
    split; [exact C|]. split; [reflexivity|]. lia.
Qed.

(** A comment that the filter of the code does not class emoji-only is
    dropped only when one of the three strategies matches, and then the
    comment history and the session files are unchanged; when none matches
    it is forwarded, and the ledger afterwards maps its exact and its
    similarity hash to the time of the event provided the cleanup has room
    for them. *)
Lemma dedup_decision_and_frame s u a c now :
  let l := ledger_of (recent_comments s) u in
  let s' := save s u (lit "comment") a c now in
  let l' := ledger_of (recent_comments s') u in
  (exists ch, In ch c /\ isspace ch = false /\ emoji_pattern ch = false) ->
  (comments_captured (stats s') = comments_captured (stats s) ->
     matches l a c now = true
     /\ recent_comments s' = recent_comments s
     /\ session_files s' = session_files s
     /\ duplicates_filtered (stats s') = S (duplicates_filtered (stats s)))
  /\ (matches l a c now = false ->
        comments_captured (stats s') = S (comments_captured (stats s))
        /\ file_lines (session_files s') u
           = (if mem u (session_files s) then file_lines (session_files s) u
              else [session_header u])
             ++ [strip (replace_char 13 32 (replace_char 10 32 c))]
        /\ (wf l -> room_for_new_keys l now ->
            get (exact_hash a c) l' = Some now
            /\ get (sim_hash a c) l' = Some now)).
Proof.
  intros l s' l' E. apply emoji_only_false in E. split.
  - intro Hsup. destruct (matches l a c now) eqn:M.
    + unfold s'. rewrite save_event_match by exact M. cbn. auto.
    + destruct (save_event_forward s u a c now M E) as [Hc _].
      fold s' in Hc. lia.
  - intro M. destruct (save_event_forward s u a c now M E) as [Hc [_ [G F]]].
    split; [exact Hc|]. split; [exact F|]. intros Hwf Hroom.
    unfold l', s', ledger_of. rewrite G.
    apply record_keeps_keys; assumption.
Qed.

(** C8: the code does not do what the claim says, nor what the docstring
    of its filter says ("only emojis and whitespace").  The range that
    [emoji_pattern] calls enclosed characters runs from U+24C2 to U+1F251
    and so holds the CJK ideographs, the kana and Hangul.  A comment
    written in characters of that range, with or without whitespace, is
    answered "not a duplicate" by the deduplicator when none of the three
    strategies matches, and is dropped all the same: no line is written,
    [comments_captured] stays as it is and [duplicates_filtered] counts
    the comment. *)
Theorem unmatched_text_dropped_as_emoji s u a c now :
  let l := ledger_of (recent_comments s) u in
  let s' := save s u (lit "comment") a c now in
  (forall ch, In ch c ->
     isspace ch = true \/ ((0x24C2 <= ch)%N /\ (ch <= 0x1F251)%N)) ->
  matches l a c now = false ->
  snd (is_dup s u a c now) = false
  /\ session_files s' = session_files s
  /\ comments_captured (stats s') = comments_captured (stats s)
  /\ duplicates_filtered (stats s') = S (duplicates_filtered (stats s)).
Proof.
  intros l s' Hrange M.
  assert (E : _is_emoji_only_message c = true).
  { apply emoji_only_true. intros ch Hch.
    destruct (Hrange ch Hch) as [Hsp|[Hlo Hhi]]; [left; exact Hsp | right].
    unfold emoji_pattern.
    apply N.leb_le in Hlo. apply N.leb_le in Hhi. rewrite Hlo, Hhi.
    rewrite !orb_true_r. reflexivity. }
  split; [rewrite is_dup_snd; exact M|].
  destruct (save_event_emoji s u a c now M E) as [rc' [Hs _]].
  unfold s'. rewrite Hs. cbn. auto.
Qed.

(** C10, as amended: an emoji-only comment whose hashes are not in the
    ledger is dropped by [save_event] (no line written, [comments_captured]
    unchanged, [duplicates_filtered] incremented), yet when the rapid-fire
    rule does not fire and the cleanup has room for them its two hashes are
    stored with the time of the event; the same comment less than 30 seconds
    later is then dropped by the exact rule. *)
Theorem emoji_only_recorded_then_suppressed s u a c now :
  let l := ledger_of (recent_comments s) u in
  let s' := save s u (lit "comment") a c now in
  let l' := ledger_of (recent_comments s') u in
  (forall ch, In ch c -> isspace ch = true \/ emoji_pattern ch = true) ->
  get (exact_hash a c) l = None ->
  get (sim_hash a c) l = None ->
  rapid_fire l a now = false ->
  wf l -> room_for_new_keys l now ->
  session_files s' = session_files s
  /\ comments_captured (stats s') = comments_captured (stats s)
  /\ duplicates_filtered (stats s') = S (duplicates_filtered (stats s))
  /\ get (exact_hash a c) l' = Some now
  /\ get (sim_hash a c) l' = Some now
  /\ forall now', now' - now < 30 ->
       exact_match l' a c now' = true
       /\ save s' u (lit "comment") a c now'
          = with_stats incr_duplicates_filtered s'.
Proof.
  intros l s' l' E Ge Gs R Hwf Hroom. apply emoji_only_true in E.
  assert (M : matches l a c now = false).
  { unfold any_match, exact_match, similar_match, seen_within.
    rewrite Ge, Gs, R. reflexivity. }
  destruct (save_event_emoji s u a c now M E) as [rc' [Hs G]].
  destruct (record_keeps_keys a c Hwf Hroom) as [Ke Ks].
  assert (El : l' = cleanup_ledger (record l a c now) now).
  { unfold l', s'. rewrite Hs. cbn [recent_comments with_stats with_recent_comments].
    unfold ledger_of. rewrite G. reflexivity. }
  unfold s' at 1 2 3. rewrite Hs. cbn [session_files stats with_stats
    with_recent_comments comments_captured duplicates_filtered
    incr_duplicates_filtered].
  rewrite El. repeat (split; [solve [auto]|]).
  intros now' Ht. split.
  - unfold exact_match, seen_within. rewrite Ke. apply Qltb_lt. exact Ht.
  - apply (@save_event_exact_repeat s' u a c now' now); [|exact Ht].
    fold l'. rewrite El. exact Ke.
Qed.

End DedupFacts.

(** ** Rate-limit state *)

Lemma record_rate_limit_global s u now :
  global_rate_limit_until (record_rate_limit s u now)
  = now + global_rate_limit_duration (config s).
Proof. reflexivity. Qed.

Lemma record_rate_limit_streamer s u now :
  get u (streamer_rate_limits (record_rate_limit s u now))
  = Some (now + per_streamer_rate_limit (config s)).
Proof. apply get_set_same. Qed.

(** C4, as amended: a rate-limit signal for [u] at [now] assigns
    [now + global_rate_limit_duration] to the global deadline and
    [now + per_streamer_rate_limit] to the deadline of [u], whatever the
    deadlines in place, and leaves the deadline of every other streamer as
    it is.  When a deadline in place is not later than the new one, the
    new one is the maximum of the two and the window does not shrink; when
    the global deadline in place is later, the window shrinks.  With a
    positive duration the process, and [u], are limited at once. *)
Theorem record_rate_limit_extends s u now other :
  let s' := record_rate_limit s u now in
  let g := now + global_rate_limit_duration (config s) in
  let p := now + per_streamer_rate_limit (config s) in
  global_rate_limit_until s' = g
  /\ get u (streamer_rate_limits s') = Some p
  /\ (other <> u ->
      get other (streamer_rate_limits s') = get other (streamer_rate_limits s))
  /\ (global_rate_limit_until s <= g ->
      g == Qmax (global_rate_limit_until s) g
      /\ global_rate_limit_until s <= global_rate_limit_until s')
  /\ (forall t, get u (streamer_rate_limits s) = Some t -> t <= p ->
      p == Qmax t p)
  /\ (g < global_rate_limit_until s ->
      global_rate_limit_until s' < global_rate_limit_until s)
  /\ (0 < global_rate_limit_duration (config s) ->
      is_globally_limited s' now = true)
  /\ (0 < per_streamer_rate_limit (config s) ->
      is_streamer_limited s' u now = true).
Proof.
  intros s' g p.
  split; [reflexivity|]. split; [apply record_rate_limit_streamer|].
  split.
  { intro Hne. unfold s'.
    cbn [streamer_rate_limits record_rate_limit with_stats].
    apply get_set_other. congruence. }
  split; [intro Hg; split; [symmetry; apply Q.max_r; exact Hg | exact Hg]|].
  split; [intros t _ Ht; symmetry; apply Q.max_r; exact Ht|].
  split; [intro Hlt; exact Hlt|].
  split.
  - intro Dg. apply Qltb_lt. unfold s'. rewrite record_rate_limit_global. lra.
  - intro Dp. unfold is_streamer_limited, s'.
    rewrite record_rate_limit_streamer. apply Qltb_lt. lra.
Qed.

(** ** Back-off *)

Lemma Qmult_le_nonneg_l (z x y : Q) : 0 <= z -> x <= y -> z * x <= z * y.
Proof.
  intros Hz Hxy. rewrite (Qmult_comm z x), (Qmult_comm z y).
  apply Qmult_le_compat_r; assumption.
Qed.

Lemma float_pow_Some x n p :
  float_pow x n = Some p ->
  p = x ^ Z.of_nat n /\ Qabs p < float_overflow_bound.
Proof.
  unfold float_pow. destruct (Qle_bool _ _) eqn:E; [discriminate|].
  intros [= <-]. split; [reflexivity|].
  apply Qnot_le_lt. intro H. apply Qle_bool_iff in H. congruence.
Qed.




Lemma backoff_sleep_Some cfg n r effects :
  backoff_sleep cfg n r = Some effects ->
  (n = 0%nat /\ effects = [])
  \/ ((0 < n)%nat
      /\ exists d, actual_delay cfg n (uniform (jitter_range cfg) r) = Some d
                   /\ effects = [Sleep d]).
Proof.
  unfold backoff_sleep. destruct (0 <? n)%nat eqn:E.
  - apply Nat.ltb_lt in E.
    destruct (actual_delay cfg n _) as [d|]; [|discriminate].
    intros [= <-]. right. split; [exact E|]. exists d. auto.
  - apply Nat.ltb_ge in E. intros [= <-]. left. split; [lia | reflexivity].
Qed.

Lemma uniform_between range r :
  fst range <= snd range -> 0 <= r -> r <= 1 ->
  fst range <= uniform range r /\ uniform range r <= snd range.
Proof.
  unfold uniform. intros Hr H0 H1.
  assert (H : 0 <= (snd range - fst range) * r)
    by (apply Qmult_le_0_compat; lra).
  assert (H' : (snd range - fst range) * r <= (snd range - fst range) * 1)
    by (apply Qmult_le_nonneg_l; lra).
  lra.
Qed.


(** ** Connection attempts and the monitoring loop *)

Section OrchestratorFacts.

Variable lower : str -> str.
Variable TIKTOK_LIVE_AVAILABLE : bool.

Local Notation attempt := (attempt_connection lower).
Local Notation create := (create_streamer_client lower TIKTOK_LIVE_AVAILABLE).
Local Notation iteration := (monitor_iteration lower TIKTOK_LIVE_AVAILABLE).
Local Notation loop := (monitor_loop lower TIKTOK_LIVE_AVAILABLE).

(** The permits held before an attempt are free again after it. *)
Lemma attempt_connection_semaphore s u env :
  connection_semaphore (fst (fst (attempt s u env))) = connection_semaphore s.
Proof.
  unfold attempt_connection.
  destruct (is_globally_limited _ _); [reflexivity|].
  destruct (is_streamer_limited _ _ _); [reflexivity|].
  destruct (at_outcome env) as [|msg]; [reflexivity|].
  destruct (is_rate_limit_error lower msg); reflexivity.
Qed.

Lemma create_streamer_client_semaphore s u env s' r effs :
  create s u env = Some (s', r, effs) ->
  connection_semaphore s' = connection_semaphore s.
Proof.
  unfold create_streamer_client.
  destruct (negb TIKTOK_LIVE_AVAILABLE); [intros [= <- _ _]; reflexivity|].
  destruct (connection_semaphore s) as [|free] eqn:E; [discriminate|].
  pose proof (attempt_connection_semaphore
    (with_stats incr_connection_attempts (with_semaphore free s)) u env) as H.
  destruct (attempt _ u env) as [[s2 r2] effs2].
  intros [= <- _ _]. cbn in H |- *. rewrite H. reflexivity.
Qed.


(** C5: an attempt that holds a permit and finds the global or the
    per-streamer rate limit active is refused: it returns
    [(False, True)] without sleeping or starting a client, the number of
    free permits is the same after it as before, the loop of the streamer
    counts a failure and a rate limit and goes on to its next iteration,
    which sleeps before anything else. *)
Theorem refused_attempt_keeps_permits s u env :
  TIKTOK_LIVE_AVAILABLE = true ->
  (0 < connection_semaphore s)%nat ->
  is_globally_limited s (at_check_time env) = true
  \/ is_streamer_limited s u (at_check_time env) = true ->
  exists s',
    create s u env = Some (s', (false, true), [])
    /\ connection_semaphore s' = connection_semaphore s
    /\ active_clients s' = active_clients s
    /\ global_rate_limit_until s' = global_rate_limit_until s
    /\ streamer_rate_limits s' = streamer_rate_limits s
    /\ forall v ienv waited,
         it_attempt ienv = env ->
         backoff_sleep (config s) (consecutive_failures v) (it_random ienv)
         = Some waited ->
         (3 <=? consecutive_rate_limits v)%nat
         && Qltb 0 (rate_limit_cooldown (config s)
                    - (it_time ienv - last_success_time v)) = false ->
         let v' := {| consecutive_failures := S (consecutive_failures v);
                      consecutive_rate_limits := S (consecutive_rate_limits v);
                      last_success_time := last_success_time v |} in
         iteration s u v ienv = Some (s', v', waited)
         /\ forall ienv' s'' v'' effs,
              iteration s' u v' ienv' = Some (s'', v'', effs) ->
              exists d rest, effs = Sleep d :: rest.
Proof.
  intros Hlib Hfree Hlim.
  destruct (connection_semaphore s) as [|free] eqn:Hsem; [lia|].
  set (s1 := with_stats incr_connection_attempts (with_semaphore free s)).
  assert (Ha : attempt s1 u env = (s1, (false, true), [])).
  { unfold attempt_connection.
    change (is_globally_limited s1 (at_check_time env))
      with (is_globally_limited s (at_check_time env)).
    change (is_streamer_limited s1 u (at_check_time env))
      with (is_streamer_limited s u (at_check_time env)).
    destruct Hlim as [H|H]; rewrite H; [reflexivity|].
    destruct (is_globally_limited s (at_check_time env)); reflexivity. }
  assert (Hc : create s u env
               = Some (with_semaphore (S (connection_semaphore s1)) s1,
                       (false, true), [])).
  { unfold create_streamer_client. rewrite Hlib, Hsem. cbn [negb].
    fold s1. rewrite Ha. reflexivity. }
  exists (with_semaphore (S (connection_semaphore s1)) s1).
  split; [exact Hc|]. repeat (split; [reflexivity|]).
  intros v ienv waited Henv Hback Hcool v'. split.
  - unfold monitor_iteration. rewrite Hback, Hcool, Henv, Hc, app_nil_r.
    reflexivity.
  - clear Hback Hcool. intros ienv' s'' v'' effs. unfold monitor_iteration.
    destruct (backoff_sleep _ (consecutive_failures v') _)
      as [waited'|] eqn:Hb';
      [|intros [= _ _ <-]; eexists; eexists; reflexivity].
    apply backoff_sleep_Some in Hb'.
    destruct Hb' as [[H0 _]|[_ [d [_ ->]]]]; [discriminate H0|].
    destruct (_ && _);
      [intros [= _ _ <-]; eexists; eexists; reflexivity|].
    destruct (create _ u (it_attempt ienv')) as [[[s2 [ok rl]] effs2]|];
      [|discriminate].
    destruct rl; [intros [= _ _ <-]; eexists; eexists; reflexivity|].
    destruct ok; unfold cleanup_client; destruct (existsb _ _);
      intros [= _ _ <-]; eexists; eexists; reflexivity.
Qed.



(** Neither an attempt nor an iteration touches the shutdown flag. *)
Lemma create_streamer_client_running s u env s' r effs :
  create s u env = Some (s', r, effs) -> running s' = running s.
Proof.
  unfold create_streamer_client.
  destruct (negb TIKTOK_LIVE_AVAILABLE); [intros [= <- _ _]; reflexivity|].
  destruct (connection_semaphore s) as [|free]; [discriminate|].
  unfold attempt_connection.
  destruct (is_globally_limited _ _); [intros [= <- _ _]; reflexivity|].
  destruct (is_streamer_limited _ _ _); [intros [= <- _ _]; reflexivity|].
  destruct (at_outcome env) as [|msg]; [intros [= <- _ _]; reflexivity|].
  destruct (is_rate_limit_error lower msg); intros [= <- _ _]; reflexivity.
Qed.

Lemma monitor_iteration_running s u v ienv s' v' effs :
  iteration s u v ienv = Some (s', v', effs) -> running s' = running s.
Proof.
  unfold monitor_iteration.
  destruct (backoff_sleep _ _ _) as [waited|];
    [|intros [= <- _ _]; reflexivity].
  destruct (_ && _); [intros [= <- _ _]; reflexivity|].
  destruct (create s u (it_attempt ienv)) as [[[s1 [ok rl]] effs1]|] eqn:Hc;
    [|discriminate].
  apply create_streamer_client_running in Hc.
  destruct rl; [intros [= <- _ _]; exact Hc|].
  destruct ok; unfold cleanup_client;
    destruct (existsb _ _); intros [= <- _ _]; exact Hc.
Qed.



End OrchestratorFacts.

(* ------------------------------------------------------------------ *)
(** * The claims on concrete runs *)

Lemma distinct_NoDup (ks : list str) : distinct ks = true -> NoDup ks.
Proof.
  induction ks as [|k ks IH]; simpl; [constructor|].
  intro H. apply andb_true_iff in H. destruct H as [Hk Hks].
  constructor; [|auto]. intro Hin. apply negb_true_iff in Hk.
  assert (Hex : existsb (eqb k) ks = true).
  { apply existsb_exists. exists k. split; [exact Hin | apply eqb_refl]. }
  congruence.
Qed.

Lemma distinct_wf (V : Type) (d : dict V) :
  distinct (List.map fst d) = true -> wf d.
Proof. apply distinct_NoDup. Qed.

(** ** Exact repeats (C1) *)

(** C1 fails as stated when the first event of the sequence is itself
    dropped by the near-duplicate rule: after "Hi!!" at 0, the comment
    "HI!!" at 5 is dropped and not recorded, and the same comment at 12,
    seven seconds after it, is forwarded. *)
Lemma exact_repeat_counterexample :
  let s1 := comment_by_u1 (lit "Hi!!") 0 fresh in
  let s2 := comment_by_u1 (lit "HI!!") 5 s1 in
  let s3 := comment_by_u1 (lit "HI!!") 12 s2 in
  12 - 5 < 30
  /\ comments_captured (stats s2) = comments_captured (stats s1)
  /\ duplicates_filtered (stats s2) = S (duplicates_filtered (stats s1))
  /\ comments_captured (stats s3) = S (comments_captured (stats s2))
  /\ duplicates_filtered (stats s3) = duplicates_filtered (stats s2).
Proof. cbv zeta. split; [reflexivity|]. vm_compute. repeat split. Qed.

(** The run of the specification: "hi" of [u1] five times within two
    seconds is forwarded once and dropped four times. *)
Lemma exact_repeat_suppressed_witness :
  let later := [(lit "hi", 0.5); (lit "hi", 1); (lit "hi", 1.5); (lit "hi", 2)] in
  let s1 := comment_by_u1 (lit "hi") 0 fresh in
  let sN := fold_left (fun st ev => comment_by_u1 (fst ev) (snd ev) st)
              later s1 in
  comments_captured (stats s1) = 1%nat
  /\ comments_captured (stats sN) = comments_captured (stats s1)
  /\ duplicates_filtered (stats sN)
     = (duplicates_filtered (stats s1) + 4)%nat
  /\ recent_comments sN = recent_comments s1
  /\ session_files sN = session_files s1.
Proof.
  intros later s1 sN. split; [vm_compute; reflexivity|].
  apply (@exact_repeat_suppressed ascii_lower nfc_ascii fresh (lit "streamer")
           (lit "u1") (lit "hi") 0 later).
  - constructor.
  - left. simpl. lia.
  - vm_compute. reflexivity.
  - unfold later.
    repeat (constructor; [split; reflexivity|]). constructor.
Defined.

(** ** Near duplicates (C2) *)

(** C2 fails as stated on its own example: after "Hi!!" at 0 and "hi!!"
    at 5, a third "hi!!" at 11 is dropped, not forwarded; its exact hash
    is the similarity hash stored with the first comment, 11 seconds old. *)
Lemma near_duplicate_counterexample :
  let s1 := comment_by_u1 (lit "Hi!!") 0 fresh in
  let s2 := comment_by_u1 (lit "hi!!") 5 s1 in
  let s3 := comment_by_u1 (lit "hi!!") 11 s2 in
  comments_captured (stats s1) = 1%nat
  /\ comments_captured (stats s2) = 1%nat
  /\ comments_captured (stats s3) = 1%nat
  /\ duplicates_filtered (stats s3) = 2%nat
  /\ session_files s3 = session_files s1
  /\ exact_match (streamer_ledger s2) (lit "u1") (lit "hi!!") 11 = true.
Proof. vm_compute. repeat split. Qed.

Lemma near_duplicate_window_witness :
  let s1 := comment_by_u1 (lit "Hi!!") 0 fresh in
  let s2 := comment_by_u1 (lit "hi!!") 5 s1 in
  let s3 := comment_by_u1 (lit "Hi!!") 11 s2 in
  let s3' := comment_by_u1 (lit "HI!!") 11 s2 in
  s2 = with_stats incr_duplicates_filtered s1
  /\ s3 = with_stats incr_duplicates_filtered s2
  /\ comments_captured (stats s3') = S (comments_captured (stats s2)).
Proof.
  intros s1 s2 s3 s3'.
  assert (Ge : get (exact_hash (lit "u1") (lit "Hi!!")) (streamer_ledger s1)
               = Some 0) by (vm_compute; reflexivity).
  assert (Gs : get (similarity_hash ascii_lower nfc_ascii (lit "u1") (lit "Hi!!"))
                 (streamer_ledger s1) = Some 0) by (vm_compute; reflexivity).
  destruct (@near_duplicate_window ascii_lower nfc_ascii s1 (lit "streamer")
              (lit "u1") (lit "Hi!!") 0 (lit "hi!!") 5 (lit "Hi!!") 11
              Ge Gs eq_refl eq_refl eq_refl eq_refl) as [H2 [H3 _]].
  destruct (@near_duplicate_window ascii_lower nfc_ascii s1 (lit "streamer")
              (lit "u1") (lit "Hi!!") 0 (lit "hi!!") 5 (lit "HI!!") 11
              Ge Gs eq_refl eq_refl eq_refl eq_refl) as [_ [_ H4]].
  split; [exact H2|]. split; [apply H3; left; reflexivity|].
  apply H4; vm_compute; reflexivity.
Defined.

(** ** Rapid fire (C3) *)

(** C3 does not hold of the code: four different comments of [u1] within
    three seconds are all forwarded.  The rule counts the ledger keys that
    start with the first eight digits of the hash of ["u1|"], and the keys
    are hashes of ["u1|" ++ text]; with three comments of [u1] recorded in
    the last five seconds the count is zero. *)
Theorem rapid_fire_fourth_forwarded :
  let s3 := comment_by_u1 (lit "c") 2
              (comment_by_u1 (lit "b") 1 (comment_by_u1 (lit "a") 0 fresh)) in
  let s4 := comment_by_u1 (lit "d") 3 s3 in
  List.length (streamer_ledger s3) = 3%nat
  /\ Forall (fun kv => 3 - snd kv < 5) (streamer_ledger s3)
  /\ user_prefix_hash (lit "u1") = lit "833597e5"
  /\ List.map fst (streamer_ledger s3)
     = [lit "075d9f0d017aacac917e7fdbeb66f129";
        lit "733baf348018d83e604eaba1efaf168d";
        lit "ee2d4747f72101ae2e653278fbb65441"]
  /\ recent_from_user (streamer_ledger s3) (lit "u1") 3 = []
  /\ rapid_fire (streamer_ledger s3) (lit "u1") 3 = false
  /\ comments_captured (stats s4) = 4%nat
  /\ duplicates_filtered (stats s4) = 0%nat.
Proof.
  cbv zeta. split; [vm_compute; reflexivity|]. split.
  - vm_compute. repeat (constructor; [reflexivity|]). constructor.
  - vm_compute. repeat split.
Qed.

(** ** Rate-limit state (C4) *)

(** C4 fails as stated: the deadlines are assigned, not maximised.  A
    signal for [a] read at 3200 sets the global deadline to 5000 and the
    deadline of [a] to 6800; a second signal read at 100 sets them to 1900
    and 3700, so that at 2000 neither limit is active any more. *)
Lemma record_rate_limit_counterexample :
  let s1 := record_rate_limit fresh (lit "a") 3200 in
  let s2 := record_rate_limit s1 (lit "a") 100 in
  global_rate_limit_until s1 = 3200 + 1800
  /\ global_rate_limit_until s2 = 100 + 1800
  /\ ~ global_rate_limit_until s2
       == Qmax (global_rate_limit_until s1) (100 + 1800)
  /\ get (lit "a") (streamer_rate_limits s2) = Some (100 + 3600)
  /\ ~ 100 + 3600 == Qmax (3200 + 3600) (100 + 3600)
  /\ is_globally_limited s1 2000 = true
  /\ is_globally_limited s2 2000 = false
  /\ is_streamer_limited s1 (lit "a") 4000 = true
  /\ is_streamer_limited s2 (lit "a") 4000 = false.
Proof.
  cbv zeta. split; [reflexivity|]. split; [reflexivity|].
  split; [vm_compute; discriminate|]. split; [reflexivity|].
  split; [vm_compute; discriminate|]. repeat split.
Qed.

Lemma record_rate_limit_extends_witness :
  let s' := record_rate_limit fresh (lit "a") 100 in
  global_rate_limit_until s' = 100 + 1800
  /\ get (lit "a") (streamer_rate_limits s') = Some (100 + 3600)
  /\ 100 + 1800 == Qmax 0 (100 + 1800)
  /\ global_rate_limit_until fresh <= global_rate_limit_until s'
  /\ is_globally_limited s' 100 = true
  /\ is_streamer_limited s' (lit "a") 100 = true
  /\ get (lit "b") (streamer_rate_limits s') = None.
Proof.
  destruct (@record_rate_limit_extends fresh (lit "a") 100 (lit "b"))
    as [H1 [H2 [H3 [H4 [_ [_ [H7 H8]]]]]]].
  destruct H4 as [H4 H5]; [discriminate|].
  split; [exact H1|]. split; [exact H2|]. split; [exact H4|].
  split; [exact H5|]. split; [apply H7; reflexivity|].
  split; [apply H8; reflexivity|].
  rewrite H3 by discriminate. reflexivity.
Defined.

(** ** Refused attempts (C5) *)

Lemma refused_attempt_keeps_permits_witness :
  let s := record_rate_limit fresh (lit "a") 100 in
  let env := {| at_check_time := 200; at_random := 0.5;
                at_connect_time := 203.5; at_outcome := Started;
                at_error_time := 203.5 |} in
  is_globally_limited s 200 = true
  /\ exists s',
       create_streamer_client ascii_lower true s (lit "b") env
       = Some (s', (false, true), [])
       /\ connection_semaphore s' = 2%nat
       /\ connection_semaphore s = 2%nat.
Proof.
  intros s env. split; [reflexivity|].
  destruct (@refused_attempt_keeps_permits ascii_lower true s (lit "b") env)
    as [s' [Hc [Hsem _]]].
  - reflexivity.
  - simpl. lia.
  - left. reflexivity.
  - exists s'. split; [exact Hc|]. split; [rewrite Hsem|]; reflexivity.
Defined.

(** ** The size of the ledger (C6) *)

(** A restored ledger of 1000 hashes stamped 0 to 999 and a comment at
    1000: the call records it, and of the 1001 entries the 500 latest
    are kept, the new one first. *)
Lemma ledger_bounded_after_record_witness :
  let s := restored (rising_history 1000) in
  let r := _is_duplicate_comment ascii_lower nfc_ascii s (lit "streamer")
             (lit "u1") (lit "hi") 1000 in
  let l' := streamer_ledger (fst r) in
  snd r = false
  /\ Forall (fun kv => 1000 - 3600 <= snd kv) l'
  /\ (List.length l' <= 1000)%nat
  /\ List.length l' = 500%nat
  /\ hd_error l' = Some (exact_hash (lit "u1") (lit "hi"), 1000)
  /\ hd_error (rev l') = Some ([107; 501]%N, 501).
Proof.
  intros s r l'.
  assert (Hwf : wf (ledger_of (recent_comments s) (lit "streamer"))).
  { apply distinct_wf. vm_compute. reflexivity. }
  assert (Hrec : snd r = false) by (vm_compute; reflexivity).
  destruct (@ledger_bounded_after_record ascii_lower nfc_ascii s
              (lit "streamer") (lit "u1") (lit "hi") 1000 Hwf Hrec)
    as [H1 [H2 _]].
  split; [exact Hrec|]. split; [exact H1|]. split; [exact H2|].
  vm_compute. repeat split.
Defined.

(** ** Back-off (C7) *)



(** ** Decisions and the ledger *)

(** The cleanup can evict what the call has just stored.  With a restored
    history of 1000 hashes stamped 100 (later than the clock reads now)
    and a comment "hi" at 50, no strategy matches and the comment is
    forwarded, but of the 1001 entries the cleanup keeps the 500 first of
    those stamped 100: the ledger afterwards has neither of the two
    hashes, and the same comment one second later is forwarded again. *)
Lemma dedup_decision_counterexample :
  let s := restored (history 1000 100) in
  let s' := comment_by_u1 (lit "hi") 50 s in
  let s'' := comment_by_u1 (lit "hi") 51 s' in
  any_match ascii_lower nfc_ascii (streamer_ledger s) (lit "u1") (lit "hi") 50
  = false
  /\ comments_captured (stats s') = S (comments_captured (stats s))
  /\ get (exact_hash (lit "u1") (lit "hi")) (streamer_ledger s') = None
  /\ get (similarity_hash ascii_lower nfc_ascii (lit "u1") (lit "hi"))
       (streamer_ledger s') = None
  /\ streamer_ledger s' = history 500 100
  /\ comments_captured (stats s'') = S (comments_captured (stats s')).
Proof. vm_compute. repeat split. Qed.

Lemma dedup_decision_and_frame_witness :
  let s1 := comment_by_u1 (lit "hi") 0 fresh in
  let s2 := comment_by_u1 (lit "hi") 1 s1 in
  (comments_captured (stats s1) = 1%nat
   /\ get (exact_hash (lit "u1") (lit "hi")) (streamer_ledger s1) = Some 0
   /\ get (similarity_hash ascii_lower nfc_ascii (lit "u1") (lit "hi"))
        (streamer_ledger s1) = Some 0)
  /\ (any_match ascii_lower nfc_ascii (streamer_ledger s1) (lit "u1")
        (lit "hi") 1 = true
      /\ recent_comments s2 = recent_comments s1
      /\ session_files s2 = session_files s1
      /\ duplicates_filtered (stats s2) = S (duplicates_filtered (stats s1))).
Proof.
  intros s1 s2.
  assert (Hch : exists ch, In ch (lit "hi") /\ isspace ch = false
                           /\ emoji_pattern ch = false).
  { exists 104%N. repeat split. left. reflexivity. }
  split.
  - destruct (@dedup_decision_and_frame ascii_lower nfc_ascii fresh
                (lit "streamer") (lit "u1") (lit "hi") 0 Hch) as [_ H].
    destruct (H eq_refl) as [Hc [_ Hk]]. split; [exact Hc|].
    apply Hk; [constructor | left; simpl; lia].
  - destruct (@dedup_decision_and_frame ascii_lower nfc_ascii s1
                (lit "streamer") (lit "u1") (lit "hi") 1 Hch) as [H _].
    apply H. vm_compute. reflexivity.
Defined.

(** ** Text that is not pictographic (C8) *)

(** The three ideographs of the word for the Japanese language, sent by
    [u1] to a fresh scraper: no character is whitespace, no strategy
    matches, and the comment is dropped. *)
Lemma unmatched_text_dropped_as_emoji_witness :
  let c := [0x65E5; 0x672C; 0x8A9E]%N in
  let s' := comment_by_u1 c 0 fresh in
  forallb (fun ch => negb (isspace ch)) c = true
  /\ any_match ascii_lower nfc_ascii (streamer_ledger fresh) (lit "u1") c 0
     = false
  /\ snd (_is_duplicate_comment ascii_lower nfc_ascii fresh (lit "streamer")
            (lit "u1") c 0) = false
  /\ session_files s' = session_files fresh
  /\ comments_captured (stats s') = comments_captured (stats fresh)
  /\ duplicates_filtered (stats s') = S (duplicates_filtered (stats fresh)).
Proof.
  intros c s'. split; [reflexivity|].
  assert (M : any_match ascii_lower nfc_ascii (streamer_ledger fresh)
                (lit "u1") c 0 = false) by (vm_compute; reflexivity).
  split; [exact M|].
  apply (@unmatched_text_dropped_as_emoji ascii_lower nfc_ascii fresh
           (lit "streamer") (lit "u1") c 0).
  - intros ch [<-|[<-|[<-|[]]]]; right; split; lia.
  - exact M.
Defined.

(** ** Shutdown (C9) *)



(** ** Emoji-only comments (C10) *)

(** C10 fails as stated when the cleanup evicts what the call has just
    stored: with a restored history of 1000 hashes stamped 100 and three
    fire emojis at 50, whose hashes are not in the ledger, the comment is
    dropped and its hashes are not in the ledger afterwards, so that the
    exact rule does not match the same comment one second later. *)
Lemma emoji_only_counterexample :
  let s := restored (history 1000 100) in
  let s' := comment_by_u1 fire3 50 s in
  _is_emoji_only_message fire3 = true
  /\ get (exact_hash (lit "u1") fire3) (streamer_ledger s) = None
  /\ get (similarity_hash ascii_lower nfc_ascii (lit "u1") fire3)
       (streamer_ledger s) = None
  /\ duplicates_filtered (stats s') = S (duplicates_filtered (stats s))
  /\ get (exact_hash (lit "u1") fire3) (streamer_ledger s') = None
  /\ get (similarity_hash ascii_lower nfc_ascii (lit "u1") fire3)
       (streamer_ledger s') = None
  /\ exact_match (streamer_ledger s') (lit "u1") fire3 51 = false.
Proof. vm_compute. repeat split. Qed.

Lemma emoji_only_recorded_then_suppressed_witness :
  let s' := comment_by_u1 fire3 0 fresh in
  session_files s' = []
  /\ comments_captured (stats s') = 0%nat
  /\ duplicates_filtered (stats s') = 1%nat
  /\ get (exact_hash (lit "u1") fire3) (streamer_ledger s') = Some 0
  /\ exact_match (streamer_ledger s') (lit "u1") fire3 29 = true
  /\ comment_by_u1 fire3 29 s' = with_stats incr_duplicates_filtered s'.
Proof.
  intro s'.
  destruct (@emoji_only_recorded_then_suppressed ascii_lower nfc_ascii fresh
              (lit "streamer") (lit "u1") fire3 0)
    as [H1 [H2 [H3 [H4 [_ H6]]]]].
  - intros ch [<-|[<-|[<-|[]]]]; right; reflexivity.
  - reflexivity.
  - reflexivity.
  - reflexivity.
  - constructor.
  - left. simpl. lia.
  - destruct (H6 29 eq_refl) as [H7 H8].
    split; [exact H1|]. split; [exact H2|]. split; [exact H3|].
    split; [exact H4|]. split; [exact H7 | exact H8].
Defined.

(* ------------------------------------------------------------------ *)
(** * Further properties of the scraper *)

(** ** Stripping *)

Lemma lstrip_app_space (p s : str) :
  forallb isspace p = true -> lstrip (p ++ s) = lstrip s.
Proof.
  induction p as [|c p IH]; simpl; [reflexivity|].
  intro H. apply andb_true_iff in H. destruct H as [Hc Hp].
  rewrite Hc. auto.
Qed.

Lemma lstrip_app_keep (s p : str) :
  lstrip s <> [] -> lstrip (s ++ p) = lstrip s ++ p.
Proof.
  induction s as [|c s IH]; simpl; [congruence|].
  destruct (isspace c); [exact IH | reflexivity].
Qed.

Lemma rstrip_app_space (s p : str) :
  forallb isspace p = true -> rstrip (s ++ p) = rstrip s.
Proof.
  intro H. unfold rstrip. rewrite rev_app_distr, lstrip_app_space; [reflexivity|].
  apply forallb_forall. intros c Hc. rewrite <- in_rev in Hc.
  rewrite forallb_forall in H. auto.
Qed.

(** Whitespace around a text does not change what [strip] returns. *)
Lemma strip_padded (p1 s p2 : str) :
  forallb isspace p1 = true -> forallb isspace p2 = true ->
  strip (p1 ++ s ++ p2) = strip s.
Proof.
  intros H1 H2. unfold strip. rewrite lstrip_app_space by exact H1.
  destruct (lstrip s) as [|c r] eqn:E.
  - apply lstrip_nil in E.
    assert (Hall : forallb isspace (s ++ p2) = true).
    { rewrite forallb_app, E, H2. reflexivity. }
    apply lstrip_nil in Hall. rewrite Hall. reflexivity.
  - rewrite lstrip_app_keep by congruence. rewrite E.
    apply rstrip_app_space, H2.
Qed.

Lemma lstrip_incl (s : str) c : In c (lstrip s) -> In c s.
Proof.
  induction s as [|x s IH]; simpl; [tauto|].
  destruct (isspace x); [auto|]. simpl. tauto.
Qed.

Lemma strip_incl (s : str) c : In c (strip s) -> In c s.
Proof.
  unfold strip, rstrip. intro H. rewrite <- in_rev in H.
  apply lstrip_incl in H. rewrite <- in_rev in H.
  apply lstrip_incl in H. exact H.
Qed.

(** The last character of a stripped text is not whitespace. *)
Lemma strip_last (s : str) c r : rev (strip s) = c :: r -> isspace c = false.
Proof.
  unfold strip, rstrip. rewrite rev_involutive. apply lstrip_head.
Qed.

Lemma lstrip_suffix (l : str) : exists w, l = w ++ lstrip l.
Proof.
  induction l as [|h l [w Hw]]; cbn; [exists []; reflexivity|].
  destruct (isspace h); [|exists []; reflexivity].
  exists (h :: w). cbn. rewrite <- Hw. reflexivity.
Qed.

Lemma rstrip_prefix (t : str) : exists w, t = rstrip t ++ w.
Proof.
  destruct (lstrip_suffix (rev t)) as [w Hw]. exists (rev w).
  unfold rstrip. rewrite <- rev_app_distr, <- Hw, rev_involutive. reflexivity.
Qed.

(** The first character of a stripped text is not whitespace. *)
Lemma strip_head (s : str) c r : strip s = c :: r -> isspace c = false.
Proof.
  unfold strip. intro H. destruct (rstrip_prefix (lstrip s)) as [w Hw].
  rewrite H in Hw. cbn in Hw. apply lstrip_head in Hw. exact Hw.
Qed.

(** A text without whitespace is its own [strip]. *)
Lemma strip_no_space (s : str) :
  forallb (fun c => negb (isspace c)) s = true -> strip s = s.
Proof.
  intro H.
  assert (L : forall t : str,
             forallb (fun c => negb (isspace c)) t = true -> lstrip t = t).
  { intros [|c t]; simpl; [reflexivity|]. intro Ht.
    apply andb_true_iff in Ht. destruct Ht as [Hc _].
    apply negb_true_iff in Hc. rewrite Hc. reflexivity. }
  unfold strip, rstrip. rewrite (L s H), L, rev_involutive; [reflexivity|].
  apply forallb_forall. intros c Hc. rewrite <- in_rev in Hc.
  rewrite forallb_forall in H. auto.
Qed.

(** ** The emoji-only filter *)

(** X1: the filter returns [True] exactly for the texts whose characters
    are all whitespace or in one of the ranges of [emoji_pattern]; the
    empty text is one of them. *)
Theorem emoji_only_iff (text : str) :
  _is_emoji_only_message text = true
  <-> (forall c, In c text -> isspace c = true \/ emoji_pattern c = true).
Proof.
  rewrite emoji_only_forallb, forallb_forall. split; intros H c Hc.
  - apply orb_true_iff. auto.
  - apply orb_true_iff. auto.
Qed.

(** X2: the range called enclosed characters runs from U+24C2 to U+1F251
    and so holds the CJK ideographs, kana and Hangul: a text written in
    them only is classed emoji-only. *)
Theorem enclosed_range_is_emoji_only (text : str) :
  (forall c, In c text -> (0x24C2 <= c)%N /\ (c <= 0x1F251)%N) ->
  _is_emoji_only_message text = true.
Proof.
  intro H. apply emoji_only_true. intros c Hc. right.
  destruct (H c Hc) as [Hlo Hhi]. unfold emoji_pattern.
  apply N.leb_le in Hlo. apply N.leb_le in Hhi. rewrite Hlo, Hhi.
  rewrite !orb_true_r. reflexivity.
Qed.

(** ** What [save_event] writes and counts *)

Lemma file_lines_absent (fs : dict (list str)) u :
  mem u fs = false -> file_lines fs u = [].
Proof. unfold mem, file_lines. destruct (get u fs); [discriminate|reflexivity]. Qed.

Lemma append_line_lines u line s :
  file_lines (session_files (append_line u line s)) u
  = file_lines (session_files s) u ++ [line].
Proof. unfold append_line, file_lines at 1. cbn. rewrite get_set_same. reflexivity. Qed.

Lemma append_line_other u u' line s :
  u' <> u ->
  get u' (session_files (append_line u line s)) = get u' (session_files s).
Proof. intro H. unfold append_line. cbn. apply get_set_other. congruence. Qed.

(** The state once the session file of [u] exists. *)
Lemma session_opened_lines s u :
  let s2 := if mem u (session_files s) then s
            else with_session_files
                   (set u [session_header u] (session_files s)) s in
  (exists added, file_lines (session_files s2) u
                 = file_lines (session_files s) u ++ added)
  /\ (forall u', u' <> u ->
        get u' (session_files s2) = get u' (session_files s))
  /\ stats s2 = stats s /\ recent_comments s2 = recent_comments s
  /\ active_sessions s2 = active_sessions s.
Proof.
  destruct (mem u (session_files s)) eqn:M; cbn.
  - split; [exists []; rewrite app_nil_r; reflexivity|]. auto.
  - split.
    + exists [session_header u]. rewrite (file_lines_absent _ _ M).
      unfold file_lines. rewrite get_set_same. reflexivity.
    + split; [|auto]. intros u' H. apply get_set_other. congruence.
Qed.

Section MoreDedupFacts.

Variables lower nfc : str -> str.

Local Notation save := (save_event lower nfc).
Local Notation matches := (any_match lower nfc).

(** The three ways a comment goes through [save_event]. *)
Lemma save_comment_cases s u a c now :
  let s' := save s u (lit "comment") a c now in
  let opened (s1 : Scraper) :=
    if mem u (session_files s1) then s1
    else with_session_files
           (set u [session_header u] (session_files s1)) s1 in
  (matches (ledger_of (recent_comments s) u) a c now = true
   /\ s' = with_stats incr_duplicates_filtered s)
  \/ exists rc',
       matches (ledger_of (recent_comments s) u) a c now = false
       /\ (forall u', u' <> u -> get u' rc' = get u' (recent_comments s))
       /\ ((_is_emoji_only_message c = true
            /\ s' = with_stats incr_duplicates_filtered
                      (with_recent_comments rc' s))
           \/ (_is_emoji_only_message c = false
               /\ s' = with_stats incr_comments_captured
                         (append_line u
                            (strip (replace_char 13 32 (replace_char 10 32 c)))
                            (opened (with_recent_comments rc' s))))).
Proof.
  intros s' opened.
  destruct (matches (ledger_of (recent_comments s) u) a c now) eqn:M.
  - left. split; [reflexivity|]. apply save_event_match. exact M.
  - right. destruct (is_dup_no_match lower nfc s u a c now M) as [rc' [E [_ F]]].
    exists rc'. split; [reflexivity|]. split; [exact F|].
    unfold s', save_event. rewrite eqb_refl, E.
    destruct (_is_emoji_only_message c); [left|right]; split; reflexivity.
Qed.

(** X3: a comment that the filter classes emoji-only - an empty or blank
    text is one - is never written and never counted as captured, whatever
    the ledger holds: [save_event] leaves every session file as it is and
    adds one to [duplicates_filtered]. *)
Theorem emoji_only_never_written s u a c now :
  let s' := save s u (lit "comment") a c now in
  _is_emoji_only_message c = true ->
  session_files s' = session_files s
  /\ comments_captured (stats s') = comments_captured (stats s)
  /\ duplicates_filtered (stats s') = S (duplicates_filtered (stats s)).
Proof.
  intros s' E.
  destruct (save_comment_cases s u a c now) as [[_ H]|[rc' [_ [_ [[_ H]|[E' _]]]]]];
    [| |congruence]; fold s' in H; rewrite H; cbn; auto.
Qed.

(** X4: every comment is counted once: [save_event] adds one either to
    [comments_captured] or to [duplicates_filtered], and leaves the other
    counters as they are. *)
Theorem comment_counted_once s u a c now :
  let st := stats s in
  let st' := stats (save s u (lit "comment") a c now) in
  ((comments_captured st' = S (comments_captured st)
    /\ duplicates_filtered st' = duplicates_filtered st)
   \/ (comments_captured st' = comments_captured st
       /\ duplicates_filtered st' = S (duplicates_filtered st)))
  /\ active_connections st' = active_connections st
  /\ rate_limit_hits st' = rate_limit_hits st
  /\ connection_attempts st' = connection_attempts st
  /\ failed_connections st' = failed_connections st.
Proof.
  intros st st'. unfold st', st.
  destruct (save_comment_cases s u a c now)
    as [[_ H]|[rc' [_ [_ [[_ H]|[_ H]]]]]]; rewrite H.
  - cbn. auto 10.
  - cbn. auto 10.
  - destruct (mem u (session_files (with_recent_comments rc' s))); cbn; auto 10.
Qed.

Lemma non_comment_frame_aux s u event_type a c now :
  let s' := save s u event_type a c now in
  event_type <> lit "comment" ->
  recent_comments s' = recent_comments s /\ stats s' = stats s
  /\ active_sessions s' = active_sessions s.
Proof.
  intros s' H. apply eqb_neq in H. unfold s', save_event. rewrite H. cbn [andb].
  destruct (session_opened_lines s u) as [_ [_ [Hs [Hr Ha]]]].
  destruct (eqb event_type (lit "system")).
  - unfold append_line. cbn. cbn in Hs, Hr, Ha. auto.
  - cbn in Hs, Hr, Ha. auto.
Qed.

Lemma non_comment_event_lines s u a c now :
  let s' := save s u (lit "system") a c now in
  file_lines (session_files s') u
  = (if mem u (session_files s) then file_lines (session_files s) u
     else [session_header u])
    ++ [lit "SYSTEM: " ++ strip (replace_char 13 32 (replace_char 10 32 c))]
  /\ mem u (session_files s') = true.
Proof.
  intro s'. unfold s', save_event.
  change (eqb (lit "system") (lit "comment")) with false.
  change (eqb (lit "system") (lit "system")) with true. cbn [andb].
  split.
  - rewrite append_line_lines.
    destruct (mem u (session_files s)) eqn:M; [reflexivity|].
    cbn. unfold file_lines. rewrite get_set_same. reflexivity.
  - unfold append_line, mem. cbn. rewrite get_set_same. reflexivity.
Qed.

(** X5: an event that is not a comment goes past the deduplicator and
    the counters: the comment history and the statistics are unchanged,
    and a system notice is written with the prefix SYSTEM, after the
    header when the session file is new. *)
Theorem non_comment_event_frame s u event_type a c now :
  let s' := save s u event_type a c now in
  event_type <> lit "comment" ->
  recent_comments s' = recent_comments s /\ stats s' = stats s
  /\ (event_type = lit "system" ->
      file_lines (session_files s') u
      = (if mem u (session_files s) then file_lines (session_files s) u
         else [session_header u])
        ++ [lit "SYSTEM: "
            ++ strip (replace_char 13 32 (replace_char 10 32 c))]).
Proof.
  intros s' H.
  destruct (non_comment_frame_aux s u a c now H) as [H1 [H2 _]].
  split; [exact H1|]. split; [exact H2|].
  intros ->. apply non_comment_event_lines.
Qed.

(** X6: a session file only grows, and an event of one streamer touches
    no other streamer's file: the lines of the file of [u] before the call
    are a prefix of its lines after it. *)
Theorem session_file_append_only s u event_type a c now :
  let s' := save s u event_type a c now in
  (exists added,
     file_lines (session_files s') u
     = file_lines (session_files s) u ++ added)
  /\ (forall u', u' <> u ->
        get u' (session_files s') = get u' (session_files s)).
Proof.
  intro s'.
  assert (Hnil : exists added : list str,
            file_lines (session_files s) u
            = file_lines (session_files s) u ++ added)
    by (exists []; rewrite app_nil_r; reflexivity).
  destruct (eqb event_type (lit "comment")) eqn:T.
  - apply eqb_eq in T. subst event_type.
    destruct (save_comment_cases s u a c now)
      as [[_ H]|[rc' [_ [_ [[_ H]|[_ H]]]]]]; fold s' in H; rewrite H.
    + cbn. auto.
    + cbn. auto.
    + destruct (session_opened_lines (with_recent_comments rc' s) u)
        as [[added Ha] [Ho _]].
      cbn [with_stats session_files]. split.
      * rewrite append_line_lines, Ha. eexists. rewrite <- app_assoc. reflexivity.
      * intros u' Hu. rewrite append_line_other by exact Hu. apply Ho, Hu.
  - unfold s', save_event. rewrite T. cbn [andb].
    destruct (session_opened_lines s u) as [[added Ha] [Ho _]].
    destruct (eqb event_type (lit "system")).
    + split.
      * rewrite append_line_lines, Ha. eexists. rewrite <- app_assoc. reflexivity.
      * intros u' Hu. rewrite append_line_other by exact Hu. apply Ho, Hu.
    + split; [eexists; exact Ha | exact Ho].
Qed.

Lemma replace_char_clean (content : str) c :
  In c (replace_char 13 32 (replace_char 10 32 content)) ->
  c <> 10%N /\ c <> 13%N.
Proof.
  unfold replace_char. rewrite map_map. intro H.
  apply in_map_iff in H. destruct H as [x [Hx _]]. subst c.
  destruct (x =? 10)%N eqn:E10; cbn.
  - split; discriminate.
  - apply N.eqb_neq in E10. destruct (x =? 13)%N eqn:E13.
    + split; discriminate.
    + apply N.eqb_neq in E13. auto.
Qed.

(** X7: a forwarded comment is written as one line that is not empty:
    the line has no line feed and no carriage return in it, and neither
    starts nor ends with whitespace. *)
Theorem forwarded_comment_is_one_line s u a c now :
  let s' := save s u (lit "comment") a c now in
  comments_captured (stats s') = S (comments_captured (stats s)) ->
  exists before line,
    file_lines (session_files s') u = before ++ [line]
    /\ line <> []
    /\ ~ In 10%N line /\ ~ In 13%N line
    /\ isspace (hd 0%N line) = false
    /\ isspace (hd 0%N (rev line)) = false.
Proof.
  intros s' Hfwd.
  destruct (@forwarded_inv lower nfc s u a c now Hfwd) as [M E].
  destruct (save_event_forward lower nfc s u a c now M E) as [_ [_ [_ F]]].
  fold s' in F. eexists. eexists. split; [exact F|].
  set (line := strip (replace_char 13 32 (replace_char 10 32 c))).
  assert (Hne : line <> []).
  { intro Hnil. apply strip_nil in Hnil. rewrite forallb_forall in Hnil.
    rewrite emoji_only_forallb in E.
    assert (Hall : forallb (fun c => isspace c || emoji_pattern c) c = true).
    { apply forallb_forall. intros x Hx. apply orb_true_iff. left.
      destruct (isspace x) eqn:Sx; [reflexivity|].
      rewrite <- Sx. apply Hnil. unfold replace_char. rewrite map_map.
      apply in_map_iff. exists x. split; [|exact Hx].
      destruct (x =? 10)%N eqn:E10;
        [apply N.eqb_eq in E10; subst x; discriminate|].
      destruct (x =? 13)%N eqn:E13;
        [apply N.eqb_eq in E13; subst x; discriminate|]. reflexivity. }
    congruence. }
  split; [exact Hne|].
  assert (Hin : forall x, In x line -> x <> 10%N /\ x <> 13%N).
  { intros x Hx. apply replace_char_clean with (content := c).
    apply strip_incl. exact Hx. }
  split; [intro H; apply Hin in H; tauto|].
  split; [intro H; apply Hin in H; tauto|].
  split.
  - destruct line as [|x r] eqn:L; [congruence|]. cbn.
    apply (strip_head _ L).
  - destruct (rev line) as [|x r] eqn:R.
    + exfalso. apply Hne. apply (f_equal (@rev N)) in R.
      rewrite rev_involutive in R. exact R.
    + cbn. eapply strip_last. exact R.
Qed.

(** X8: the ledgers of the other streamers are out of reach of an event
    of [u]: whatever its type, [save_event] leaves them as they are. *)
Theorem other_ledgers_untouched s u event_type a c now u' :
  u' <> u ->
  get u' (recent_comments (save s u event_type a c now))
  = get u' (recent_comments s).
Proof.
  intro Hu. destruct (eqb event_type (lit "comment")) eqn:T.
  - apply eqb_eq in T. subst event_type.
    destruct (save_comment_cases s u a c now)
      as [[_ H]|[rc' [_ [F [[_ H]|[_ H]]]]]]; rewrite H.
    + reflexivity.
    + cbn. apply F, Hu.
    + destruct (mem u (session_files (with_recent_comments rc' s)));
        cbn; apply F, Hu.
  - apply eqb_neq in T.
    destruct (non_comment_frame_aux s u a c now T) as [H _].
    rewrite H. reflexivity.
Qed.

End MoreDedupFacts.

(** ** More on the deduplicator *)

Section MoreDedupWindows.

Variables lower nfc : str -> str.

Local Notation save := (save_event lower nfc).
Local Notation matches := (any_match lower nfc).
Local Notation sim_hash := (similarity_hash lower nfc).

(** X9: whitespace around a comment does not defeat the exact rule: within
    30 seconds of a recorded comment, the same text with any whitespace
    before and after it is dropped. *)
Theorem padded_repeat_suppressed s u a c now t0 (p1 p2 : str) :
  get (exact_hash a c) (ledger_of (recent_comments s) u) = Some t0 ->
  now - t0 < 30 ->
  forallb isspace p1 = true -> forallb isspace p2 = true ->
  save s u (lit "comment") a (p1 ++ c ++ p2) now
  = with_stats incr_duplicates_filtered s.
Proof.
  intros G Ht H1 H2.
  apply (@save_event_exact_repeat lower nfc s u a (p1 ++ c ++ p2) now t0);
    [|exact Ht].
  rewrite (exact_hash_strip a (p1 ++ c ++ p2) c); [exact G|].
  apply strip_padded; assumption.
Qed.

(** X10: the windows are half-open: a comment recorded at [t0] and sent
    again exactly 30 seconds later is past the exact and the similarity
    rule, so that unless the rapid-fire rule fires it is forwarded, and its
    hashes are stamped anew. *)
Theorem repeat_at_window_end_forwarded s u a c now t0 :
  let l := ledger_of (recent_comments s) u in
  let s' := save s u (lit "comment") a c now in
  let l' := ledger_of (recent_comments s') u in
  get (exact_hash a c) l = Some t0 ->
  get (sim_hash a c) l = Some t0 ->
  30 <= now - t0 ->
  rapid_fire l a now = false ->
  _is_emoji_only_message c = false ->
  wf l -> room_for_new_keys l now ->
  comments_captured (stats s') = S (comments_captured (stats s))
  /\ get (exact_hash a c) l' = Some now
  /\ get (sim_hash a c) l' = Some now.
Proof.
  intros l s' l' Ge Gs Ht R E Hwf Hroom.
  assert (M : matches l a c now = false).
  { unfold any_match, exact_match, similar_match, seen_within.
    rewrite Ge, Gs, R.
    assert (H30 : Qltb (now - t0) 30 = false) by (apply Qltb_ge; lra).
    assert (H10 : Qltb (now - t0) 10 = false) by (apply Qltb_ge; lra).
    rewrite H30, H10. reflexivity. }
  destruct (save_event_forward lower nfc s u a c now M E) as [Hc [_ [G _]]].
  split; [exact Hc|].
  unfold l', s', ledger_of. rewrite G.
  apply record_keeps_keys; assumption.
Qed.

(** X11: cleaning a ledger twice at the same time is cleaning it once. *)
Theorem cleanup_ledger_idempotent (l : ledger) now :
  wf l ->
  cleanup_ledger (cleanup_ledger l now) now = cleanup_ledger l now.
Proof.
  intro Hwf. unfold cleanup_ledger.
  set (l1 := drop_old l now).
  assert (Hwf1 : wf l1) by (apply wf_drop_old, Hwf).
  assert (Hwf2 : wf (limit_size l1)) by (apply wf_limit_size, Hwf1).
  assert (Hrecent : Forall (fun kv => now - 3600 <= snd kv) (limit_size l1)).
  { pose proof (drop_old_recent l now) as H. fold l1 in H.
    rewrite (limit_size_wf_eq Hwf1).
    destruct (1000 <? List.length l1)%nat; [|exact H].
    apply Forall_forall. intros kv Hin. rewrite Forall_forall in H. apply H.
    apply (Permutation_in _ (sorted_desc_perm l1)).
    rewrite <- (firstn_skipn 500 (sorted_desc l1)). apply in_or_app. auto. }
  assert (Hdrop : drop_old (limit_size l1) now = limit_size l1).
  { rewrite (drop_old_wf_filter now Hwf2).
    apply forallb_filter_id. apply forallb_forall. intros kv Hin.
    rewrite Forall_forall in Hrecent. apply negb_true_iff, Qltb_ge.
    apply Hrecent, Hin. }
  rewrite Hdrop.
  pose proof (length_limit_size l1) as Hlen.
  unfold limit_size at 1.
  destruct (1000 <? List.length (limit_size l1))%nat eqn:C; [|reflexivity].
  apply Nat.ltb_lt in C. lia.
Qed.

End MoreDedupWindows.

(** ** The comment history on disk *)

Lemma set_In (V : Type) (k : str) (v : V) (d : dict V) x :
  In x (set k v d) -> In x d \/ x = (k, v).
Proof.
  induction d as [|[k' v'] d IH]; cbn.
  - intros [<-|[]]. auto.
  - destruct (eqb k k') eqn:E; cbn.
    + apply eqb_eq in E. subst k'. intros [<-|H]; auto.
    + intros [<-|H]; [auto|]. destruct (IH H); auto.
Qed.

Lemma set_not_nil (V : Type) (k : str) (v : V) (d : dict V) : set k v d <> [].
Proof.
  destruct d as [|[k' v'] d]; cbn; [discriminate|].
  destruct (eqb k k'); discriminate.
Qed.

Lemma of_items_In (V : Type) (l : list (str * V)) x :
  In x (of_items l) -> In x l.
Proof.
  unfold of_items.
  assert (H : forall acc,
    In x (fold_left (fun d kv => set (fst kv) (snd kv) d) l acc) ->
    In x acc \/ In x l).
  { induction l as [|[k v] l IH]; intros acc Hin; cbn in *; [auto|].
    destruct (IH _ Hin) as [H|H]; [|auto].
    apply set_In in H. destruct H as [H|H]; auto. }
  intro Hin. destruct (H [] Hin) as [[]|Hl]. exact Hl.
Qed.

Lemma get_filter_wf (V : Type) (f : str * V -> bool) (d : dict V) k :
  wf d ->
  get k (filter f d)
  = match get k d with
    | Some v => if f (k, v) then Some v else None
    | None => None
    end.
Proof.
  intro Hwf. pose proof (wf_filter f Hwf) as Hwf'.
  destruct (get k d) as [v|] eqn:G.
  - pose proof (get_In _ _ G) as Hin.
    destruct (f (k, v)) eqn:F.
    + apply In_get; [exact Hwf'|]. apply filter_In. auto.
    + destruct (get k (filter f d)) as [v'|] eqn:G'; [|reflexivity].
      apply get_In in G'. apply filter_In in G'. destruct G' as [Hin' F'].
      pose proof (In_get _ _ Hwf Hin') as G2.
      assert (v' = v) by congruence. subst v'. congruence.
  - destruct (get k (filter f d)) as [v'|] eqn:G'; [|reflexivity].
    apply get_In in G'. apply filter_In in G'. destruct G' as [Hin' _].
    pose proof (In_get _ _ Hwf Hin') as G2. congruence.
Qed.

Lemma get_notin (V : Type) (d : dict V) k :
  ~ In k (List.map fst d) -> get k d = None.
Proof.
  intro H. destruct (get k d) as [v|] eqn:G; [|reflexivity].
  exfalso. apply H. apply get_In in G. apply (in_map fst) in G. exact G.
Qed.

(** What the snapshot holds for one streamer. *)
Lemma cleaned_history_get (rc : dict ledger) t u :
  wf rc ->
  get u (cleaned_history rc t)
  = match get u rc with
    | Some l =>
        if is_nil (cleaned_comments l (t - 24 * 3600)) then None
        else Some (cleaned_comments l (t - 24 * 3600))
    | None => None
    end.
Proof.
  unfold cleaned_history, wf.
  set (step := fun (acc : dict ledger) (kv : str * ledger) =>
         let cleaned := cleaned_comments (snd kv) (t - 24 * 3600) in
         if is_nil cleaned then acc else set (fst kv) cleaned acc).
  assert (H : forall items acc,
    NoDup (List.map fst items) ->
    (forall k, In k (List.map fst items) -> get k acc = None) ->
    get u (fold_left step items acc)
    = match get u acc with
      | Some x => Some x
      | None =>
          match get u items with
          | Some l =>
              if is_nil (cleaned_comments l (t - 24 * 3600)) then None
              else Some (cleaned_comments l (t - 24 * 3600))
          | None => None
          end
      end).
  { induction items as [|[k l] items IH]; intros acc Hnd Hfresh; cbn.
    - destruct (get u acc); reflexivity.
    - inversion Hnd as [|? ? Hk Hnd']; subst.
      assert (Hfresh' : forall k', In k' (List.map fst items) ->
                get k' (step acc (k, l)) = None).
      { intros k' Hk'. unfold step. cbn.
        destruct (is_nil _); [apply Hfresh; right; exact Hk'|].
        rewrite get_set_other; [apply Hfresh; right; exact Hk'|].
        intros ->. contradiction. }
      rewrite (IH _ Hnd' Hfresh'). unfold step at 1. cbn [fst snd].
      destruct (eqb u k) eqn:E.
      + apply eqb_eq in E. subst k.
        rewrite (Hfresh u (or_introl eq_refl)).
        rewrite (get_notin _ _ Hk).
        destruct (is_nil _) eqn:Nil.
        * rewrite (Hfresh u (or_introl eq_refl)). reflexivity.
        * rewrite get_set_same. reflexivity.
      + apply eqb_neq in E.
        destruct (is_nil _).
        * reflexivity.
        * rewrite get_set_other by congruence. reflexivity. }
  intro Hnd. rewrite (H rc [] Hnd); [reflexivity|]. reflexivity.
Qed.

Lemma cleaned_comments_wf (l : ledger) cutoff :
  wf l ->
  cleaned_comments l cutoff = filter (fun kv => Qltb cutoff (snd kv)) l.
Proof. intro H. unfold cleaned_comments. apply of_items_wf, wf_filter, H. Qed.

Lemma cleaned_history_ledger (rc : dict ledger) t u :
  wf rc -> wf (ledger_of rc u) ->
  ledger_of (cleaned_history rc t) u
  = filter (fun kv => Qltb (t - 24 * 3600) (snd kv)) (ledger_of rc u).
Proof.
  intros Hrc Hl. unfold ledger_of in *. rewrite cleaned_history_get by exact Hrc.
  destruct (get u rc) as [l|]; [|reflexivity].
  rewrite cleaned_comments_wf by exact Hl.
  destruct (filter _ l); reflexivity.
Qed.

(** X12: what [_save_comment_history] writes holds no streamer without
    comments and no hash stamped 24 hours or more before the time of the
    snapshot. *)
Theorem snapshot_entries_recent (rc : dict ledger) t u l :
  get u (cleaned_history rc t) = Some l ->
  l <> [] /\ Forall (fun kv => t - 24 * 3600 < snd kv) l.
Proof.
  unfold cleaned_history.
  set (P := fun l : ledger =>
         l <> [] /\ Forall (fun kv => t - 24 * 3600 < snd kv) l).
  assert (Hc : forall l0, is_nil (cleaned_comments l0 (t - 24 * 3600)) = false ->
                          P (cleaned_comments l0 (t - 24 * 3600))).
  { intros l0 Hn. split.
    - intro E. rewrite E in Hn. discriminate.
    - apply Forall_forall. intros kv Hin. unfold cleaned_comments in Hin.
      apply of_items_In in Hin. apply filter_In in Hin.
      apply Qltb_lt. tauto. }
  assert (H : forall items acc,
    Forall (fun kv => P (snd kv)) acc ->
    Forall (fun kv => P (snd kv))
      (fold_left
         (fun acc kv =>
            let cleaned := cleaned_comments (snd kv) (t - 24 * 3600) in
            if is_nil cleaned then acc else set (fst kv) cleaned acc)
         items acc)).
  { induction items as [|[k l0] items IH]; intros acc Hacc; cbn; [exact Hacc|].
    apply IH. destruct (is_nil _) eqn:Hn; [exact Hacc|].
    apply Forall_forall. intros x Hx. apply set_In in Hx.
    destruct Hx as [Hx| ->].
    - rewrite Forall_forall in Hacc. auto.
    - cbn. apply Hc, Hn. }
  intro G. apply get_In in G.
  specialize (H rc [] (Forall_nil _)). rewrite Forall_forall in H.
  apply (H (u, l) G).
Qed.

Lemma filter_absorb (A : Type) (f g : A -> bool) (l : list A) :
  (forall x, In x l -> g x = true -> f x = true) ->
  filter g (filter f l) = filter g l.
Proof.
  induction l as [|x l IH]; intro H; cbn; [reflexivity|].
  destruct (f x) eqn:F; cbn.
  - rewrite IH; [reflexivity|]. intros y Hy. apply H. right. exact Hy.
  - destruct (g x) eqn:G.
    + rewrite (H x (or_introl eq_refl) G) in F. discriminate.
    + apply IH. intros y Hy. apply H. right. exact Hy.
Qed.

Section Snapshot.

Variables lower nfc : str -> str.

Local Notation is_dup := (_is_duplicate_comment lower nfc).
Local Notation matches := (any_match lower nfc).

Lemma any_match_aged (l : ledger) cutoff a c now :
  wf l -> cutoff + 30 <= now ->
  matches (filter (fun kv => Qltb cutoff (snd kv)) l) a c now
  = matches l a c now.
Proof.
  intros Hwf Hage.
  assert (Hseen : forall h w, w <= 30 ->
    seen_within (filter (fun kv => Qltb cutoff (snd kv)) l) h now w
    = seen_within l h now w).
  { intros h w Hw. unfold seen_within. rewrite get_filter_wf by exact Hwf.
    destruct (get h l) as [ts|]; [|reflexivity]. cbn [snd].
    destruct (Qltb cutoff ts) eqn:F; [reflexivity|].
    apply Qltb_ge in F. symmetry. apply Qltb_ge. lra. }
  unfold any_match, exact_match, similar_match, rapid_fire, recent_from_user.
  rewrite !Hseen by lra. cbv zeta.
  rewrite filter_absorb; [reflexivity|].
  intros [k ts] _ H. cbn [fst snd] in *.
  apply andb_true_iff in H. destruct H as [_ H]. apply Qltb_lt in H.
  apply Qltb_lt. lra.
Qed.

(** X13: the 24-hour purge of the snapshot changes no decision: on the
    history that [_load_comment_history] reads back from a snapshot taken
    at [t], the deduplicator answers for a comment at [t] or later as it
    does on the history in memory; and after a missing or unreadable file
    no comment is a duplicate at first sight. *)
Theorem snapshot_keeps_decisions s s0 t u a c now :
  let restored :=
    _load_comment_history (Parsed (cleaned_history (recent_comments s) t)) s0 in
  wf (recent_comments s) -> wf (ledger_of (recent_comments s) u) ->
  t <= now ->
  snd (is_dup restored u a c now) = snd (is_dup s u a c now)
  /\ snd (is_dup (_load_comment_history NoHistory s0) u a c now) = false
  /\ snd (is_dup (_load_comment_history Unreadable s0) u a c now) = false.
Proof.
  intros restored Hrc Hl Ht. split; [|split; rewrite is_dup_snd; reflexivity].
  rewrite !is_dup_snd. unfold restored, _load_comment_history.
  cbn [recent_comments with_recent_comments].
  rewrite cleaned_history_ledger by assumption.
  apply any_match_aged; [exact Hl | lra].
Qed.

End Snapshot.

(** ** The figures of the status reporter *)

(** X14: the status report agrees with the checks made before an attempt:
    it shows time left on the global limit exactly when an attempt would
    find the global limit active, and it counts a streamer as rate limited
    exactly when an attempt for that streamer would find its limit active. *)
Theorem status_figures_agree s now :
  wf (streamer_rate_limits s) ->
  (0 < global_rl_remaining s now <-> is_globally_limited s now = true)
  /\ active_rl_count s now
     = List.length
         (filter (fun kv => is_streamer_limited s (fst kv) now)
            (streamer_rate_limits s))
  /\ ((0 < active_rl_count s now)%nat
      <-> exists u, is_streamer_limited s u now = true).
Proof.
  intro Hwf.
  assert (Hext : forall kv, In kv (streamer_rate_limits s) ->
            Qltb now (snd kv) = is_streamer_limited s (fst kv) now).
  { intros [k t] Hin. unfold is_streamer_limited. cbn.
    rewrite (In_get _ _ Hwf Hin). reflexivity. }
  assert (Hcount : active_rl_count s now
     = List.length
         (filter (fun kv => is_streamer_limited s (fst kv) now)
            (streamer_rate_limits s))).
  { unfold active_rl_count. f_equal. apply filter_ext_in. exact Hext. }
  split; [|split; [exact Hcount|]].
  - unfold global_rl_remaining, is_globally_limited.
    rewrite Q.max_lt_iff, Qltb_lt. split.
    + intros [H|H]; [exfalso; apply (Qlt_irrefl 0 H) | lra].
    + intro H. right. lra.
  - rewrite Hcount. split.
    + intro H.
      destruct (filter _ (streamer_rate_limits s)) as [|[k t] r] eqn:F;
        [cbn in H; lia|].
      assert (Hin : In (k, t) (filter
                (fun kv => is_streamer_limited s (fst kv) now)
                (streamer_rate_limits s))) by (rewrite F; left; reflexivity).
      apply filter_In in Hin. exists k. tauto.
    + intros [u Hu]. unfold is_streamer_limited in Hu.
      destruct (get u (streamer_rate_limits s)) as [t|] eqn:G; [|discriminate].
      apply get_In in G.
      apply (@filter_length_pos _ _ _ (u, t) G).
      unfold is_streamer_limited. cbn.
      rewrite (In_get _ _ Hwf G). exact Hu.
Qed.

(** ** More on the rate limits *)

(** X15: with a clock that does not go back, a later rate-limit signal
    never shortens a window: after a signal at [now1], a signal at a later
    [now2], for the same streamer or another, leaves the global deadline
    and the deadline of the first streamer where they were or later. *)
Theorem later_signal_never_shortens s u1 u2 now1 now2 :
  let s1 := record_rate_limit s u1 now1 in
  let s2 := record_rate_limit s1 u2 now2 in
  now1 <= now2 ->
  global_rate_limit_until s1 <= global_rate_limit_until s2
  /\ exists t1 t2,
       get u1 (streamer_rate_limits s1) = Some t1
       /\ get u1 (streamer_rate_limits s2) = Some t2
       /\ t1 <= t2.
Proof.
  intros s1 s2 H. split.
  - unfold s2, s1. rewrite !record_rate_limit_global. cbn. lra.
  - exists (now1 + per_streamer_rate_limit (config s)).
    destruct (list_eq_dec N.eq_dec u2 u1) as [->|Hne].
    + exists (now2 + per_streamer_rate_limit (config s)).
      split; [apply record_rate_limit_streamer|].
      split; [unfold s2; rewrite record_rate_limit_streamer; reflexivity|].
      lra.
    + exists (now1 + per_streamer_rate_limit (config s)).
      split; [apply record_rate_limit_streamer|]. split; [|lra].
      unfold s2. cbn [streamer_rate_limits record_rate_limit with_stats].
      rewrite get_set_other by exact Hne. apply record_rate_limit_streamer.
Qed.

Section MoreOrchestratorFacts.

Variable lower : str -> str.
Variable TIKTOK_LIVE_AVAILABLE : bool.

Local Notation attempt := (attempt_connection lower).
Local Notation create := (create_streamer_client lower TIKTOK_LIVE_AVAILABLE).
Local Notation iteration := (monitor_iteration lower TIKTOK_LIVE_AVAILABLE).
Local Notation loop := (monitor_loop lower TIKTOK_LIVE_AVAILABLE).

(** An attempt that finds a limit active, in full. *)
Lemma limited_attempt s u env free :
  TIKTOK_LIVE_AVAILABLE = true ->
  connection_semaphore s = S free ->
  is_globally_limited s (at_check_time env) = true
  \/ is_streamer_limited s u (at_check_time env) = true ->
  create s u env
  = Some (with_semaphore (S free)
            (with_stats incr_connection_attempts (with_semaphore free s)),
          (false, true), []).
Proof.
  intros Hlib Hsem Hlim.
  unfold create_streamer_client. rewrite Hlib, Hsem. cbn [negb].
  set (s1 := with_stats incr_connection_attempts (with_semaphore free s)).
  assert (Ha : attempt s1 u env = (s1, (false, true), [])).
  { unfold attempt_connection.
    change (is_globally_limited s1 (at_check_time env))
      with (is_globally_limited s (at_check_time env)).
    change (is_streamer_limited s1 u (at_check_time env))
      with (is_streamer_limited s u (at_check_time env)).
    destruct Hlim as [H|H]; rewrite H; [reflexivity|].
    destruct (is_globally_limited s (at_check_time env)); reflexivity. }
  rewrite Ha. reflexivity.
Qed.

(** X16: one rate-limit signal holds back every streamer: after a signal
    for [u] at [now], an attempt for any streamer whose clock reads less
    than [now + global_rate_limit_duration] is refused without a sleep or
    a call of the client, and so is an attempt for [u] itself as long as
    the clock reads less than [now + per_streamer_rate_limit]. *)
Theorem rate_limit_holds_back_all s u now u' env :
  let s1 := record_rate_limit s u now in
  TIKTOK_LIVE_AVAILABLE = true ->
  (0 < connection_semaphore s)%nat ->
  (at_check_time env < now + global_rate_limit_duration (config s) ->
     exists s', create s1 u' env = Some (s', (false, true), []))
  /\ (at_check_time env < now + per_streamer_rate_limit (config s) ->
        exists s', create s1 u env = Some (s', (false, true), [])).
Proof.
  intros s1 Hlib Hfree.
  destruct (connection_semaphore s) as [|free] eqn:Hsem; [lia|].
  assert (Hsem1 : connection_semaphore s1 = S free) by exact Hsem.
  split; intro Ht; eexists;
    (eapply limited_attempt; [exact Hlib | exact Hsem1 |]).
  - left. apply Qltb_lt. exact Ht.
  - right. unfold is_streamer_limited, s1.
    rewrite record_rate_limit_streamer. apply Qltb_lt. exact Ht.
Qed.

(** X17: how a failed start is classed.  When no limit is active and
    [client.start()] raises, the attempt counts one failed connection and
    answers [(False, True)] exactly when the lowercased message contains
    one of the indicators; only then does it count a rate-limit hit and
    set the two deadlines from the clock read in the handler; otherwise
    the deadlines stay.  Either way the permit is free again and the client
    stays registered. *)
Theorem failed_start_classified s u env msg :
  let limited := is_rate_limit_error lower msg in
  TIKTOK_LIVE_AVAILABLE = true ->
  (0 < connection_semaphore s)%nat ->
  is_globally_limited s (at_check_time env) = false ->
  is_streamer_limited s u (at_check_time env) = false ->
  at_outcome env = Raised msg ->
  exists s' effects,
    create s u env = Some (s', (false, limited), effects)
    /\ failed_connections (stats s') = S (failed_connections (stats s))
    /\ rate_limit_hits (stats s')
       = (if limited then S (rate_limit_hits (stats s))
          else rate_limit_hits (stats s))
    /\ global_rate_limit_until s'
       = (if limited
          then at_error_time env + global_rate_limit_duration (config s)
          else global_rate_limit_until s)
    /\ get u (streamer_rate_limits s')
       = (if limited
          then Some (at_error_time env + per_streamer_rate_limit (config s))
          else get u (streamer_rate_limits s))
    /\ connection_semaphore s' = connection_semaphore s
    /\ existsb (eqb u) (active_clients s') = true.
Proof.
  intros limited Hlib Hfree Hg Hs Hout.
  destruct (connection_semaphore s) as [|free] eqn:Hsem; [lia|].
  assert (Hclient : forall l : list str,
            existsb (eqb u)
              (if existsb (eqb u) l then l else l ++ [u]) = true).
  { intro l. destruct (existsb (eqb u) l) eqn:E; [exact E|].
    rewrite existsb_app. cbn. rewrite eqb_refl, !orb_true_r. reflexivity. }
  unfold create_streamer_client. rewrite Hlib, Hsem. cbn [negb].
  unfold attempt_connection.
  change (is_globally_limited
            (with_stats incr_connection_attempts (with_semaphore free s))
            (at_check_time env))
    with (is_globally_limited s (at_check_time env)).
  change (is_streamer_limited
            (with_stats incr_connection_attempts (with_semaphore free s)) u
            (at_check_time env))
    with (is_streamer_limited s u (at_check_time env)).
  rewrite Hg, Hs, Hout. fold limited.
  destruct limited; eexists; eexists; (split; [reflexivity|]); cbn.
  - rewrite get_set_same. repeat split. apply Hclient.
  - repeat split. apply Hclient.
Qed.

Lemma attempt_connection_attempts s u env :
  connection_attempts (stats (fst (fst (attempt s u env))))
  = connection_attempts (stats s).
Proof.
  unfold attempt_connection.
  destruct (is_globally_limited _ _); [reflexivity|].
  destruct (is_streamer_limited _ _ _); [reflexivity|].
  destruct (at_outcome env) as [|msg]; [reflexivity|].
  destruct (is_rate_limit_error lower msg); reflexivity.
Qed.

Lemma attempt_connection_frame s u env :
  let s' := fst (fst (attempt s u env)) in
  recent_comments s' = recent_comments s
  /\ session_files s' = session_files s
  /\ running s' = running s
  /\ config s' = config s.
Proof.
  unfold attempt_connection.
  destruct (is_globally_limited _ _); [cbn; auto|].
  destruct (is_streamer_limited _ _ _); [cbn; auto|].
  destruct (at_outcome env) as [|msg]; [cbn; auto|].
  destruct (is_rate_limit_error lower msg); cbn; auto.
Qed.

Lemma create_streamer_client_frame s u env s' r effs :
  create s u env = Some (s', r, effs) ->
  connection_semaphore s' = connection_semaphore s
  /\ (connection_attempts (stats s') <= S (connection_attempts (stats s)))%nat
  /\ recent_comments s' = recent_comments s
  /\ session_files s' = session_files s
  /\ running s' = running s
  /\ config s' = config s.
Proof.
  intro H. split; [exact (create_streamer_client_semaphore _ _ _ _ _ H)|].
  revert H. unfold create_streamer_client.
  destruct (negb TIKTOK_LIVE_AVAILABLE);
    [intros [= <- _ _]; repeat split; lia|].
  destruct (connection_semaphore s) as [|free]; [discriminate|].
  set (s1 := with_stats incr_connection_attempts (with_semaphore free s)).
  pose proof (attempt_connection_attempts s1 u env) as Ha.
  pose proof (attempt_connection_frame s1 u env) as Hf.
  destruct (attempt s1 u env) as [[s2 r2] effs2].
  intros [= <- _ _]. cbn in Ha, Hf |- *.
  destruct Hf as [F1 [F2 [F3 F4]]]. rewrite Ha, F1, F2, F3, F4.
  repeat split. lia.
Qed.

(** X18: the permit is given back on every path: whatever the state and
    the environment, an attempt that returns leaves as many free permits
    as it found and has counted itself once in [connection_attempts]; it
    does not return only when the library is there and no permit is free. *)
Theorem permit_released_on_every_path s u env :
  match create_streamer_client lower TIKTOK_LIVE_AVAILABLE s u env with
  | Some (s', _, _) =>
      connection_semaphore s' = connection_semaphore s
      /\ connection_attempts (stats s')
         = ((if TIKTOK_LIVE_AVAILABLE then 1 else 0)
            + connection_attempts (stats s))%nat
  | None => TIKTOK_LIVE_AVAILABLE = true /\ connection_semaphore s = 0%nat
  end.
Proof.
  destruct (create s u env) as [[[s' r] effs]|] eqn:H.
  - split; [exact (create_streamer_client_semaphore _ _ _ _ _ H)|].
    revert H. unfold create_streamer_client.
    destruct TIKTOK_LIVE_AVAILABLE; cbn [negb];
      [|intros [= <- _ _]; reflexivity].
    destruct (connection_semaphore s) as [|free]; [discriminate|].
    pose proof (attempt_connection_attempts
      (with_stats incr_connection_attempts (with_semaphore free s)) u env) as Ha.
    destruct (attempt _ u env) as [[s2 r2] effs2].
    intros [= <- _ _]. cbn in Ha |- *. rewrite Ha. reflexivity.
  - revert H. unfold create_streamer_client.
    destruct TIKTOK_LIVE_AVAILABLE; cbn [negb]; [|discriminate].
    destruct (connection_semaphore s) as [|free]; [auto|].
    destruct (attempt _ u env) as [[s2 r2] effs2]. discriminate.
Qed.

(** X19: no client is started without the delay before it: whenever an
    attempt starts a client, it is the client of the streamer the attempt
    was made for, the start is the last thing the attempt does, only
    sleeps come before it, and these sleeps add up to the random
    pre-connection delay or more, hence to the lower end of the configured
    range or more. *)
Theorem start_preceded_by_delay s u env s' r effects u' :
  create_streamer_client lower TIKTOK_LIVE_AVAILABLE s u env
  = Some (s', r, effects) ->
  In (StartClient u') effects ->
  u' = u
  /\ exists sleeps,
       effects = sleeps ++ [StartClient u]
       /\ forallb is_sleep sleeps = true
       /\ uniform (pre_connection_delay (config s)) (at_random env)
          <= slept sleeps
       /\ (fst (pre_connection_delay (config s))
           <= snd (pre_connection_delay (config s)) ->
           0 <= at_random env -> at_random env <= 1 ->
           fst (pre_connection_delay (config s)) <= slept sleeps).
Proof.
  unfold create_streamer_client.
  destruct (negb TIKTOK_LIVE_AVAILABLE); [intros [= _ _ <-] []|].
  destruct (connection_semaphore s) as [|free]; [discriminate|].
  unfold attempt_connection.
  destruct (is_globally_limited _ _); [intros [= _ _ <-] []|].
  destruct (is_streamer_limited _ _ _); [intros [= _ _ <-] []|].
  cbn [config last_connection_time with_stats with_semaphore].
  set (pre := uniform (pre_connection_delay (config s)) (at_random env)).
  set (since := at_check_time env - last_connection_time s).
  set (w := if Qltb since (min_connection_interval (config s))
            then [Sleep (min_connection_interval (config s) - since)]
            else []).
  assert (Hw : forallb is_sleep (w ++ [Sleep pre]) = true
               /\ pre <= slept (w ++ [Sleep pre])).
  { unfold w. destruct (Qltb since _) eqn:E; cbn.
    - apply Qltb_lt in E. split; [reflexivity|]. lra.
    - split; [reflexivity|]. lra. }
  destruct Hw as [W1 W2].
  assert (Hall : forall res (s2 : Scraper),
    (s2, res, (w ++ [Sleep pre]) ++ [StartClient u]) = (s', r, effects) ->
    In (StartClient u') effects ->
    u' = u
    /\ exists sleeps,
         effects = sleeps ++ [StartClient u]
         /\ forallb is_sleep sleeps = true
         /\ pre <= slept sleeps
         /\ (fst (pre_connection_delay (config s))
             <= snd (pre_connection_delay (config s)) ->
             0 <= at_random env -> at_random env <= 1 ->
             fst (pre_connection_delay (config s)) <= slept sleeps)).
  { intros res s2 [= _ _ <-] Hin. split.
    - apply in_app_or in Hin. destruct Hin as [Hin|[[= ->]|[]]];
        [|reflexivity].
      exfalso. rewrite forallb_forall in W1. apply W1 in Hin. discriminate.
    - exists (w ++ [Sleep pre]). split; [reflexivity|].
      split; [exact W1|]. split; [exact W2|].
      intros Hr H0 H1.
      destruct (@uniform_between (pre_connection_delay (config s))
                  (at_random env) Hr H0 H1) as [Hlo _].
      fold pre in Hlo. lra. }
  destruct (at_outcome env) as [|msg].
  - intros [= <- <- <-]. apply (Hall _ _ eq_refl).
  - destruct (is_rate_limit_error lower msg);
      intros [= <- <- <-]; apply (Hall _ _ eq_refl).
Qed.

(** *** The loop *)

Lemma monitor_iteration_frame s u v ienv s' v' effs :
  iteration s u v ienv = Some (s', v', effs) ->
  connection_semaphore s' = connection_semaphore s
  /\ (connection_attempts (stats s') <= S (connection_attempts (stats s)))%nat
  /\ recent_comments s' = recent_comments s
  /\ session_files s' = session_files s
  /\ running s' = running s
  /\ config s' = config s.
Proof.
  unfold monitor_iteration.
  destruct (backoff_sleep _ _ _) as [waited|];
    [|intros [= <- _ _]; repeat split; lia].
  destruct (_ && _); [intros [= <- _ _]; repeat split; lia|].
  destruct (create s u (it_attempt ienv)) as [[[s1 [ok rl]] effs1]|] eqn:Hc;
    [|discriminate].
  apply create_streamer_client_frame in Hc.
  destruct rl; [intros [= <- _ _]; exact Hc|].
  destruct ok; unfold cleanup_client;
    destruct (existsb _ _); intros [= <- _ _]; exact Hc.
Qed.

(** X20: a run of the loop, however long and whatever happens in it,
    leaves as many free permits as it found, makes at most one connection
    attempt per iteration, touches neither the comment history nor the
    session files, and ends as stopped only with the flag down. *)
Theorem monitor_loop_invariant envs : forall s u v,
  let r := loop envs s u v in
  connection_semaphore (run_state r) = connection_semaphore s
  /\ (connection_attempts (stats (run_state r))
      <= connection_attempts (stats s) + List.length envs)%nat
  /\ recent_comments (run_state r) = recent_comments s
  /\ session_files (run_state r) = session_files s
  /\ (run_end r = Stopped -> running (run_state r) = false).
Proof.
  induction envs as [|env envs IH]; intros s u v; cbn [monitor_loop].
  - cbn. repeat split; [lia | discriminate].
  - set (s0 := if it_signal env then signal_handler s else s).
    assert (H0 : connection_semaphore s0 = connection_semaphore s
                 /\ stats s0 = stats s
                 /\ recent_comments s0 = recent_comments s
                 /\ session_files s0 = session_files s)
      by (unfold s0; destruct (it_signal env); cbn; auto).
    destruct H0 as [A0 [B0 [C0 D0]]].
    destruct (running s0) eqn:Hrun; cbn [negb].
    + destruct (iteration s0 u v env) as [[[s1 v1] effs]|] eqn:Hit.
      * destruct (monitor_iteration_frame _ _ _ _ Hit) as [A1 [B1 [C1 [D1 _]]]].
        specialize (IH s1 u v1). cbv zeta in IH.
        destruct (loop envs s1 u v1) as [[[s2 v2] effs'] e].
        unfold run_state, run_end in *. cbn [fst snd] in *.
        destruct IH as [I1 [I2 [I3 [I4 I5]]]].
        rewrite I1, I3, I4, A1, C1, D1, A0, C0, D0. rewrite B0 in B1.
        cbn [List.length]. repeat split; [lia | exact I5].
      * cbn. rewrite A0, B0, C0, D0. repeat split; [lia | discriminate].
    + cbn. rewrite A0, B0, C0, D0. repeat split; [lia|]. intros _. exact Hrun.
Qed.


End MoreOrchestratorFacts.

(** ** The bound of the back-off *)

(** X22: no back-off sleep is longer than 1.2 times [max_delay], whatever
    the number of failures, the base delay and the multiplier; and it is
    not negative when the base delay and the multiplier are not.  (Where
    the power of the back-off is out of range there is no back-off sleep.) *)
Theorem backoff_sleep_bounded cfg n r effects d :
  0 <= max_delay cfg -> jitter_range cfg = (0.8, 1.2) ->
  0 <= r -> r <= 1 ->
  backoff_sleep cfg n r = Some effects ->
  In (Sleep d) effects ->
  d <= max_delay cfg * 1.2
  /\ (0 <= base_delay cfg -> 0 <= backoff_multiplier cfg -> 0 <= d).
Proof.
  intros Hc Hrange Hr0 Hr1 Hsome Hin.
  apply backoff_sleep_Some in Hsome.
  destruct Hsome as [[_ ->]|[_ [d' [Hd' ->]]]]; [destruct Hin|].
  destruct Hin as [[= ->]|[]]. rewrite Hrange in Hd'.
  destruct (@uniform_between (0.8, 1.2) r) as [Hlo Hhi];
    [discriminate | exact Hr0 | exact Hr1 |]. cbn [fst snd] in Hlo, Hhi.
  set (j := uniform (0.8, 1.2) r) in *.
  unfold actual_delay, backoff_delay in Hd'.
  destruct (float_pow (backoff_multiplier cfg) n) as [power|] eqn:Ep;
    [|discriminate].
  destruct (float_pow_Some _ _ Ep) as [Hpe _].
  injection Hd' as <-.
  set (delay := Qmin (base_delay cfg * power) (max_delay cfg)).
  pose proof (Q.le_min_r (base_delay cfg * power) (max_delay cfg)) as Hmin.
  fold delay in Hmin.
  split.
  - destruct (Qlt_le_dec delay 0) as [Hneg|Hpos].
    + assert (H1 : delay * j <= 0 * j)
        by (apply Qmult_le_compat_r; lra).
      assert (H2 : 0 <= max_delay cfg * 1.2)
        by (apply Qmult_le_0_compat; lra).
      lra.
    + assert (H1 : delay * j <= max_delay cfg * j)
        by (apply Qmult_le_compat_r; lra).
      assert (H2 : max_delay cfg * j <= max_delay cfg * 1.2)
        by (apply Qmult_le_nonneg_l; lra).
      lra.
  - intros Hb Hm. apply Qmult_le_0_compat; [|lra].
    unfold delay. apply Q.min_glb; [|exact Hc].
    apply Qmult_le_0_compat; [exact Hb|]. rewrite Hpe.
    apply Qpower_0_le. exact Hm.
Qed.

(** ** The list of streamers *)

Lemma username_char_not_space c : username_char c = true -> isspace c = false.
Proof.
  unfold username_char, isspace. intro H.
  repeat (apply orb_true_iff in H; destruct H as [H|H]);
    try (apply andb_true_iff in H; destruct H as [H1 H2];
         apply N.leb_le in H1; apply N.leb_le in H2);
    try (apply N.eqb_eq in H; subst c; reflexivity);
    repeat (apply orb_false_iff; split);
    try (apply N.eqb_neq; lia);
    try (apply andb_false_iff;
         first [left; apply N.leb_gt; lia | right; apply N.leb_gt; lia]).
Qed.

(** X23: every name that [load_streamers] returns is made of 1 to 24
    characters out of letters, digits, underscore and period; the newline
    that the pattern would let pass at the end cannot occur, the name being
    stripped. *)
Theorem loaded_streamers_are_valid file name :
  In name (load_streamers file) ->
  forallb username_char name = true
  /\ (1 <= List.length name <= 24)%nat.
Proof.
  destruct file as [lines|]; [|intros []]. cbn [load_streamers].
  intro H. apply in_flat_map in H. destruct H as [line [_ H]].
  unfold load_line in H.
  destruct (negb (is_empty (strip line))
            && negb (startswith (strip line) (lit "#"))); [|destruct H].
  set (username := strip (remove_char 64 (strip line))) in *.
  destruct (_validate_username username) eqn:V; [|destruct H].
  destruct H as [<-|[]].
  unfold _validate_username in V.
  destruct (is_empty username); [discriminate|].
  unfold username_pattern in V.
  assert (Hrun : username_run username = true).
  { apply orb_true_iff in V. destruct V as [V|V]; [exact V|].
    destruct (rev username) as [|c r] eqn:R; [discriminate|].
    apply strip_last in R.
    destruct c as [|p]; [discriminate|].
    destruct (N.eq_dec (N.pos p) 10) as [E|E].
    - rewrite E in R. discriminate.
    - exfalso. clear -V E. destruct p as [p|p|]; try discriminate;
        destruct p as [p|p|]; try discriminate;
        destruct p as [p|p|]; try discriminate;
        destruct p as [p|p|]; try discriminate. congruence. }
  unfold username_run in Hrun.
  apply andb_true_iff in Hrun. destruct Hrun as [Hlen Hall].
  apply andb_true_iff in Hlen. destruct Hlen as [H1 H2].
  apply Nat.leb_le in H1. apply Nat.leb_le in H2. auto.
Qed.

(** X24: a line that holds a valid name, with or without an at-sign
    before it and with any whitespace around it, adds that name to the
    list; the list keeps the order of the lines and keeps a name as often
    as the file has it. *)
Theorem load_streamers_accepts name (p1 p2 : str) lines1 lines2 :
  username_run name = true ->
  forallb isspace p1 = true -> forallb isspace p2 = true ->
  load_line (p1 ++ name ++ p2) = [name]
  /\ load_line (p1 ++ (64%N :: name) ++ p2) = [name]
  /\ load_streamers (Some (lines1 ++ lines2))
     = load_streamers (Some lines1) ++ load_streamers (Some lines2).
Proof.
  intros Hrun H1 H2.
  pose proof Hrun as Hrun'. unfold username_run in Hrun'.
  apply andb_true_iff in Hrun'. destruct Hrun' as [Hlen Hall].
  apply andb_true_iff in Hlen. destruct Hlen as [Hl1 _].
  apply Nat.leb_le in Hl1.
  assert (Hns : forallb (fun c => negb (isspace c)) name = true).
  { apply forallb_forall. intros c Hc. rewrite forallb_forall in Hall.
    rewrite (username_char_not_space _ (Hall c Hc)). reflexivity. }
  assert (Hat : remove_char 64 name = name).
  { unfold remove_char. apply forallb_filter_id. apply forallb_forall.
    intros c Hc. rewrite forallb_forall in Hall. specialize (Hall c Hc).
    destruct (c =? 64)%N eqn:E; [|reflexivity].
    apply N.eqb_eq in E. subst c. discriminate. }
  assert (Hvalid : _validate_username name = true).
  { unfold _validate_username, username_pattern. rewrite Hrun.
    destruct name; [cbn in Hl1; lia | reflexivity]. }
  assert (Hstrip : strip name = name) by (apply strip_no_space, Hns).
  assert (Hhead : forall c r, name = c :: r -> (c =? 35)%N = false).
  { intros c r ->. cbn in Hall. apply andb_true_iff in Hall.
    destruct Hall as [Hc _]. destruct (c =? 35)%N eqn:E; [|reflexivity].
    apply N.eqb_eq in E. subst c. discriminate. }
  split; [|split].
  - unfold load_line. rewrite strip_padded, Hstrip by assumption.
    destruct name as [|c r] eqn:N; [cbn in Hl1; lia|].
    cbn [is_empty negb andb]. change (lit "#") with [35%N].
    cbn [startswith]. rewrite (N.eqb_sym 35 c), (Hhead c r eq_refl).
    cbn [andb negb].
    rewrite Hat, Hstrip, Hvalid. reflexivity.
  - unfold load_line. rewrite strip_padded by assumption.
    assert (Hs2 : strip (64%N :: name) = 64%N :: name).
    { apply strip_no_space. cbn. exact Hns. }
    rewrite Hs2. cbn [is_empty negb].
    change (startswith (64%N :: name) (lit "#")) with false. cbn [andb negb].
    assert (Hrm : remove_char 64 (64%N :: name) = remove_char 64 name)
      by reflexivity.
    rewrite Hrm, Hat, Hstrip, Hvalid. reflexivity.
  - cbn [load_streamers]. apply flat_map_app.
Qed.

(** ** The connect and disconnect handlers *)

Lemma set_add_NoDup u (l : list str) : NoDup l -> NoDup (set_add u l).
Proof.
  intro H. unfold set_add. destruct (existsb (eqb u) l) eqn:E; [exact H|].
  apply NoDup_rev in H. rewrite <- (rev_involutive (l ++ [u])).
  apply NoDup_rev. rewrite rev_app_distr. cbn. constructor; [|exact H].
  rewrite <- in_rev. intro Hin.
  assert (Hex : existsb (eqb u) l = true).
  { apply existsb_exists. exists u. split; [exact Hin | apply eqb_refl]. }
  congruence.
Qed.

Lemma set_add_length u (l : list str) :
  (List.length (set_add u l) <= S (List.length l))%nat.
Proof.
  unfold set_add. destruct (existsb (eqb u) l); [lia|].
  rewrite length_app. cbn. lia.
Qed.

Lemma set_remove_NoDup u (l : list str) : NoDup l -> NoDup (set_remove u l).
Proof. apply NoDup_filter. Qed.

Lemma set_remove_length u (l : list str) :
  existsb (eqb u) l = true ->
  (S (List.length (set_remove u l)) <= List.length l)%nat.
Proof.
  unfold set_remove. induction l as [|x l IH]; cbn; [discriminate|].
  destruct (eqb u x) eqn:E; cbn.
  - intros _. pose proof (filter_length_le (fun y => negb (eqb u y)) l). lia.
  - intro H. specialize (IH H). lia.
Qed.

Lemma set_remove_add u (l : list str) :
  existsb (eqb u) l = false -> set_remove u (set_add u l) = l.
Proof.
  intro H. unfold set_add. rewrite H. unfold set_remove.
  rewrite filter_app. cbn. rewrite eqb_refl. cbn. rewrite app_nil_r.
  apply forallb_filter_id. apply forallb_forall. intros x Hx.
  destruct (eqb u x) eqn:E; [|reflexivity].
  assert (Hex : existsb (eqb u) l = true)
    by (apply existsb_exists; exists x; auto).
  congruence.
Qed.

Section HandlerFacts.

Variables lower nfc : str -> str.

Local Notation connect := (on_connect lower nfc).
Local Notation disconnect := (on_disconnect lower nfc).

Lemma system_notice_frame s u a c now :
  let s' := save_event lower nfc s u (lit "system") a c now in
  stats s' = stats s /\ active_sessions s' = active_sessions s
  /\ recent_comments s' = recent_comments s.
Proof.
  assert (H : lit "system" <> lit "comment") by discriminate.
  destruct (non_comment_frame_aux lower nfc s u a c now H) as [H1 [H2 H3]].
  auto.
Qed.

(** X25: the handlers keep the sessions and their count in step: if the
    active sessions are distinct names and no more than
    [active_connections], they still are after a connect and after a
    disconnect, for any streamer. *)
Theorem handlers_keep_sessions_counted s u now :
  sessions_counted s ->
  sessions_counted (connect s u now) /\ sessions_counted (disconnect s u now).
Proof.
  unfold sessions_counted. intros [Hnd Hlen]. split.
  - unfold on_connect.
    match goal with |- context [save_event lower nfc ?x u _ _ _ now] =>
      destruct (system_notice_frame x u (lit "SCRAPER")
                  (lit "Connected to live stream") now) as [Hs [Ha _]] end.
    rewrite Hs, Ha. cbn. split; [apply set_add_NoDup, Hnd|].
    pose proof (set_add_length u (active_sessions s)). lia.
  - unfold on_disconnect.
    match goal with |- context [save_event lower nfc ?x u _ _ _ now] =>
      destruct (system_notice_frame x u (lit "SCRAPER")
                  (lit "Disconnected from live stream") now) as [Hs [Ha _]] end.
    rewrite Hs, Ha.
    destruct (existsb (eqb u) (active_sessions s)) eqn:E; cbn.
    + split; [apply set_remove_NoDup, Hnd|].
      pose proof (set_remove_length u (active_sessions s) E). lia.
    + auto.
Qed.

(** X26: a connect followed by a disconnect of a streamer that had no
    session gives back the sessions and the count of connections as they
    were, changes neither the counters of comments nor the comment
    history, and leaves two notices at the end of the session file. *)
Theorem connect_disconnect_round_trip s u t1 t2 :
  let s2 := disconnect (connect s u t1) u t2 in
  existsb (eqb u) (active_sessions s) = false ->
  active_sessions s2 = active_sessions s
  /\ stats s2 = stats s
  /\ recent_comments s2 = recent_comments s
  /\ file_lines (session_files s2) u
     = (if mem u (session_files s) then file_lines (session_files s) u
        else [session_header u])
       ++ [lit "SYSTEM: Connected to live stream";
           lit "SYSTEM: Disconnected from live stream"].
Proof.
  intros s2 Hno.
  set (line1 := lit "SYSTEM: Connected to live stream").
  set (line2 := lit "SYSTEM: Disconnected from live stream").
  set (s1 := connect s u t1).
  assert (H1 : stats s1
               = with_active_connections (S (active_connections (stats s)))
                   (stats s)
               /\ active_sessions s1 = set_add u (active_sessions s)
               /\ recent_comments s1 = recent_comments s
               /\ file_lines (session_files s1) u
                  = (if mem u (session_files s)
                     then file_lines (session_files s) u
                     else [session_header u]) ++ [line1]
               /\ mem u (session_files s1) = true).
  { unfold s1, on_connect.
    set (x := with_stats _ _).
    destruct (system_notice_frame x u (lit "SCRAPER")
                (lit "Connected to live stream") t1) as [Hs [Ha Hr]].
    destruct (non_comment_event_lines lower nfc x u (lit "SCRAPER")
                (lit "Connected to live stream") t1) as [L M].
    rewrite Hs, Ha, Hr, L, M. unfold x. cbn. auto. }
  destruct H1 as [Hst [Hact [Hrc [Hl1 Hm1]]]].
  assert (Hin : existsb (eqb u) (active_sessions s1) = true).
  { rewrite Hact. unfold set_add. rewrite Hno, existsb_app. cbn.
    rewrite eqb_refl, orb_true_r. reflexivity. }
  change s2 with (disconnect s1 u t2). unfold on_disconnect. rewrite Hin.
  set (y := with_stats _ _).
  assert (Hy : stats y
               = with_active_connections
                   (Nat.max 0 (active_connections (stats s1) - 1)) (stats s1)
               /\ active_sessions y = set_remove u (active_sessions s1)
               /\ recent_comments y = recent_comments s1
               /\ session_files y = session_files s1)
    by (unfold y; cbn; auto).
  destruct Hy as [Y1 [Y2 [Y3 Y4]]].
  destruct (system_notice_frame y u (lit "SCRAPER")
              (lit "Disconnected from live stream") t2) as [Hs [Ha Hr]].
  destruct (non_comment_event_lines lower nfc y u (lit "SCRAPER")
              (lit "Disconnected from live stream") t2) as [L _].
  rewrite Hs, Ha, Hr, L, Y1, Y2, Y3, Y4, Hm1, Hl1, Hst, Hact, Hrc.
  rewrite set_remove_add by exact Hno.
  split; [reflexivity|]. split.
  { destruct (stats s). cbn. rewrite Nat.sub_0_r. reflexivity. }
  split; [reflexivity|].
  rewrite <- app_assoc. reflexivity.
Qed.

End HandlerFacts.

(* ------------------------------------------------------------------ *)
(** * The further properties on concrete runs *)

(** The three ideographs of the word for the Japanese language. *)
Lemma enclosed_range_is_emoji_only_witness :
  _is_emoji_only_message [0x65E5; 0x672C; 0x8A9E]%N = true.
Proof.
  apply enclosed_range_is_emoji_only.
  intros c [<-|[<-|[<-|[]]]]; split; lia.
Defined.

(** A blank comment after a first comment. *)
Lemma emoji_only_never_written_witness :
  let s := comment_by_u1 (lit "hi") 0 fresh in
  let s' := comment_by_u1 (lit "   ") 40 s in
  _is_emoji_only_message (lit "   ") = true
  /\ session_files s' = session_files s
  /\ comments_captured (stats s') = comments_captured (stats s)
  /\ duplicates_filtered (stats s') = S (duplicates_filtered (stats s)).
Proof.
  intros s s'. split; [reflexivity|].
  apply (@emoji_only_never_written ascii_lower nfc_ascii s (lit "streamer")
           (lit "u1") (lit "   ") 40).
  reflexivity.
Defined.

(** A system notice with a line feed in it, on a new session file. *)
Lemma non_comment_event_frame_witness :
  let s' := save_event ascii_lower nfc_ascii fresh (lit "streamer")
              (lit "system") (lit "SCRAPER") (lit "up " ++ [10%N] ++ lit "now ")
              0 in
  recent_comments s' = recent_comments fresh
  /\ stats s' = stats fresh
  /\ file_lines (session_files s') (lit "streamer")
     = [session_header (lit "streamer"); lit "SYSTEM: up  now"].
Proof.
  intro s'.
  destruct (@non_comment_event_frame ascii_lower nfc_ascii fresh
              (lit "streamer") (lit "system") (lit "SCRAPER")
              (lit "up " ++ [10%N] ++ lit "now ") 0) as [H1 [H2 H3]].
  - discriminate.
  - split; [exact H1|]. split; [exact H2|]. exact (H3 eq_refl).
Defined.

(** A comment of two lines with blanks around it. *)
Lemma forwarded_comment_is_one_line_witness :
  let c := lit " one" ++ [13; 10]%N ++ lit "two " in
  let s' := comment_by_u1 c 0 fresh in
  comments_captured (stats s') = S (comments_captured (stats fresh))
  /\ exists before line,
       file_lines (session_files s') (lit "streamer") = before ++ [line]
       /\ line <> []
       /\ ~ In 10%N line /\ ~ In 13%N line
       /\ isspace (hd 0%N line) = false
       /\ isspace (hd 0%N (rev line)) = false.
Proof.
  intros c s'.
  assert (H : comments_captured (stats s') = S (comments_captured (stats fresh)))
    by (vm_compute; reflexivity).
  split; [exact H|].
  apply (@forwarded_comment_is_one_line ascii_lower nfc_ascii fresh
           (lit "streamer") (lit "u1") c 0 H).
Defined.

(** A comment on one stream and the ledger of another. *)
Lemma other_ledgers_untouched_witness :
  let s := with_recent_comments [(lit "other", history 2 0)] fresh in
  get (lit "other") (recent_comments (comment_by_u1 (lit "hi") 1 s))
  = Some (history 2 0).
Proof.
  intro s. unfold comment_by_u1.
  rewrite (@other_ledgers_untouched ascii_lower nfc_ascii s (lit "streamer")
             (lit "comment") (lit "u1") (lit "hi") 1 (lit "other")).
  - reflexivity.
  - discriminate.
Defined.

(** The comment "hi" and, five seconds later, the same with blanks and a
    line feed around it. *)
Lemma padded_repeat_suppressed_witness :
  let s := comment_by_u1 (lit "hi") 0 fresh in
  comment_by_u1 (lit "  " ++ lit "hi" ++ [32; 10]%N) 5 s
  = with_stats incr_duplicates_filtered s.
Proof.
  intro s.
  apply (@padded_repeat_suppressed ascii_lower nfc_ascii s (lit "streamer")
           (lit "u1") (lit "hi") 5 0 (lit "  ") [32; 10]%N).
  - vm_compute. reflexivity.
  - reflexivity.
  - reflexivity.
  - reflexivity.
Defined.

(** The comment "hi" at 0 and again at 30. *)
Lemma repeat_at_window_end_forwarded_witness :
  let s := comment_by_u1 (lit "hi") 0 fresh in
  let s' := comment_by_u1 (lit "hi") 30 s in
  comments_captured (stats s') = S (comments_captured (stats s))
  /\ get (exact_hash (lit "u1") (lit "hi")) (streamer_ledger s') = Some 30
  /\ get (similarity_hash ascii_lower nfc_ascii (lit "u1") (lit "hi"))
       (streamer_ledger s') = Some 30.
Proof.
  intros s s'.
  apply (@repeat_at_window_end_forwarded ascii_lower nfc_ascii s
           (lit "streamer") (lit "u1") (lit "hi") 30 0).
  - vm_compute. reflexivity.
  - vm_compute. reflexivity.
  - discriminate.
  - vm_compute. reflexivity.
  - reflexivity.
  - apply distinct_wf. vm_compute. reflexivity.
  - left. vm_compute. lia.
Defined.

(** A ledger of 1001 hashes stamped 0 to 1000, cleaned at 4000: the
    hashes stamped before 400 are too old, and the cap is not reached. *)
Lemma cleanup_ledger_idempotent_witness :
  let l := rising_history 1001 in
  List.length (cleanup_ledger l 4000) = 601%nat
  /\ cleanup_ledger (cleanup_ledger l 4000) 4000 = cleanup_ledger l 4000.
Proof.
  intro l. split; [vm_compute; reflexivity|].
  apply (@cleanup_ledger_idempotent l 4000).
  apply distinct_wf. vm_compute. reflexivity.
Defined.

(** A history of two streamers at 90000: one hash of the first is older
    than 24 hours, and so is the only hash of the second. *)
Lemma snapshot_entries_recent_witness :
  let rc := [(lit "a", [(lit "k0", 0); (lit "k1", 80000)]);
             (lit "b", [(lit "k0", 0)])] in
  get (lit "a") (cleaned_history rc 90000) = Some [(lit "k1", 80000)]
  /\ get (lit "b") (cleaned_history rc 90000) = None
  /\ [(lit "k1", 80000)] <> []
  /\ Forall (fun kv : str * Q => 90000 - 24 * 3600 < snd kv)
       [(lit "k1", 80000)].
Proof.
  intro rc.
  assert (H : get (lit "a") (cleaned_history rc 90000)
              = Some [(lit "k1", 80000)]) by (vm_compute; reflexivity).
  split; [exact H|]. split; [vm_compute; reflexivity|].
  apply (@snapshot_entries_recent rc 90000 (lit "a") [(lit "k1", 80000)] H).
Defined.

(** The comment "hi" at 0, a snapshot at 10 and the same comment at 12. *)
Lemma snapshot_keeps_decisions_witness :
  let s := comment_by_u1 (lit "hi") 0 fresh in
  let restored :=
    _load_comment_history (Parsed (cleaned_history (recent_comments s) 10))
      fresh in
  snd (_is_duplicate_comment ascii_lower nfc_ascii s (lit "streamer")
         (lit "u1") (lit "hi") 12) = true
  /\ snd (_is_duplicate_comment ascii_lower nfc_ascii restored (lit "streamer")
            (lit "u1") (lit "hi") 12) = true
  /\ snd (_is_duplicate_comment ascii_lower nfc_ascii
            (_load_comment_history NoHistory fresh) (lit "streamer")
            (lit "u1") (lit "hi") 12) = false.
Proof.
  intros s restored.
  destruct (@snapshot_keeps_decisions ascii_lower nfc_ascii s fresh 10
              (lit "streamer") (lit "u1") (lit "hi") 12) as [H1 [H2 _]].
  - apply distinct_wf. vm_compute. reflexivity.
  - apply distinct_wf. vm_compute. reflexivity.
  - discriminate.
  - split; [vm_compute; reflexivity|]. split; [|exact H2].
    unfold restored. rewrite H1. vm_compute. reflexivity.
Defined.

(** The figures 200 seconds into the limits set by a signal at 100. *)
Lemma status_figures_agree_witness :
  let s := record_rate_limit fresh (lit "a") 100 in
  (0 < global_rl_remaining s 300 <-> is_globally_limited s 300 = true)
  /\ active_rl_count s 300
     = List.length
         (filter (fun kv => is_streamer_limited s (fst kv) 300)
            (streamer_rate_limits s))
  /\ ((0 < active_rl_count s 300)%nat
      <-> exists u, is_streamer_limited s u 300 = true).
Proof.
  intro s. apply (@status_figures_agree s 300).
  apply distinct_wf. vm_compute. reflexivity.
Defined.

(** A signal for [a] at 100 and one for [b] at 200. *)
Lemma later_signal_never_shortens_witness :
  let s1 := record_rate_limit fresh (lit "a") 100 in
  let s2 := record_rate_limit s1 (lit "b") 200 in
  global_rate_limit_until s1 <= global_rate_limit_until s2
  /\ exists t1 t2,
       get (lit "a") (streamer_rate_limits s1) = Some t1
       /\ get (lit "a") (streamer_rate_limits s2) = Some t2
       /\ t1 <= t2.
Proof.
  intros s1 s2.
  apply (@later_signal_never_shortens fresh (lit "a") (lit "b") 100 200).
  discriminate.
Defined.

(** A signal for [a] at 100 and attempts at 200. *)
Lemma rate_limit_holds_back_all_witness :
  let s1 := record_rate_limit fresh (lit "a") 100 in
  let env := {| at_check_time := 200; at_random := 0.5;
                at_connect_time := 203.5; at_outcome := Started;
                at_error_time := 203.5 |} in
  (exists s', create_streamer_client ascii_lower true s1 (lit "b") env
              = Some (s', (false, true), []))
  /\ (exists s', create_streamer_client ascii_lower true s1 (lit "a") env
                 = Some (s', (false, true), [])).
Proof.
  intros s1 env.
  destruct (@rate_limit_holds_back_all ascii_lower true fresh (lit "a") 100
              (lit "b") env) as [H1 H2].
  - reflexivity.
  - simpl. lia.
  - split; [apply H1 | apply H2]; reflexivity.
Defined.

(** A start that fails with a time-out, and one that fails with the
    status 429. *)
Lemma failed_start_classified_witness :
  let env429 := {| at_check_time := 100; at_random := 0.5;
                   at_connect_time := 103.5;
                   at_outcome := Raised (lit "HTTP 429 Too Many Requests");
                   at_error_time := 104 |} in
  (exists s' effects,
     create_streamer_client ascii_lower true fresh (lit "streamer")
       failing_attempt = Some (s', (false, false), effects)
     /\ rate_limit_hits (stats s') = 0%nat
     /\ global_rate_limit_until s' = 0)
  /\ (exists s' effects,
        create_streamer_client ascii_lower true fresh (lit "streamer") env429
        = Some (s', (false, true), effects)
        /\ rate_limit_hits (stats s') = 1%nat
        /\ global_rate_limit_until s' = 104 + 1800).
Proof.
  intro env429. split.
  - destruct (@failed_start_classified ascii_lower true fresh (lit "streamer")
                failing_attempt (lit "timed out"))
      as [s' [effects [H1 [_ [H3 [H4 _]]]]]];
      [reflexivity | simpl; lia | reflexivity | reflexivity | reflexivity |].
    exists s', effects. split; [exact H1|]. split; [exact H3 | exact H4].
  - destruct (@failed_start_classified ascii_lower true fresh (lit "streamer")
                env429 (lit "HTTP 429 Too Many Requests"))
      as [s' [effects [H1 [_ [H3 [H4 _]]]]]];
      [reflexivity | simpl; lia | reflexivity | reflexivity | reflexivity |].
    exists s', effects. split; [exact H1|]. split; [exact H3 | exact H4].
Defined.

(** The first attempt of a fresh scraper, 100 seconds after its start. *)
Lemma start_preceded_by_delay_witness :
  exists s' r effects,
    create_streamer_client ascii_lower true fresh (lit "streamer")
      failing_attempt = Some (s', r, effects)
    /\ exists sleeps,
         effects = sleeps ++ [StartClient (lit "streamer")]
         /\ forallb is_sleep sleeps = true
         /\ uniform (2, 5) 0.5 <= slept sleeps
         /\ 2 <= slept sleeps.
Proof.
  destruct (create_streamer_client ascii_lower true fresh (lit "streamer")
              failing_attempt) as [[[s' r] effects]|] eqn:H;
    [|vm_compute in H; discriminate H].
  exists s', r, effects. split; [reflexivity|].
  assert (Hin : In (StartClient (lit "streamer")) effects).
  { pose proof H as H'. vm_compute in H'. injection H' as _ _ <-.
    right. left. reflexivity. }
  destruct (@start_preceded_by_delay ascii_lower true fresh (lit "streamer")
              failing_attempt s' r effects (lit "streamer") H Hin)
    as [_ [sleeps [E [A [P L]]]]].
  exists sleeps. split; [exact E|]. split; [exact A|]. split; [exact P|].
  apply L; discriminate.
Defined.

(** A failed attempt and then the signal, after one failure. *)
Lemma monitor_loop_invariant_witness :
  let r := monitor_loop ascii_lower true
             [failing_iteration false; failing_iteration true] fresh
             (lit "streamer") after_one_failure in
  connection_semaphore (run_state r) = connection_semaphore fresh
  /\ (connection_attempts (stats (run_state r))
      <= connection_attempts (stats fresh) + 2)%nat
  /\ recent_comments (run_state r) = recent_comments fresh
  /\ session_files (run_state r) = session_files fresh
  /\ (run_end r = Stopped -> running (run_state r) = false).
Proof.
  intro r.
  apply (@monitor_loop_invariant ascii_lower true
           [failing_iteration false; failing_iteration true] fresh
           (lit "streamer") after_one_failure).
Defined.


(** The sleep after seven failures with the default configuration. *)
Lemma backoff_sleep_bounded_witness :
  let d := Qmin (15 * 2 ^ 7) 1800 * uniform (0.8, 1.2) 0.75 in
  backoff_sleep default_config 7 0.75 = Some [Sleep d]
  /\ d <= 1800 * 1.2 /\ 0 <= d.
Proof.
  intro d.
  assert (E : backoff_sleep default_config 7 0.75 = Some [Sleep d])
    by (vm_compute; reflexivity).
  destruct (@backoff_sleep_bounded default_config 7 0.75 [Sleep d] d)
    as [H1 H2].
  - discriminate.
  - reflexivity.
  - discriminate.
  - discriminate.
  - exact E.
  - left. reflexivity.
  - split; [exact E|]. split; [exact H1|]. apply H2; discriminate.
Defined.

(** A file of a comment, a name with an at-sign and a name with a blank
    in it. *)
Lemma loaded_streamers_are_valid_witness :
  let file := Some [lit "# streamers"; lit " @user_1 " ++ [10%N];
                    lit "bad name"] in
  load_streamers file = [lit "user_1"]
  /\ forallb username_char (lit "user_1") = true
  /\ (1 <= List.length (lit "user_1") <= 24)%nat.
Proof.
  intro file. split; [vm_compute; reflexivity|].
  apply (@loaded_streamers_are_valid file (lit "user_1")).
  vm_compute. left. reflexivity.
Defined.

Lemma load_streamers_accepts_witness :
  load_line (lit "  " ++ lit "user_1" ++ [10%N]) = [lit "user_1"]
  /\ load_line (lit "  " ++ (64%N :: lit "user_1") ++ [10%N]) = [lit "user_1"]
  /\ load_streamers (Some ([lit "a"; lit "b"] ++ [lit "a"]))
     = load_streamers (Some [lit "a"; lit "b"]) ++ load_streamers (Some [lit "a"]).
Proof.
  apply (@load_streamers_accepts (lit "user_1") (lit "  ") [10%N]
           [lit "a"; lit "b"] [lit "a"]); reflexivity.
Defined.

(** A fresh scraper has no session and counts no connection. *)
Lemma handlers_keep_sessions_counted_witness :
  sessions_counted
    (on_connect ascii_lower nfc_ascii fresh (lit "streamer") 0)
  /\ sessions_counted
       (on_disconnect ascii_lower nfc_ascii fresh (lit "streamer") 0).
Proof.
  apply (@handlers_keep_sessions_counted ascii_lower nfc_ascii fresh
           (lit "streamer") 0).
  split; [constructor | simpl; lia].
Defined.

(** A connection of ten seconds on a fresh scraper. *)
Lemma connect_disconnect_round_trip_witness :
  let s2 := on_disconnect ascii_lower nfc_ascii
              (on_connect ascii_lower nfc_ascii fresh (lit "streamer") 0)
              (lit "streamer") 10 in
  active_sessions s2 = []
  /\ stats s2 = stats fresh
  /\ recent_comments s2 = []
  /\ file_lines (session_files s2) (lit "streamer")
     = [session_header (lit "streamer");
        lit "SYSTEM: Connected to live stream";
        lit "SYSTEM: Disconnected from live stream"].
Proof.
  intro s2.
  apply (@connect_disconnect_round_trip ascii_lower nfc_ascii fresh
           (lit "streamer") 0 10).
  reflexivity.
Defined.
